(** * The DCN training control loop ([training/compression.py])

  A shallow embedding of [train_dcn]: the epoch loop, the learning-rate
  schedule, the per-batch augmentation sampling, the NaN hook, the metric
  caches ([collections.deque] with [maxlen]), the performance log, the
  validation round with its snapshot and the convergence / deterioration
  check.

  Conventions of the embedding.
  - Python floats are exact rationals extended with the IEEE special values
    (infinities and NaN); rounding and signed zeros are not represented.
  - The model ([dcn]), the data provider and the random generator are
    collaborators whose answers are given by a record of oracles, indexed by
    the epoch and the batch at which the code asks.
  - Every externally visible effect (prints, files, summary writer, progress
    bar) is appended to a trace, in program order.
  - Python exceptions that the control code itself can raise are explicit. *)

From Stdlib Require Import QArith Qabs Lqa ZArith List Ascii String Lia.
From Stdlib Require Import DecimalNat DecimalString.
From stdpp Require Import gmap strings list fin_maps.

Local Open Scope Z_scope.

(* ===================================================================== *)
(** ** Floats as used by the loop *)
(* ===================================================================== *)

Module Np.

(** [Inf true] is minus infinity. *)
Inductive float : Type :=
| Fin (q : Q)
| Inf (negative : bool)
| NaN.

Definition Qlt_bool (a b : Q) : bool := negb (Qle_bool b a).

Definition isnan (x : float) : bool :=
  match x with NaN => true | _ => false end.

Definition neg (x : float) : float :=
  match x with
  | Fin q => Fin (- q)%Q
  | Inf s => Inf (negb s)
  | NaN => NaN
  end.

Definition add (x y : float) : float :=
  match x, y with
  | NaN, _ | _, NaN => NaN
  | Fin a, Fin b => Fin (a + b)%Q
  | Inf s, Fin _ | Fin _, Inf s => Inf s
  | Inf s, Inf t => if Bool.eqb s t then Inf s else NaN
  end.

Definition sub (x y : float) : float := add x (neg y).

Definition mul (x y : float) : float :=
  match x, y with
  | NaN, _ | _, NaN => NaN
  | Fin a, Fin b => Fin (a * b)%Q
  | Inf s, Fin b | Fin b, Inf s =>
      match (b ?= 0)%Q with
      | Eq => NaN
      | Gt => Inf s
      | Lt => Inf (negb s)
      end
  | Inf s, Inf t => Inf (xorb s t)
  end.

(** Division of numpy scalars: a zero divisor gives an infinity or NaN (and
    a warning), never an exception. *)
Definition div (x y : float) : float :=
  match x, y with
  | NaN, _ | _, NaN => NaN
  | Fin a, Fin b =>
      if Qeq_bool b 0 then
        match (a ?= 0)%Q with
        | Eq => NaN
        | Gt => Inf false
        | Lt => Inf true
        end
      else Fin (a / b)%Q
  | Fin _, Inf _ => Fin 0
  | Inf s, Fin b => if Qlt_bool b 0 then Inf (negb s) else Inf s
  | Inf _, Inf _ => NaN
  end.

Definition abs (x : float) : float :=
  match x with
  | Fin q => Fin (Qabs q)
  | Inf _ => Inf false
  | NaN => NaN
  end.

(** [x < y]; every comparison with NaN is false. *)
Definition ltb (x y : float) : bool :=
  match x, y with
  | Fin a, Fin b => Qlt_bool a b
  | Inf true, Fin _ | Fin _, Inf false | Inf true, Inf false => true
  | _, _ => false
  end.

Definition sum (l : list float) : float := fold_left add l (Fin 0).

(** [np.mean]: the sum divided by the number of elements; the mean of an
    empty sequence is NaN (with a warning). *)
Definition mean (l : list float) : float :=
  div (sum l) (Fin (inject_Z (Z.of_nat (length l)))).

(** [np.arange(a, b)] on integers. *)
Definition arange (a b : Z) : list Z :=
  map (fun k => a + Z.of_nat k) (seq 0 (Z.to_nat (b - a))).

End Np.

(* ===================================================================== *)
(** ** Python exceptions, sequences and deques *)
(* ===================================================================== *)

Inductive exn : Type :=
| ZeroDivisionError
| KeyError (key : string)
| IndexError
| ValueError
| NameError (name : string).

Inductive result (A : Type) : Type :=
| Ok (a : A)
| Raise (e : exn).
Arguments Ok {A} a.
Arguments Raise {A} e.

Module Py.

(** A slice bound [i] of a sequence of length [n], as Python clamps it. *)
Definition clamp (n : nat) (i : Z) : nat :=
  if i <? 0 then Z.to_nat (Z.max 0 (Z.of_nat n + i))
  else Nat.min n (Z.to_nat i).

(** [l[start:stop]] with step 1; [None] is an omitted bound. *)
Definition slice {A} (start stop : option Z) (l : list A) : list A :=
  let n := length l in
  let lo := match start with Some i => clamp n i | None => 0%nat end in
  let hi := match stop with Some i => clamp n i | None => n end in
  firstn (hi - lo) (skipn lo l).

(** [l[::2]]. *)
Fixpoint every_other {A} (l : list A) : list A :=
  match l with
  | [] => []
  | x :: l' =>
      x :: match l' with
           | [] => []
           | _ :: l'' => every_other l''
           end
  end.

(** [l[i]]: negative indices count from the end; out of range raises. *)
Definition index {A} (l : list A) (i : Z) : result A :=
  let j := if i <? 0 then Z.of_nat (length l) + i else i in
  if j <? 0 then Raise IndexError
  else match nth_error l (Z.to_nat j) with
       | Some x => Ok x
       | None => Raise IndexError
       end.

(** [a // b] on integers. *)
Definition floordiv (a b : Z) : result Z :=
  if b =? 0 then Raise ZeroDivisionError else Ok (a / b).

(** [a % b] on integers (the result has the sign of [b]). *)
Definition modulo (a b : Z) : result Z :=
  if b =? 0 then Raise ZeroDivisionError else Ok (a mod b).

(** [collections.deque(maxlen=n)]. *)
Record deque : Type := Deque { maxlen : nat; items : list Np.float }.

Definition deque_new (n : Z) : result deque :=
  if n <? 0 then Raise ValueError else Ok (Deque (Z.to_nat n) []).

(** [d.append(v)]: the item is added on the right; a deque that is longer
    than [maxlen] afterwards drops its leftmost item. *)
Definition append (v : Np.float) (d : deque) : deque :=
  let l := (items d ++ [v])%list in
  Deque (maxlen d) (if (maxlen d <? length l)%nat then tail l else l).

(** ['{:05d}'.format(n)] for a non-negative [n]. *)
Definition zeros (k : nat) : string :=
  string_of_list_ascii (repeat "0"%char k).

Definition decimal (n : nat) : string :=
  NilZero.string_of_uint (Nat.to_uint n).

Definition format_05d (n : nat) : string :=
  let d := decimal n in
  (zeros (5 - String.length d) ++ d)%string.

End Py.

(* ===================================================================== *)
(** ** Data model *)
(* ===================================================================== *)

Inductive metric : Type := Loss | Ssim | Entropy.
Inductive split : Type := Training | Validation.

#[global] Instance metric_eq_dec : EqDecision metric.
Proof. solve_decision. Defined.

#[global] Instance split_eq_dec : EqDecision split.
Proof. solve_decision. Defined.

(** The keys of [caches] and of [dcn.performance]. *)
Definition cache_key (key : string) : option metric :=
  if String.eqb key "loss" then Some Loss
  else if String.eqb key "ssim" then Some Ssim
  else if String.eqb key "entropy" then Some Entropy
  else None.

(** A dictionary [{key: {'training': _, 'validation': _}}] over the three
    metric keys. *)
Record table (A : Type) : Type := Table {
  loss_training : A;
  loss_validation : A;
  ssim_training : A;
  ssim_validation : A;
  entropy_training : A;
  entropy_validation : A
}.
Arguments Table {A}.
Arguments loss_training {A}.
Arguments loss_validation {A}.
Arguments ssim_training {A}.
Arguments ssim_validation {A}.
Arguments entropy_training {A}.
Arguments entropy_validation {A}.

Definition tget {A} (key : metric) (sp : split) (t : table A) : A :=
  match key, sp with
  | Loss, Training => loss_training t
  | Loss, Validation => loss_validation t
  | Ssim, Training => ssim_training t
  | Ssim, Validation => ssim_validation t
  | Entropy, Training => entropy_training t
  | Entropy, Validation => entropy_validation t
  end.

Definition tset {A} (key : metric) (sp : split) (v : A) (t : table A) : table A :=
  match key, sp with
  | Loss, Training =>
      Table v (loss_validation t) (ssim_training t) (ssim_validation t)
        (entropy_training t) (entropy_validation t)
  | Loss, Validation =>
      Table (loss_training t) v (ssim_training t) (ssim_validation t)
        (entropy_training t) (entropy_validation t)
  | Ssim, Training =>
      Table (loss_training t) (loss_validation t) v (ssim_validation t)
        (entropy_training t) (entropy_validation t)
  | Ssim, Validation =>
      Table (loss_training t) (loss_validation t) (ssim_training t) v
        (entropy_training t) (entropy_validation t)
  | Entropy, Training =>
      Table (loss_training t) (loss_validation t) (ssim_training t)
        (ssim_validation t) v (entropy_validation t)
  | Entropy, Validation =>
      Table (loss_training t) (loss_validation t) (ssim_training t)
        (ssim_validation t) (entropy_training t) v
  end.

Definition tupd {A} (f : A -> A) (key : metric) (sp : split) (t : table A) : table A :=
  tset key sp (f (tget key sp t)) t.

Definition tconst {A} (a : A) : table A := Table a a a a a a.

(** The [training] dictionary. *)
Module TrainingSpec.

Record probs : Type := Probs {
  resize : Q;
  flip_h : Q;
  flip_v : Q;
  gamma : Q
}.

Record t : Type := Make {
  batch_size : Z;
  n_epochs : Z;
  patch_size : Z;
  learning_rate : Q;
  learning_rate_reduction_factor : Q;
  learning_rate_reduction_schedule : Z;
  augmentation_probs : probs;
  sample_dropout : bool;
  validation_schedule : Z;
  validation_is_training : bool;
  convergence_threshold : Q
}.

End TrainingSpec.

(** [data['training']['y'].shape[0]] and [data['validation']['y'].shape[0]]. *)
Record dataset : Type := Dataset {
  training_count : nat;
  validation_count : nat
}.

(** The random numbers drawn for one training batch, in the order the loop
    draws them: [np.random.uniform()] for the resize, the position picked by
    [np.random.choice], [uniform()] for each of the two flips and for the
    gamma correction, and [np.random.uniform(0.5, 1.0)] for the dropout. *)
Record draws : Type := Draws {
  u_resize : Q;
  choice : nat;
  u_flip_h : Q;
  u_flip_v : Q;
  u_gamma : Q;
  u_keep : Q
}.

(** What the model answers when the loop calls it.  [training_step epoch
    batch_id] is the dictionary returned by [dcn.training_step] at that batch;
    the three validation oracles are the loss, SSIM and entropy computed on a
    validation batch; [image_variance epoch] is
    [np.var(batch_x, axis=(1, 2, 3))] of the last validation batch;
    [nan_variables] names the parameters in which the NaN dump finds NaNs;
    [performance] is [dcn.performance] as [dcn.init()] leaves it. *)
Record model : Type := Model {
  training_step : nat -> nat -> gmap string Np.float;
  validation_loss : nat -> nat -> Np.float;
  validation_ssim : nat -> nat -> Np.float;
  validation_entropy : nat -> nat -> Np.float;
  image_variance : nat -> list Q;
  latent_scaling : nat -> Np.float;
  nan_variables : nat -> nat -> list string;
  scale_latent : bool;
  use_batchnorm : bool;
  train_codebook : bool;
  performance : table (list Np.float)
}.

(** A tile of a thumbnail grid: image [i] of the batch or its reconstruction. *)
Inductive thumb : Type :=
| Original (i : nat)
| Reconstruction (i : nat).

(** The result of [plotting.thumbnails(images, n_cols=...)]. *)
Record grid : Type := Grid { tiles : list thumb; n_cols : Z }.

Inductive stop_reason : Type := Converged | Deteriorated.

Inductive message : Type :=
| OutputDirectory
| NaNLossDetected
| ScalingIs (scaling : Np.float)
| CodebookIs
| NaNsFound (var : string)
| EarlyStopping (perf_change : Np.float)
| Deterioration (previous current : Np.float).

(** The postfix of the progress bar. *)
Record progress : Type := Progress {
  shown_L : Np.float;
  shown_Lv : Np.float;
  shown_lr : Q;
  shown_ssim : Np.float;
  shown_H : Np.float;
  shown_S : option Np.float
}.

Inductive event : Type :=
| Init
| Print (m : message)
| GetSummaryWriter
| NextTrainingBatch (batch_id : nat) (size : Z) (current_patch : Z)
| Resize (size : Z)
| FlipH
| FlipV
| BatchGamma
| TrainingStep (epoch batch_id : nat) (rate keep_prob : Q)
| Imsave (filename : string) (thumbs : grid)
| AddSummary (epoch : nat) (scalars : list (string * Np.float))
    (thumbs_few : grid) (with_codebook : bool)
| Flush
| SaveProgress (performance : table (list Np.float))
| SaveModel (epoch : nat)
| SetPostfix (progress_dict : progress)
| PbarUpdate.

(** The events that write to the output directory or to the summary sink. *)
Definition is_write (ev : event) : bool :=
  match ev with
  | GetSummaryWriter | Imsave _ _ | AddSummary _ _ _ _ | Flush
  | SaveProgress _ | SaveModel _ => true
  | _ => false
  end.

(** The local state of [train_dcn] inside the epoch loop. *)
Record state : Type := State {
  perf : table (list Np.float);
  caches : table Py.deque;
  learning_rate : Q;
  current_epoch : option nat;
  trace : list event
}.

Definition set_perf (p : table (list Np.float)) (s : state) : state :=
  State p (caches s) (learning_rate s) (current_epoch s) (trace s).
Definition set_caches (c : table Py.deque) (s : state) : state :=
  State (perf s) c (learning_rate s) (current_epoch s) (trace s).
Definition set_learning_rate (r : Q) (s : state) : state :=
  State (perf s) (caches s) r (current_epoch s) (trace s).
Definition set_current_epoch (e : nat) (s : state) : state :=
  State (perf s) (caches s) (learning_rate s) (Some e) (trace s).
Definition emit (ev : event) (s : state) : state :=
  State (perf s) (caches s) (learning_rate s) (current_epoch s) (trace s ++ [ev]).

(** How a piece of the loop body ends: it falls through, breaks out of the
    epoch loop, executes [return None], or raises. *)
Inductive flow : Type :=
| Next (s : state)
| Break (why : stop_reason) (s : state)
| Return (s : state)
| Raised (e : exn) (s : state).

Definition and_then (f : flow) (k : state -> flow) : flow :=
  match f with
  | Next s => k s
  | other => other
  end.

Definition attempt {A} (r : result A) (s : state) (k : A -> flow) : flow :=
  match r with
  | Ok a => k a
  | Raise e => Raised e s
  end.

(** [for x in l: body], left as soon as the body does not fall through. *)
Fixpoint for_each {A} (body : A -> state -> flow) (l : list A) (s : state) : flow :=
  match l with
  | [] => Next s
  | x :: l' => and_then (body x s) (for_each body l')
  end.

(* ===================================================================== *)
(** ** The pieces of [train_dcn] *)
(* ===================================================================== *)

(** [np.random.choice(a, 1)]: [r] is the position the generator picks. *)
Definition random_choice (a : list Z) (r : nat) : result Z :=
  match a with
  | [] => Raise ValueError
  | x :: _ => Ok (nth (r mod length a) a x)
  end.

(** [np.argsort]: the positions of [a] in ascending order of value. *)
Fixpoint insert_by (value : nat -> Q) (i : nat) (l : list nat) : list nat :=
  match l with
  | [] => [i]
  | j :: l' =>
      if Qle_bool (value i) (value j) then i :: l else j :: insert_by value i l'
  end.

Definition argsort (a : list Q) : list nat :=
  fold_right (insert_by (fun i => nth i a 0%Q)) [] (seq 0 (length a)).

Definition thumbnails (images : list thumb) (cols : Z) : grid := Grid images cols.

Definition thumbnails_filename (epoch : nat) : string :=
  ("thumbnails-" ++ Py.format_05d epoch ++ ".png")%string.

(** Lines 265-267: the snapshot of the last validation batch. *)
Definition indices (variances : list Q) : list nat := rev (argsort variances).

Definition thumbs_pairs_all (variances : list Q) : list thumb :=
  let sel := Py.every_other (indices variances) in
  (map Original sel ++ map Reconstruction sel)%list.

Definition thumbs_pairs_few (variances : list Q) : list thumb :=
  let sel := Py.slice None (Some 5) (indices variances) in
  (map Original sel ++ map Reconstruction sel)%list.

(** Lines 307-310. *)
Definition n_tail : Z := 5.

Definition current (ssim_log : list Np.float) : Np.float :=
  Np.mean (Py.slice (Some (- n_tail)) None ssim_log).

Definition previous (ssim_log : list Np.float) : Np.float :=
  Np.mean (Py.slice (Some (- (n_tail + 1))) (Some (-1)) ssim_log).

Definition perf_change (ssim_log : list Np.float) : Np.float :=
  Np.abs (Np.div (Np.sub (current ssim_log) (previous ssim_log)) (previous ssim_log)).

Section TrainDcn.

Variable training : TrainingSpec.t.
Variable data : dataset.
Variable dcn : model.
Variable rng : nat -> nat -> draws.

Let probs := TrainingSpec.augmentation_probs training.
Let P := TrainingSpec.patch_size training.

(** Lines 179-181.  The condition of the conditional expression is evaluated
    first, so the choice is drawn only when the resize fires. *)
Definition pick_patch_size (d : draws) : result Z :=
  if Np.Qlt_bool (u_resize d) (TrainingSpec.resize probs)
  then random_choice (Np.arange P (2 * P)) (choice d)
  else Ok P.

(** Lines 208-223: the diagnostics printed before [return None]. *)
Definition nan_dump (epoch batch_id : nat) (s : state) : state :=
  let s := emit (Print NaNLossDetected) s in
  let scaling := if scale_latent dcn then latent_scaling dcn epoch else Np.NaN in
  let s := emit (Print (ScalingIs scaling)) s in
  let s := emit (Print CodebookIs) s in
  fold_left (fun s var => emit (Print (NaNsFound var)) s)
    (nan_variables dcn epoch batch_id) s.

(** Lines 225-226. *)
Fixpoint record_values (values : list (string * Np.float)) (s : state) : flow :=
  match values with
  | [] => Next s
  | (key, value) :: rest =>
      match cache_key key with
      | None => Raised (KeyError key) s
      | Some m =>
          record_values rest
            (set_caches (tupd (Py.append value) m Training (caches s)) s)
      end
  end.

(** Lines 178-226: one iteration of the batch loop. *)
Definition training_batch (epoch batch_id : nat) (s : state) : flow :=
  let d := rng epoch batch_id in
  attempt (pick_patch_size d) s (fun current_patch =>
  let s := emit (NextTrainingBatch batch_id (TrainingSpec.batch_size training)
                   current_patch) s in
  let s := if negb (P =? current_patch) then emit (Resize P) s else s in
  let s := if Np.Qlt_bool (u_flip_h d) (TrainingSpec.flip_h probs)
           then emit FlipH s else s in
  let s := if Np.Qlt_bool (u_flip_v d) (TrainingSpec.flip_v probs)
           then emit FlipV s else s in
  let s := if Np.Qlt_bool (u_gamma d) (TrainingSpec.gamma probs)
           then emit BatchGamma s else s in
  let keep_prob := if TrainingSpec.sample_dropout training then u_keep d else 1%Q in
  let values := training_step dcn epoch batch_id in
  let s := emit (TrainingStep epoch batch_id (learning_rate s) keep_prob) s in
  match values !! "loss"%string with
  | None => Raised (KeyError "loss") s
  | Some loss =>
      if Np.isnan loss then Return (nan_dump epoch batch_id s)
      else record_values (map_to_list values) s
  end).

(** Lines 229-230 and 261-262:
    [perf[key][sp].append(float(np.mean(caches[key][sp])))] for the three keys. *)
Definition record_averages (sp : split) (s : state) : state :=
  fold_left
    (fun s key =>
       set_perf
         (tupd (fun log => log ++ [Np.mean (Py.items (tget key sp (caches s)))])
            key sp (perf s)) s)
    [Loss; Ssim; Entropy] s.

(** Lines 172-173. *)
Definition schedule_learning_rate (epoch : nat) (s : state) : flow :=
  let due :=
    if 0 <? Z.of_nat epoch then
      match Py.modulo (Z.of_nat epoch)
              (TrainingSpec.learning_rate_reduction_schedule training) with
      | Ok r => Ok (r =? 0)
      | Raise e => Raise e
      end
    else Ok false in
  attempt due s (fun due =>
  Next (if due
        then set_learning_rate
               (learning_rate s * TrainingSpec.learning_rate_reduction_factor training)%Q s
        else s)).

(** Lines 244-259: one validation batch. *)
Definition validation_batch (epoch batch_id : nat) (s : state) : flow :=
  let c := caches s in
  let c := tupd (Py.append (validation_loss dcn epoch batch_id)) Loss Validation c in
  let c := tupd (Py.append (validation_ssim dcn epoch batch_id)) Ssim Validation c in
  let c := tupd (Py.append (validation_entropy dcn epoch batch_id)) Entropy Validation c in
  Next (set_caches c s).

(** Lines 306-318. *)
Definition check_stop (s : state) : flow :=
  let log := tget Ssim Validation (perf s) in
  if (5 <? length log)%nat then
    if Np.ltb (perf_change log)
         (Np.Fin (TrainingSpec.convergence_threshold training))
    then Break Converged (emit (Print (EarlyStopping (perf_change log))) s)
    else if Np.ltb (current log) (Np.mul (Np.Fin (9 # 10)) (previous log))
    then Break Deteriorated
           (emit (Print (Deterioration (previous log) (current log))) s)
    else Next s
  else Next s.

(** Lines 264-304: snapshot, summaries, JSON log and checkpoint.  With no
    validation batch the names [batch_y] (and, with no training batch either,
    [batch_x]) were never bound. *)
Definition report (n_batches v_batches epoch : nat) (s : state) : flow :=
  if (v_batches =? 0)%nat then
    Raised (NameError (if (n_batches =? 0)%nat then "batch_x" else "batch_y")) s
  else
    let variances := image_variance dcn epoch in
    let thumbs :=
      thumbnails (thumbs_pairs_all variances) (TrainingSpec.batch_size training / 2) in
    let thumbs_few := thumbnails (thumbs_pairs_few variances) 5 in
    let s := emit (Imsave (thumbnails_filename epoch) thumbs) s in
    let scaling := if scale_latent dcn then latent_scaling dcn epoch else Np.NaN in
    attempt (Py.index (tget Loss Validation (perf s)) (-1)) s (fun lv =>
    attempt (Py.index (tget Loss Training (perf s)) (-1)) s (fun lt =>
    attempt (Py.index (tget Ssim Validation (perf s)) (-1)) s (fun sv =>
    attempt (Py.index (tget Ssim Training (perf s)) (-1)) s (fun st =>
    attempt (Py.index (tget Entropy Training (perf s)) (-1)) s (fun et =>
    let scalars :=
      [("loss/validation", lv); ("loss/training", lt); ("ssim/validation", sv);
       ("ssim/training", st); ("entropy/training", et); ("scaling", scaling)]%string in
    let s := emit (AddSummary epoch scalars thumbs_few (train_codebook dcn)) s in
    let s := emit Flush s in
    let s := emit (SaveProgress (perf s)) s in
    Next (emit (SaveModel epoch) s)))))).

(** Lines 242-318. *)
Definition validation_round (n_batches v_batches epoch : nat) (s : state) : flow :=
  and_then (for_each (validation_batch epoch) (seq 0 v_batches) s) (fun s =>
  let s := record_averages Validation s in
  and_then (report n_batches v_batches epoch s) check_stop).

Definition validation (n_batches v_batches epoch : nat) (s : state) : flow :=
  attempt (Py.modulo (Z.of_nat epoch) (TrainingSpec.validation_schedule training)) s
    (fun r => if r =? 0 then validation_round n_batches v_batches epoch s else Next s).

(** Lines 320-345.  The batch-normalisation statistics of lines 331-341 are
    read from the model and only shown; they are left out. *)
Definition progress_display (epoch : nat) (s : state) : flow :=
  let L := Np.mean (Py.slice (Some (-3)) None (tget Loss Training (perf s))) in
  let Lv := Np.mean (Py.slice (Some (-1)) None (tget Loss Validation (perf s))) in
  attempt (Py.index (tget Ssim Validation (perf s)) (-1)) s (fun ssim =>
  let H := Np.mean (Py.slice (Some (-1)) None (tget Entropy Training (perf s))) in
  let S := if scale_latent dcn then Some (latent_scaling dcn epoch) else None in
  let progress_dict := Progress L Lv (learning_rate s) ssim H S in
  Next (emit PbarUpdate (emit (SetPostfix progress_dict) s))).

(** Lines 176-230: the batch loop and the epoch averages. *)
Definition training_epoch (n_batches epoch : nat) (s : state) : flow :=
  and_then (for_each (training_batch epoch) (seq 0 n_batches) s) (fun s =>
  Next (record_averages Training s)).

(** Lines 170-318: the loop body up to the progress display. *)
Definition epoch_until_display (n_batches v_batches epoch : nat) (s : state) : flow :=
  and_then (schedule_learning_rate epoch (set_current_epoch epoch s)) (fun s =>
  and_then (training_epoch n_batches epoch s) (validation n_batches v_batches epoch)).

(** Lines 168-345: the body of the epoch loop. *)
Definition epoch_body (n_batches v_batches epoch : nat) (s : state) : flow :=
  and_then (epoch_until_display n_batches v_batches epoch s) (progress_display epoch).

Definition run_epochs (n_batches v_batches : nat) (epochs : list nat) (s : state) : flow :=
  for_each (epoch_body n_batches v_batches) epochs s.

(** Lines 138-164, up to the creation of the summary writer. *)
Inductive setup : Type :=
| SetupRaised (e : exn)
| SetupSkip
| SetupReady (n_batches v_batches : nat) (s : state).

Definition prepare (dir_exists overwrite : bool) : setup :=
  match Py.floordiv (Z.of_nat (training_count data)) (TrainingSpec.batch_size training) with
  | Raise e => SetupRaised e
  | Ok n_batches =>
  match Py.floordiv (Z.of_nat (validation_count data)) (TrainingSpec.batch_size training) with
  | Raise e => SetupRaised e
  | Ok v_batches =>
  match Py.deque_new n_batches with
  | Raise e => SetupRaised e
  | Ok dt =>
  match Py.deque_new v_batches with
  | Raise e => SetupRaised e
  | Ok dv =>
      if dir_exists && negb overwrite then SetupSkip
      else
        SetupReady (Z.to_nat n_batches) (Z.to_nat v_batches)
          (State (performance dcn) (Table dt dv dt dv dt dv)
             (TrainingSpec.learning_rate training) None
             [Init; Print OutputDirectory; GetSummaryWriter])
  end end end end.

Inductive outcome : Type :=
| Skipped
| Completed
| EarlyStop (why : stop_reason)
| AbortedNaN
| Crashed (e : exn).

Inductive py_value : Type := PyNone.

(** What the caller of [train_dcn] receives: every way of leaving the
    function other than an exception hands back [None]. *)
Definition returned (o : outcome) : option py_value :=
  match o with
  | Crashed _ => None
  | _ => Some PyNone
  end.

Record run : Type := Run {
  result_of : outcome;
  effects : list event;
  performance_log : table (list Np.float);
  final_state : option state
}.

Definition finish (o : outcome) (s : state) : run :=
  Run o (trace s) (perf s) (Some s).

Definition train_dcn (dir_exists overwrite : bool) : run :=
  match prepare dir_exists overwrite with
  | SetupRaised e => Run (Crashed e) [Init] (performance dcn) None
  | SetupSkip => Run Skipped [Init] (performance dcn) None
  | SetupReady n_batches v_batches s0 =>
      match run_epochs n_batches v_batches
              (seq 0 (Z.to_nat (TrainingSpec.n_epochs training))) s0 with
      | Next s => finish Completed s
      | Break why s => finish (EarlyStop why) s
      | Return s => finish AbortedNaN s
      | Raised e s => finish (Crashed e) s
      end
  end.

End TrainDcn.

(** The state a piece of the loop leaves behind, however it ends. *)
Definition flow_state (f : flow) : state :=
  match f with
  | Next s | Break _ s | Return s | Raised _ s => s
  end.

(** The loop is at the convergence check of epoch [epoch] in state [s3]: the
    learning-rate step and the training batches of the epoch fell through,
    the epoch is a validation epoch, and the validation batches and the
    report fell through too. *)
Definition at_check (training : TrainingSpec.t) (dcn : model) (rng : nat -> nat -> draws)
    (n_batches v_batches epoch : nat) (s0 s3 : state) : Prop :=
  exists s1 s2,
    schedule_learning_rate training epoch (set_current_epoch epoch s0) = Next s1 /\
    training_epoch training dcn rng n_batches epoch s1 = Next s2 /\
    Py.modulo (Z.of_nat epoch) (TrainingSpec.validation_schedule training) = Ok 0 /\
    and_then (for_each (validation_batch dcn epoch) (seq 0 v_batches) s2)
      (fun s => report training dcn n_batches v_batches epoch (record_averages Validation s))
    = Next s3.

(** The number of validation rounds among the first [n] epochs. *)
Definition validation_rounds (training : TrainingSpec.t) (n : nat) : nat :=
  length (List.filter
            (fun e => Z.of_nat e mod TrainingSpec.validation_schedule training =? 0)
            (seq 0 n)).

(** Whether the learning rate is reduced at the start of [epoch]. *)
Definition reduction_due (training : TrainingSpec.t) (epoch : nat) : bool :=
  (0 <? Z.of_nat epoch)
  && negb (TrainingSpec.learning_rate_reduction_schedule training =? 0)
  && (Z.of_nat epoch mod TrainingSpec.learning_rate_reduction_schedule training =? 0).

(** The check as the specification words it: [previous] is the mean of the
    five values immediately before the last five, and the change is
    [|current - previous| / previous]. *)
Definition disjoint_previous (ssim_log : list Np.float) : Np.float :=
  Np.mean (Py.slice (Some (-10)) (Some (-5)) ssim_log).

Definition disjoint_perf_change (ssim_log : list Np.float) : Np.float :=
  Np.div (Np.abs (Np.sub (current ssim_log) (disjoint_previous ssim_log)))
    (disjoint_previous ssim_log).

(** The change written as [|current - previous| / previous], with [previous]
    as the code takes it (the five values that end one position before the
    last); [disjoint_perf_change] is the same formula on the windows of the
    specification. *)
Definition perf_change_as_worded (ssim_log : list Np.float) : Np.float :=
  Np.div (Np.abs (Np.sub (current ssim_log) (previous ssim_log))) (previous ssim_log).

(** Appending [vs] to a deque, one value after the other. *)
Definition append_all (vs : list Np.float) (d : Py.deque) : Py.deque :=
  fold_left (fun d v => Py.append v d) vs d.

(** Every cache holds at most [maxlen] items. *)
Definition caches_bounded (s : state) : Prop :=
  forall key sp,
    (length (Py.items (tget key sp (caches s))) <= Py.maxlen (tget key sp (caches s)))%nat.


(** A property of the state that a piece of code maintains however it ends. *)
Definition preserves (I : state -> Prop) (f : state -> flow) : Prop :=
  forall s, I s -> I (flow_state (f s)).

(** Everything but the performance log, the caches and the trace. *)
Definition same_scalars (s s' : state) : Prop :=
  learning_rate s' = learning_rate s /\ current_epoch s' = current_epoch s.

(** The caches of a run with [n_batches] training and [v_batches] validation
    batches per epoch: the capacities are the batch counts and no cache holds
    more than its capacity. *)
Definition cache_inv (n_batches v_batches : nat) (c : table Py.deque) : Prop :=
  forall key,
    Py.maxlen (tget key Training c) = n_batches /\
    Py.maxlen (tget key Validation c) = v_batches /\
    (length (Py.items (tget key Training c)) <= n_batches)%nat /\
    (length (Py.items (tget key Validation c)) <= v_batches)%nat.

(** Values along [l] never decrease. *)
Fixpoint ascending (value : nat -> Q) (l : list nat) : Prop :=
  match l with
  | [] => True
  | i :: l' => (forall j, In j l' -> (value i <= value j)%Q) /\ ascending value l'
  end.

(** The events a training batch produces between fetching the batch and the
    training step. *)
Definition augmentation_events (training : TrainingSpec.t) (d : draws) (current_patch : Z) :
    list event :=
  let probs := TrainingSpec.augmentation_probs training in
  (if negb (TrainingSpec.patch_size training =? current_patch)
   then [Resize (TrainingSpec.patch_size training)] else [])
  ++ (if Np.Qlt_bool (u_flip_h d) (TrainingSpec.flip_h probs) then [FlipH] else [])
  ++ (if Np.Qlt_bool (u_flip_v d) (TrainingSpec.flip_v probs) then [FlipV] else [])
  ++ (if Np.Qlt_bool (u_gamma d) (TrainingSpec.gamma probs) then [BatchGamma] else []).

(** The events of the NaN dump. *)
Definition nan_dump_events (dcn : model) (epoch batch_id : nat) : list event :=
  [Print NaNLossDetected;
   Print (ScalingIs (if scale_latent dcn then latent_scaling dcn epoch else Np.NaN));
   Print CodebookIs]
  ++ map (fun var => Print (NaNsFound var)) (nan_variables dcn epoch batch_id).

(** Whether [epoch] runs a validation round (line 242, for a non-zero
    schedule). *)
Definition is_validation_epoch (training : TrainingSpec.t) (epoch : nat) : bool :=
  Z.of_nat epoch mod TrainingSpec.validation_schedule training =? 0.

(** The piece [f] went through its training: it fell through or broke out of
    the epoch loop, leaving the state [s']. *)
Definition ran (f : flow) (s' : state) : Prop :=
  f = Next s' \/ exists why, f = Break why s'.

(** A property of the caches, as a property of the state. *)
Definition on_caches (J : table Py.deque -> Prop) (s : state) : Prop := J (caches s).

(* ===================================================================== *)
(** ** Further notions about a run *)
(* ===================================================================== *)

(** The key under which [training_step] reports a metric. *)
Definition metric_name (m : metric) : string :=
  match m with
  | Loss => "loss"
  | Ssim => "ssim"
  | Entropy => "entropy"
  end.

(** The value a dictionary of metrics holds for [m] (NaN stands for a missing
    key where the value is only looked at). *)
Definition metric_value (m : metric) (values : gmap string Np.float) : Np.float :=
  match values !! metric_name m with
  | Some v => v
  | None => Np.NaN
  end.

(** The value of a validation batch for [m]. *)
Definition validation_value (dcn : model) (m : metric) (epoch batch_id : nat) : Np.float :=
  match m with
  | Loss => validation_loss dcn epoch batch_id
  | Ssim => validation_ssim dcn epoch batch_id
  | Entropy => validation_entropy dcn epoch batch_id
  end.

(** The part of [train_dcn] an event comes from. *)
Inductive phase : Type :=
| Preamble
| BatchLoop
| Reporting
| Checking
| Display.

Definition phase_of (ev : event) : phase :=
  match ev with
  | Init | GetSummaryWriter | Print OutputDirectory => Preamble
  | NextTrainingBatch _ _ _ | Resize _ | FlipH | FlipV | BatchGamma
  | TrainingStep _ _ _ _
  | Print NaNLossDetected | Print (ScalingIs _) | Print CodebookIs
  | Print (NaNsFound _) => BatchLoop
  | Imsave _ _ | AddSummary _ _ _ _ | Flush | SaveProgress _ | SaveModel _ => Reporting
  | Print (EarlyStopping _) | Print (Deterioration _ _) => Checking
  | SetPostfix _ | PbarUpdate => Display
  end.

(** A piece of code only adds events of the phases [k] to the trace,
    however it ends. *)
Definition emits (k : list phase) (f : state -> flow) : Prop :=
  forall s, exists evs,
    trace (flow_state (f s)) = trace s ++ evs /\
    Forall (fun ev => In (phase_of ev) k) evs.

Definition is_update (ev : event) : bool :=
  match ev with PbarUpdate => true | _ => false end.

(** The number of times the progress bar was advanced. *)
Definition updates (tr : list event) : nat := length (List.filter is_update tr).

(** The content of [progress.json] after the events [tr]: the performance
    log of the last [save_progress], if there was one (the file is opened
    with mode ['w'], so each call replaces what the previous one wrote). *)
Definition last_saved (tr : list event) : option (table (list Np.float)) :=
  fold_left (fun acc ev => match ev with SaveProgress p => Some p | _ => acc end) tr None.

(** The names of the image files written by the events [tr], in order. *)
Definition saved_images (tr : list event) : list string :=
  flat_map (fun ev => match ev with Imsave f _ => [f] | _ => [] end) tr.

(** The values the items of a metrics dictionary hold for the cache [m], in
    the order of the items. *)
Definition values_for (m : metric) (values : list (string * Np.float)) : list Np.float :=
  map snd (List.filter (fun kv => bool_decide (cache_key (fst kv) = Some m)) values).

(** The values of the training steps, resp. the validation batches, of an
    epoch for the metric [m]. *)
Definition training_values (dcn : model) (m : metric) (epoch n_batches : nat) :
    list Np.float :=
  map (fun b => metric_value m (training_step dcn epoch b)) (seq 0 n_batches).

Definition validation_values (dcn : model) (m : metric) (epoch v_batches : nat) :
    list Np.float :=
  map (validation_value dcn m epoch) (seq 0 v_batches).

(** The epochs at which the events [tr] saved a checkpoint, in order. *)
Definition checkpoints (tr : list event) : list nat :=
  flat_map (fun ev => match ev with SaveModel e => [e] | _ => [] end) tr.

(** The validation epochs among the first [n] epochs. *)
Definition validation_epochs (training : TrainingSpec.t) (n : nat) : list nat :=
  List.filter (is_validation_epoch training) (seq 0 n).

(* ===================================================================== *)
(** ** Small runs to test the statements on *)
(* ===================================================================== *)

Module Example.

Definition probs : TrainingSpec.probs :=
  TrainingSpec.Probs (1 # 2) (1 # 2) (1 # 2) 0.

(** Batches of 2 images, at most 12 epochs, patches of 4 pixels, a rate of
    0.1 halved every 3 epochs, validation at every epoch, threshold 0.01. *)
Definition training : TrainingSpec.t :=
  TrainingSpec.Make 2 12 4 (1 # 10) (1 # 2) 3 probs false 1 false (1 # 100).

(** The same with a batch size of 0. *)
Definition training_no_batch : TrainingSpec.t :=
  TrainingSpec.Make 0 12 4 (1 # 10) (1 # 2) 3 probs false 1 false (1 # 100).

(** The same with a negative learning rate, reduced at every epoch. *)
Definition training_negative_rate : TrainingSpec.t :=
  TrainingSpec.Make 2 2 4 (-1 # 1) (1 # 2) 1 probs false 1 false (1 # 100).

(** 5 training images and 3 validation images: 2 training batches and 1
    validation batch per epoch. *)
Definition data : dataset := Dataset 5 3.

Definition values : gmap string Np.float :=
  <["loss" := Np.Fin 1]> (<["ssim" := Np.Fin (1 # 2)]> (<["entropy" := Np.Fin 3]> ∅)).

(** A model whose validation SSIM at epoch [e] is the [e]-th value of
    [curve]. *)
Definition dcn (curve : list Q) : model :=
  Model (fun _ _ => values)
    (fun _ _ => Np.Fin 2) (fun e _ => Np.Fin (nth e curve 0%Q)) (fun _ _ => Np.Fin 1)
    (fun _ => [3; 1; 2; 5]%Q) (fun _ => Np.Fin 1) (fun _ _ => [])
    false false false (tconst []).

(** A model whose loss is NaN at the second batch of the second epoch. *)
Definition dcn_nan : model :=
  Model (fun e b => if (e =? 1)%nat && (b =? 1)%nat
                    then <["loss" := Np.NaN]> values else values)
    (fun _ _ => Np.Fin 2) (fun _ _ => Np.Fin (1 # 2)) (fun _ _ => Np.Fin 1)
    (fun _ => [3; 1; 2; 5]%Q) (fun _ => Np.Fin 1) (fun _ _ => ["encoder/kernel"%string])
    false false false (tconst []).

(** A model whose training loss at batch [b] of epoch [e] is [10 e + b] and
    whose validation loss at epoch [e] is [e + 1]. *)
Definition dcn_ramp : model :=
  Model (fun e b => <["loss" := Np.Fin (inject_Z (Z.of_nat (10 * e + b)))]> values)
    (fun e _ => Np.Fin (inject_Z (Z.of_nat (e + 1)))) (fun _ _ => Np.Fin (8 # 10))
    (fun _ _ => Np.Fin 1)
    (fun _ => [3; 1; 2; 5]%Q) (fun _ => Np.Fin 1) (fun _ _ => [])
    false false false (tconst []).

Definition rng (e b : nat) : draws :=
  Draws (1 # 4) (b + e) (3 # 4) (1 # 4) (1 # 2) (3 # 4).

(** The resize fires and the generator picks position 0, resp. position 6. *)
Definition draw_first : draws := Draws (1 # 4) 0 (3 # 4) (1 # 4) (1 # 2) (3 # 4).
Definition draw_seventh : draws := Draws (1 # 4) 6 (3 # 4) (1 # 4) (1 # 2) (3 # 4).

Definition plateau : list Q := [8 # 10; 8 # 10; 8 # 10; 8 # 10; 8 # 10; 8 # 10].
Definition drop : list Q := [8 # 10; 8 # 10; 8 # 10; 8 # 10; 8 # 10; 1 # 10].
Definition rise_and_fall : list Q :=
  [1 # 10; 2 # 10; 3 # 10; 4 # 10; 5 # 10; 6 # 10; 7 # 10; 8 # 10; 9 # 10; 5 # 10].

(** Five values of 0.8 followed by values of 0.7. *)
Definition step_down : list Q :=
  [8 # 10; 8 # 10; 8 # 10; 8 # 10; 8 # 10;
   7 # 10; 7 # 10; 7 # 10; 7 # 10; 7 # 10; 7 # 10; 7 # 10].

(** The state in which the epoch loop starts. *)
Definition start (rate : Q) : state :=
  State (tconst [])
    (Table (Py.Deque 2 []) (Py.Deque 1 []) (Py.Deque 2 []) (Py.Deque 1 [])
       (Py.Deque 2 []) (Py.Deque 1 []))
    rate None [Init; Print OutputDirectory; GetSummaryWriter].

(** The state after the first [n] epochs. *)
Definition after (m : model) (n : nat) : state :=
  flow_state (run_epochs training m rng 2 1 (seq 0 n) (start (1 # 10))).

(** Inside epoch [n]: after the learning-rate step, after the training
    batches and their averages, and at the convergence check. *)
Definition scheduled (m : model) (n : nat) : state :=
  flow_state (schedule_learning_rate training n (set_current_epoch n (after m n))).

Definition trained (m : model) (n : nat) : state :=
  flow_state (training_epoch training m rng 2 n (scheduled m n)).

Definition checking (m : model) (n : nat) : state :=
  flow_state
    (and_then (for_each (validation_batch m n) (seq 0 1) (trained m n))
       (fun s => report training m 2 1 n (record_averages Validation s))).

End Example.

(* ===================================================================== *)
(** ** States and settings for the edges of the loop *)
(* ===================================================================== *)

Module Edge.

(** A state at the convergence check whose validation-SSIM series is [log]. *)
Definition at_log (log : list Np.float) : state :=
  State (tset Ssim Validation log (tconst [])) (tconst (Py.Deque 1 [])) (1 # 10) (Some 5%nat) [].

Definition with_nan : list Np.float :=
  map Np.Fin [8 # 10; 8 # 10; 8 # 10; 8 # 10] ++ [Np.NaN; Np.Fin (8 # 10)].

(** Five values that add up to zero, followed by a sixth. *)
Definition centred : list Q := [1 # 10; -1 # 10; 2 # 10; -2 # 10; 0 # 1; -5 # 10]%Q.

(** The settings of the example with [validation_schedule = 0], resp. with
    [learning_rate_reduction_schedule = 0]. *)
Definition training_no_validation_schedule : TrainingSpec.t :=
  TrainingSpec.Make 2 12 4 (1 # 10) (1 # 2) 3 Example.probs false 0 false (1 # 100).

Definition training_no_reduction_schedule : TrainingSpec.t :=
  TrainingSpec.Make 2 12 4 (1 # 10) (1 # 2) 0 Example.probs false 1 false (1 # 100).

(** 5 training images and 1 validation image: with batches of 2 there is no
    validation batch. *)
Definition data_small_validation : dataset := Dataset 5 1.

(** The state in which the epoch loop starts on [data_small_validation]. *)
Definition start_small_validation : state :=
  State (tconst [])
    (Table (Py.Deque 2 []) (Py.Deque 0 []) (Py.Deque 2 []) (Py.Deque 0 [])
       (Py.Deque 2 []) (Py.Deque 0 []))
    (1 # 10) None [Init; Print OutputDirectory; GetSummaryWriter].

End Edge.

(* ===================================================================== *)
(** ** Arithmetic and sequences *)
(* ===================================================================== *)

Lemma Qlt_bool_true (a b : Q) : Np.Qlt_bool a b = true <-> (a < b)%Q.
Proof.
  unfold Np.Qlt_bool. rewrite negb_true_iff.
  split; intros H.
  - apply Qnot_le_lt. intros Hle. apply Qle_bool_iff in Hle. congruence.
  - destruct (Qle_bool b a) eqn:E; [|reflexivity].
    apply Qle_bool_iff in E. exfalso. exact (Qlt_not_le _ _ H E).
Qed.

Lemma Qlt_bool_false (a b : Q) : Np.Qlt_bool a b = false <-> (b <= a)%Q.
Proof.
  unfold Np.Qlt_bool. rewrite negb_false_iff. apply Qle_bool_iff.
Qed.

Lemma slice_tail {A} (n : nat) (l : list A) :
  (0 < n)%nat -> (n <= length l)%nat ->
  Py.slice (Some (- Z.of_nat n)) None l = skipn (length l - n) l.
Proof.
  intros Hn Hl. unfold Py.slice, Py.clamp.
  destruct (Z.ltb_spec (- Z.of_nat n) 0) as [_|?]; [|lia].
  replace (Z.to_nat (Z.max 0 (Z.of_nat (length l) + - Z.of_nat n)))
    with (length l - n)%nat by lia.
  apply firstn_all2. rewrite length_skipn. lia.
Qed.

Lemma slice_window {A} (n : nat) (l : list A) :
  (1 < n)%nat -> (n <= length l)%nat ->
  Py.slice (Some (- Z.of_nat n)) (Some (-1)) l
  = firstn (n - 1) (skipn (length l - n) l).
Proof.
  intros Hn Hl. unfold Py.slice, Py.clamp.
  destruct (Z.ltb_spec (- Z.of_nat n) 0) as [_|?]; [|lia].
  destruct (Z.ltb_spec (-1) 0) as [_|?]; [|lia].
  replace (Z.to_nat (Z.max 0 (Z.of_nat (length l) + - Z.of_nat n)))
    with (length l - n)%nat by lia.
  replace (Z.to_nat (Z.max 0 (Z.of_nat (length l) + -1)))
    with (length l - 1)%nat by lia.
  f_equal. lia.
Qed.


Lemma current_window (log : list Np.float) :
  (5 <= length log)%nat ->
  current log = Np.mean (skipn (length log - 5) log).
Proof.
  intros H. unfold current, n_tail. f_equal.
  apply (slice_tail 5 log); lia.
Qed.

Lemma previous_window (log : list Np.float) :
  (6 <= length log)%nat ->
  previous log = Np.mean (firstn 5 (skipn (length log - 6) log)).
Proof.
  intros H. unfold previous, n_tail. f_equal.
  apply (slice_window 6 log); lia.
Qed.

Lemma index_last_nonempty {A} (l : list A) :
  l <> [] -> exists x, Py.index l (-1) = Ok x.
Proof.
  intros Hl. unfold Py.index.
  destruct (Z.ltb_spec (-1) 0) as [_|?]; [|lia].
  assert (0 < length l)%nat by (destruct l; simpl; [congruence|lia]).
  destruct (Z.ltb_spec (Z.of_nat (length l) + -1) 0) as [?|_]; [lia|].
  destruct (nth_error l (Z.to_nat (Z.of_nat (length l) + -1))) eqn:E.
  - eauto.
  - apply nth_error_None in E. lia.
Qed.

Lemma index_last_empty {A} : Py.index (@nil A) (-1) = Raise IndexError.
Proof. reflexivity. Qed.

Lemma index_ok_nonempty {A} (l : list A) (i : Z) (x : A) :
  Py.index l i = Ok x -> l <> [].
Proof.
  intros H ->. unfold Py.index in H. simpl in H.
  destruct (i <? 0); destruct (_ <? 0) in H; try discriminate;
    destruct (Z.to_nat _) in H; discriminate.
Qed.

(* ===================================================================== *)
(** ** Control flow *)
(* ===================================================================== *)

Lemma and_then_assoc (f : flow) (g h : state -> flow) :
  and_then (and_then f g) h = and_then f (fun s => and_then (g s) h).
Proof. destruct f; reflexivity. Qed.

Lemma for_each_app {A} (body : A -> state -> flow) (l1 l2 : list A) (s : state) :
  for_each body (l1 ++ l2) s = and_then (for_each body l1 s) (for_each body l2).
Proof.
  revert s. induction l1 as [|x l1 IH]; intros s; simpl; [reflexivity|].
  destruct (body x s); simpl; auto.
Qed.

Lemma for_each_snoc {A} (body : A -> state -> flow) (l : list A) (x : A) (s : state) :
  for_each body (l ++ [x]) s = and_then (for_each body l s) (body x).
Proof.
  rewrite for_each_app. destruct (for_each body l s); simpl; try reflexivity.
  match goal with |- and_then ?f _ = _ => destruct f; reflexivity end.
Qed.

Lemma preserves_and_then (I : state -> Prop) (f g : state -> flow) :
  preserves I f -> preserves I g -> preserves I (fun s => and_then (f s) g).
Proof.
  intros Hf Hg s Hs. specialize (Hf s Hs).
  destruct (f s) eqn:E; simpl in *; auto.
Qed.

Lemma preserves_for_each {A} (I : state -> Prop) (body : A -> state -> flow) (l : list A) :
  (forall x, preserves I (body x)) -> preserves I (for_each body l).
Proof.
  intros Hb. induction l as [|x l IH]; intros s Hs; simpl; auto.
  apply (preserves_and_then I (body x) (for_each body l)); auto.
Qed.

Lemma seq_split (n k : nat) :
  (k < n)%nat -> seq 0 n = seq 0 k ++ k :: seq (S k) (n - S k).
Proof.
  intros H. transitivity (seq 0 (k + S (n - S k))); [f_equal; lia|].
  rewrite seq_app. reflexivity.
Qed.

(* ===================================================================== *)
(** ** The convergence and deterioration check *)
(* ===================================================================== *)

Lemma Qabs_div_pos (x p : Q) : (0 < p)%Q -> (Qabs (x / p) == Qabs x / p)%Q.
Proof.
  intros Hp. unfold Qdiv. rewrite Qabs_Qmult.
  rewrite (Qabs_pos (/ p)); [reflexivity|].
  apply Qlt_le_weak, Qinv_lt_0_compat, Hp.
Qed.

Lemma Qdiv_nonneg_neg (a p : Q) : (0 <= a)%Q -> (p < 0)%Q -> (a / p <= 0)%Q.
Proof.
  intros Ha Hp.
  assert (Hne : ~ (p == 0)%Q) by (intros E; rewrite E in Hp; apply (Qlt_irrefl 0), Hp).
  pose proof (Qmult_div_r a p Hne) as E.
  destruct (Qlt_le_dec 0 (a / p)) as [Hpos|]; [|assumption].
  exfalso.
  assert (p * (a / p) < 0)%Q by nra.
  rewrite E in H. lra.
Qed.

(** Whenever the change as worded, [|current - previous| / previous], is not
    below the threshold, the change the code computes is not below it
    either. *)
Lemma worded_change_not_below (c p : Np.float) (thr : Q) :
  Np.ltb (Np.div (Np.abs (Np.sub c p)) p) (Np.Fin thr) = false ->
  Np.ltb (Np.abs (Np.div (Np.sub c p) p)) (Np.Fin thr) = false.
Proof.
  destruct c as [c|sc|], p as [p|sp|];
    cbn [Np.div Np.abs Np.sub Np.add Np.neg Np.ltb]; auto.
  - destruct (Qeq_bool p 0) eqn:E0.
    + destruct (c + - p ?= 0)%Q eqn:Ec; cbn [Np.abs Np.ltb]; auto.
    + cbn [Np.abs Np.ltb]. rewrite !Qlt_bool_false. intros H.
      assert (Hne : ~ (p == 0)%Q) by (intros E; apply Qeq_bool_iff in E; congruence).
      destruct (Qlt_le_dec 0 p) as [Hp|Hp].
      * rewrite Qabs_div_pos; auto.
      * assert (Hneg : (p < 0)%Q).
        { apply Qle_lteq in Hp. destruct Hp; [auto|contradiction]. }
        pose proof (Qdiv_nonneg_neg (Qabs (c + - p)) p (Qabs_nonneg _) Hneg).
        pose proof (Qabs_nonneg ((c + - p) / p)). lra.
  - destruct (Np.Qlt_bool p 0), sc; cbn; auto.
  - destruct sc, sp; cbn; auto.
Qed.

(** With a positive [previous] the two ways of writing the change agree. *)
Lemma perf_change_positive_previous (log : list Np.float) (c p : Q) :
  current log = Np.Fin c -> previous log = Np.Fin p -> (0 < p)%Q ->
  exists q w, perf_change log = Np.Fin q /\ perf_change_as_worded log = Np.Fin w
              /\ (q == w)%Q /\ (w == Qabs (c - p) / p)%Q.
Proof.
  intros Hc Hp Hpos. unfold perf_change, perf_change_as_worded.
  rewrite Hc, Hp. simpl.
  assert (E0 : Qeq_bool p 0 = false).
  { destruct (Qeq_bool p 0) eqn:E; [|reflexivity].
    apply Qeq_bool_iff in E. rewrite E in Hpos. exfalso. apply (Qlt_irrefl 0), Hpos. }
  rewrite E0. simpl.
  exists (Qabs ((c + - p) / p)), (Qabs (c + - p) / p)%Q.
  repeat split; try reflexivity. apply Qabs_div_pos, Hpos.
Qed.

Section Check.

Variable training : TrainingSpec.t.
Variable data : dataset.
Variable dcn : model.
Variable rng : nat -> nat -> draws.
Variables n_batches v_batches : nat.

Lemma at_check_until_display (epoch : nat) (s0 s : state) :
  at_check training dcn rng n_batches v_batches epoch s0 s ->
  epoch_until_display training dcn rng n_batches v_batches epoch s0
  = check_stop training s.
Proof.
  intros (s1 & s2 & H1 & H2 & H3 & H4).
  unfold epoch_until_display. rewrite H1. simpl. rewrite H2. simpl.
  unfold validation. rewrite H3. simpl.
  unfold validation_round.
  rewrite <- (and_then_assoc _
    (fun s => report training dcn n_batches v_batches epoch (record_averages Validation s))
    (check_stop training)).
  rewrite H4. reflexivity.
Qed.

Lemma check_stop_short (s : state) :
  (length (tget Ssim Validation (perf s)) < 6)%nat -> check_stop training s = Next s.
Proof.
  intros H. unfold check_stop.
  destruct (Nat.ltb_spec 5 (length (tget Ssim Validation (perf s)))); [lia|reflexivity].
Qed.

Lemma check_stop_converged (s : state) :
  let log := tget Ssim Validation (perf s) in
  (6 <= length log)%nat ->
  Np.ltb (perf_change log) (Np.Fin (TrainingSpec.convergence_threshold training)) = true ->
  check_stop training s
  = Break Converged (emit (Print (EarlyStopping (perf_change log))) s).
Proof.
  intros log H Hc. unfold check_stop. fold log.
  destruct (Nat.ltb_spec 5 (length log)); [|lia].
  rewrite Hc. reflexivity.
Qed.

Lemma check_stop_deteriorated (s : state) :
  let log := tget Ssim Validation (perf s) in
  (6 <= length log)%nat ->
  Np.ltb (perf_change log) (Np.Fin (TrainingSpec.convergence_threshold training)) = false ->
  Np.ltb (current log) (Np.mul (Np.Fin (9 # 10)) (previous log)) = true ->
  check_stop training s
  = Break Deteriorated (emit (Print (Deterioration (previous log) (current log))) s).
Proof.
  intros log H Hc Hd. unfold check_stop. fold log.
  destruct (Nat.ltb_spec 5 (length log)); [|lia].
  rewrite Hc, Hd. reflexivity.
Qed.

Lemma check_stop_break_inv (s s' : state) (why : stop_reason) :
  check_stop training s = Break why s' ->
  let log := tget Ssim Validation (perf s) in
  (6 <= length log)%nat /\
  match why with
  | Converged =>
      Np.ltb (perf_change log) (Np.Fin (TrainingSpec.convergence_threshold training)) = true
  | Deteriorated =>
      Np.ltb (perf_change log) (Np.Fin (TrainingSpec.convergence_threshold training)) = false
      /\ Np.ltb (current log) (Np.mul (Np.Fin (9 # 10)) (previous log)) = true
  end.
Proof.
  intros H. cbv zeta. unfold check_stop in H.
  set (log := tget Ssim Validation (perf s)) in *.
  destruct (Nat.ltb_spec 5 (length log)); [|discriminate].
  split; [lia|].
  destruct (Np.ltb (perf_change log) _) eqn:Ec.
  - inversion H; subst. reflexivity.
  - destruct (Np.ltb (current log) _) eqn:Ed; [|discriminate].
    inversion H; subst. auto.
Qed.

(** A break in the body of an epoch leaves the epoch loop at once: the
    progress display of that epoch and all later epochs are skipped. *)
Lemma break_leaves_loop (epoch : nat) (rest : list nat) (s0 s' : state) (why : stop_reason) :
  epoch_until_display training dcn rng n_batches v_batches epoch s0 = Break why s' ->
  epoch_body training dcn rng n_batches v_batches epoch s0 = Break why s' /\
  run_epochs training dcn rng n_batches v_batches (epoch :: rest) s0 = Break why s'.
Proof.
  intros H. unfold run_epochs. simpl. unfold epoch_body. rewrite H. auto.
Qed.

(** A break in epoch [epoch] of a run makes [train_dcn] end normally, with
    the state of the break. *)
Lemma break_ends_run (dir_exists overwrite : bool) (epoch : nat) (si s0 s' : state)
    (why : stop_reason) :
  prepare training data dcn dir_exists overwrite = SetupReady n_batches v_batches si ->
  (epoch < Z.to_nat (TrainingSpec.n_epochs training))%nat ->
  run_epochs training dcn rng n_batches v_batches (seq 0 epoch) si = Next s0 ->
  epoch_until_display training dcn rng n_batches v_batches epoch s0 = Break why s' ->
  train_dcn training data dcn rng dir_exists overwrite = finish (EarlyStop why) s'.
Proof.
  intros Hp He Hrun Hb. unfold train_dcn. rewrite Hp.
  rewrite (seq_split _ epoch He). unfold run_epochs in *.
  rewrite for_each_app, Hrun. cbn [and_then].
  fold (run_epochs training dcn rng n_batches v_batches
          (epoch :: seq (S epoch) (Z.to_nat (TrainingSpec.n_epochs training) - S epoch)) s0).
  rewrite (proj2 (break_leaves_loop epoch _ s0 s' why Hb)). reflexivity.
Qed.

(** C1 (as amended).  At the convergence check of a validation epoch, with the
    validation-SSIM log [log] of that moment: with fewer than 6 values the
    check decides nothing and the epoch goes on to its progress display; with
    at least 6 values, [current] is the mean of the last 5 values and
    [previous] the mean of the 5 values that end one position before the last
    (positions [len-6 .. len-2], so the two windows share 4 values), the change
    is [|(current - previous) / previous|] (which is
    [|current - previous| / previous] whenever [previous] is positive), and
    the epoch loop is left with reason [Converged], at once, exactly when the
    change is below [convergence_threshold]; [train_dcn] then ends normally
    in that state. *)
Theorem convergence_check_trailing_windows
    (epoch : nat) (rest : list nat) (s0 s : state) :
  at_check training dcn rng n_batches v_batches epoch s0 s ->
  let log := tget Ssim Validation (perf s) in
  let thr := Np.Fin (TrainingSpec.convergence_threshold training) in
  ((length log < 6)%nat ->
     epoch_until_display training dcn rng n_batches v_batches epoch s0 = Next s) /\
  ((6 <= length log)%nat ->
     current log = Np.mean (skipn (length log - 5) log) /\
     previous log = Np.mean (firstn 5 (skipn (length log - 6) log)) /\
     perf_change log
     = Np.abs (Np.div (Np.sub (current log) (previous log)) (previous log)) /\
     (forall c p, current log = Np.Fin c -> previous log = Np.Fin p -> (0 < p)%Q ->
        exists q, perf_change log = Np.Fin q /\ (q == Qabs (c - p) / p)%Q) /\
     ((exists s', epoch_body training dcn rng n_batches v_batches epoch s0
                  = Break Converged s')
      <-> Np.ltb (perf_change log) thr = true) /\
     (Np.ltb (perf_change log) thr = true ->
        run_epochs training dcn rng n_batches v_batches (epoch :: rest) s0
        = Break Converged (emit (Print (EarlyStopping (perf_change log))) s) /\
        forall dir_exists overwrite si,
          prepare training data dcn dir_exists overwrite
          = SetupReady n_batches v_batches si ->
          (epoch < Z.to_nat (TrainingSpec.n_epochs training))%nat ->
          run_epochs training dcn rng n_batches v_batches (seq 0 epoch) si = Next s0 ->
          train_dcn training data dcn rng dir_exists overwrite
          = finish (EarlyStop Converged)
              (emit (Print (EarlyStopping (perf_change log))) s))).
Proof.
  intros Hat log thr.
  pose proof (at_check_until_display epoch s0 s Hat) as Hbody.
  split.
  - intros Hlt. rewrite Hbody. apply check_stop_short. exact Hlt.
  - intros Hge.
    split; [apply current_window; lia|].
    split; [apply previous_window; exact Hge|].
    split; [reflexivity|].
    split.
    { intros c p Hc Hp Hpos.
      destruct (perf_change_positive_previous log c p Hc Hp Hpos)
        as (q & w & Hq & _ & Hqw & Hw).
      exists q. split; [exact Hq|]. rewrite Hqw. exact Hw. }
    split.
    + split.
      * intros [s' Hs']. unfold epoch_body in Hs'. rewrite Hbody in Hs'.
        destruct (check_stop training s) eqn:E; simpl in Hs'.
        -- unfold progress_display, attempt in Hs'.
           destruct (Py.index _ _); discriminate.
        -- inversion Hs'; subst.
           apply check_stop_break_inv in E. apply E.
        -- discriminate.
        -- discriminate.
      * intros Hc. eexists.
        apply (break_leaves_loop epoch [] s0). rewrite Hbody.
        apply check_stop_converged; assumption.
    + intros Hc.
      assert (Hb : epoch_until_display training dcn rng n_batches v_batches epoch s0
                   = Break Converged (emit (Print (EarlyStopping (perf_change log))) s))
        by (rewrite Hbody; apply check_stop_converged; assumption).
      split; [apply (break_leaves_loop epoch rest s0); exact Hb|].
      intros dir_exists overwrite si Hp He Hrun.
      exact (break_ends_run dir_exists overwrite epoch si s0 _ _ Hp He Hrun Hb).
Qed.

(** C3 (as amended).  At the convergence check of a validation epoch with at
    least 6 validation-SSIM values, with [current] the mean of the last five
    values and [previous] the mean of the five values that end one position
    before the last (the windows of the code, which overlap in four values),
    if the change [|current - previous| / previous] is
    not below [convergence_threshold] and [current < 0.9 * previous], the
    epoch loop is left with reason [Deteriorated]: the convergence test, which
    comes first, did not fire, the message is printed, nothing is raised, and
    [train_dcn] ends normally, handing back [None].  Conversely the loop is
    left with reason [Deteriorated] only when the convergence test did not
    fire. *)
Theorem deterioration_stops_loop
    (epoch : nat) (rest : list nat) (s0 s : state) :
  at_check training dcn rng n_batches v_batches epoch s0 s ->
  let log := tget Ssim Validation (perf s) in
  let thr := Np.Fin (TrainingSpec.convergence_threshold training) in
  (6 <= length log)%nat ->
  Np.ltb (perf_change_as_worded log) thr = false ->
  Np.ltb (current log) (Np.mul (Np.Fin (9 # 10)) (previous log)) = true ->
  Np.ltb (perf_change log) thr = false /\
  check_stop training s
  = Break Deteriorated (emit (Print (Deterioration (previous log) (current log))) s) /\
  run_epochs training dcn rng n_batches v_batches (epoch :: rest) s0
  = Break Deteriorated (emit (Print (Deterioration (previous log) (current log))) s) /\
  (forall dir_exists overwrite si,
     prepare training data dcn dir_exists overwrite = SetupReady n_batches v_batches si ->
     (epoch < Z.to_nat (TrainingSpec.n_epochs training))%nat ->
     run_epochs training dcn rng n_batches v_batches (seq 0 epoch) si = Next s0 ->
     let r := train_dcn training data dcn rng dir_exists overwrite in
     r = finish (EarlyStop Deteriorated)
           (emit (Print (Deterioration (previous log) (current log))) s) /\
     returned (result_of r) = Some PyNone) /\
  (forall s1 s2, check_stop training s1 = Break Deteriorated s2 ->
     Np.ltb (perf_change (tget Ssim Validation (perf s1)))
       (Np.Fin (TrainingSpec.convergence_threshold training)) = false).
Proof.
  intros Hat log thr Hge Hw Hd.
  assert (Hc : Np.ltb (perf_change log) thr = false)
    by (apply worded_change_not_below; exact Hw).
  pose proof (check_stop_deteriorated s Hge Hc Hd) as Hstop.
  assert (Hb : epoch_until_display training dcn rng n_batches v_batches epoch s0
               = Break Deteriorated
                   (emit (Print (Deterioration (previous log) (current log))) s))
    by (rewrite (at_check_until_display epoch s0 s Hat); exact Hstop).
  split; [exact Hc|]. split; [exact Hstop|]. split; [|split].
  - apply (break_leaves_loop epoch rest s0). exact Hb.
  - intros dir_exists overwrite si Hp He Hrun. cbv zeta.
    rewrite (break_ends_run dir_exists overwrite epoch si s0 _ _ Hp He Hrun Hb).
    split; reflexivity.
  - intros s1 s2 H. apply check_stop_break_inv in H. apply H.
Qed.

End Check.

(* ===================================================================== *)
(** ** The metric caches *)
(* ===================================================================== *)

Lemma append_maxlen (v : Np.float) (d : Py.deque) :
  Py.maxlen (Py.append v d) = Py.maxlen d.
Proof. reflexivity. Qed.

Lemma append_items (v : Np.float) (d : Py.deque) :
  (length (Py.items d) <= Py.maxlen d)%nat ->
  Py.items (Py.append v d)
  = skipn (length (Py.items d ++ [v]) - Py.maxlen d) (Py.items d ++ [v]).
Proof.
  intros H. unfold Py.append. cbn [Py.items Py.maxlen].
  rewrite length_app. cbn [length].
  destruct (Nat.ltb_spec (Py.maxlen d) (length (Py.items d) + 1)).
  - replace (length (Py.items d) + 1 - Py.maxlen d)%nat with 1%nat by lia.
    destruct (Py.items d ++ [v]); reflexivity.
  - replace (length (Py.items d) + 1 - Py.maxlen d)%nat with 0%nat by lia.
    reflexivity.
Qed.

Lemma append_bounded (v : Np.float) (d : Py.deque) :
  (length (Py.items d) <= Py.maxlen d)%nat ->
  (length (Py.items (Py.append v d)) <= Py.maxlen (Py.append v d))%nat.
Proof.
  intros H. rewrite append_items by exact H. rewrite append_maxlen.
  rewrite length_skipn, length_app. cbn [length]. lia.
Qed.

Lemma append_room (v : Np.float) (d : Py.deque) :
  (length (Py.items d) < Py.maxlen d)%nat ->
  Py.items (Py.append v d) = Py.items d ++ [v].
Proof.
  intros H. rewrite append_items by lia. rewrite length_app. cbn [length].
  replace (length (Py.items d) + 1 - Py.maxlen d)%nat with 0%nat by lia.
  reflexivity.
Qed.

Lemma append_evicts (v : Np.float) (d : Py.deque) :
  length (Py.items d) = Py.maxlen d -> (0 < Py.maxlen d)%nat ->
  Py.items (Py.append v d) = tail (Py.items d) ++ [v].
Proof.
  intros H Hpos. rewrite append_items by lia. rewrite length_app. cbn [length].
  replace (length (Py.items d) + 1 - Py.maxlen d)%nat with 1%nat by lia.
  destruct (Py.items d); [simpl in H; lia|reflexivity].
Qed.

Lemma append_all_maxlen (vs : list Np.float) (d : Py.deque) :
  Py.maxlen (append_all vs d) = Py.maxlen d.
Proof.
  revert d. induction vs as [|v vs IH]; intros d; [reflexivity|].
  unfold append_all in *. simpl. rewrite IH. reflexivity.
Qed.

(** After any number of appends the deque holds the last [maxlen] values of
    what was there followed by what was appended. *)
Lemma append_all_items (vs : list Np.float) (d : Py.deque) :
  (length (Py.items d) <= Py.maxlen d)%nat ->
  Py.items (append_all vs d)
  = skipn (length (Py.items d ++ vs) - Py.maxlen d) (Py.items d ++ vs).
Proof.
  revert d. induction vs as [|v vs IH]; intros d H.
  - unfold append_all. simpl. rewrite app_nil_r.
    replace (length (Py.items d) - Py.maxlen d)%nat with 0%nat by lia. reflexivity.
  - change (append_all (v :: vs) d) with (append_all vs (Py.append v d)).
    rewrite IH by (apply append_bounded; exact H).
    rewrite append_maxlen, append_items by exact H.
    set (l := Py.items d ++ [v]).
    replace (Py.items d ++ v :: vs) with (l ++ vs)
      by (unfold l; rewrite <- app_assoc; reflexivity).
    assert (Hl : length l = S (length (Py.items d)))
      by (unfold l; rewrite length_app; simpl; lia).
    set (k := (length l - Py.maxlen d)%nat).
    assert (Hk : (k <= length l)%nat) by (unfold k; lia).
    replace (skipn k l ++ vs) with (skipn k (l ++ vs)).
    2:{ rewrite skipn_app. replace (k - length l)%nat with 0%nat by lia. reflexivity. }
    rewrite length_skipn, skipn_skipn. f_equal.
    rewrite !length_app. unfold k. lia.
Qed.

Lemma append_all_bounded (vs : list Np.float) (d : Py.deque) :
  (length (Py.items d) <= Py.maxlen d)%nat ->
  (length (Py.items (append_all vs d)) <= Py.maxlen (append_all vs d))%nat.
Proof.
  intros H. rewrite append_all_items by exact H. rewrite append_all_maxlen.
  rewrite length_skipn. lia.
Qed.

Lemma sum_fin_from (qs : list Q) (a : Q) :
  fold_left Np.add (map Np.Fin qs) (Np.Fin a) = Np.Fin (fold_left Qplus qs a).
Proof.
  revert a. induction qs as [|q qs IH]; intros a; [reflexivity|].
  simpl. apply IH.
Qed.

(** On finite values [np.mean] is the sum divided by the count. *)
Lemma mean_fin (qs : list Q) :
  qs <> [] ->
  Np.mean (map Np.Fin qs)
  = Np.Fin (fold_left Qplus qs 0 / inject_Z (Z.of_nat (length qs)))%Q.
Proof.
  intros Hne. unfold Np.mean, Np.sum. rewrite sum_fin_from, length_map.
  cbn [Np.div].
  destruct (Qeq_bool (inject_Z (Z.of_nat (length qs))) 0) eqn:E; [|reflexivity].
  exfalso. apply Qeq_bool_iff in E. unfold Qeq in E. simpl in E.
  destruct qs; [congruence|]. simpl in E. lia.
Qed.

(* ===================================================================== *)
(** ** What each piece of the loop touches *)
(* ===================================================================== *)

Lemma tget_tset_same {A} (key : metric) (sp : split) (v : A) (t : table A) :
  tget key sp (tset key sp v t) = v.
Proof. destruct key, sp; reflexivity. Qed.

Lemma tget_tset_other {A} (key key' : metric) (sp sp' : split) (v : A) (t : table A) :
  (key, sp) <> (key', sp') ->
  tget key' sp' (tset key sp v t) = tget key' sp' t.
Proof. destruct key, sp, key', sp'; intros H; try reflexivity; congruence. Qed.

Lemma tget_tupd_same {A} (f : A -> A) (key : metric) (sp : split) (t : table A) :
  tget key sp (tupd f key sp t) = f (tget key sp t).
Proof. apply tget_tset_same. Qed.

Lemma tget_tupd_other_split {A} (f : A -> A) (key key' : metric) (sp sp' : split)
    (t : table A) :
  sp <> sp' -> tget key' sp' (tupd f key sp t) = tget key' sp' t.
Proof. intros H. apply tget_tset_other. congruence. Qed.

Lemma tget_tupd {A} (f : A -> A) (key key' : metric) (sp sp' : split) (t : table A) :
  tget key' sp' (tupd f key sp t) = tget key' sp' t \/
  tget key' sp' (tupd f key sp t) = f (tget key' sp' t).
Proof. destruct key, sp, key', sp'; auto. Qed.

Section Frames.

Variable training : TrainingSpec.t.
Variable dcn : model.
Variable rng : nat -> nat -> draws.

(** *** The epoch averages *)

Lemma record_averages_perf (sp : split) (s : state) (key : metric) (sp' : split) :
  tget key sp' (perf (record_averages sp s))
  = if decide (sp = sp')
    then tget key sp' (perf s) ++ [Np.mean (Py.items (tget key sp (caches s)))]
    else tget key sp' (perf s).
Proof. destruct sp, sp', key; reflexivity. Qed.

Lemma record_averages_rest (sp : split) (s : state) :
  caches (record_averages sp s) = caches s /\
  learning_rate (record_averages sp s) = learning_rate s /\
  current_epoch (record_averages sp s) = current_epoch s /\
  trace (record_averages sp s) = trace s.
Proof. repeat split. Qed.

(** *** The batch loop *)

Lemma nan_dump_frame (epoch batch_id : nat) (s : state) :
  perf (nan_dump dcn epoch batch_id s) = perf s /\
  caches (nan_dump dcn epoch batch_id s) = caches s /\
  learning_rate (nan_dump dcn epoch batch_id s) = learning_rate s /\
  current_epoch (nan_dump dcn epoch batch_id s) = current_epoch s.
Proof.
  unfold nan_dump.
  set (s1 := emit (Print CodebookIs) _).
  assert (H : perf s1 = perf s /\ caches s1 = caches s /\
              learning_rate s1 = learning_rate s /\ current_epoch s1 = current_epoch s)
    by (repeat split).
  clearbody s1. revert s1 H.
  induction (nan_variables dcn epoch batch_id) as [|v vs IH]; intros s1 H; simpl; auto.
Qed.

Lemma nan_dump_trace (epoch batch_id : nat) (s : state) :
  trace (nan_dump dcn epoch batch_id s) = trace s ++ nan_dump_events dcn epoch batch_id.
Proof.
  unfold nan_dump, nan_dump_events.
  set (s1 := emit (Print CodebookIs) _).
  assert (H : trace s1
              = trace s ++ [Print NaNLossDetected;
                  Print (ScalingIs (if scale_latent dcn then latent_scaling dcn epoch
                                    else Np.NaN));
                  Print CodebookIs])
    by (unfold s1; simpl; rewrite <- !app_assoc; reflexivity).
  rewrite app_assoc, <- H. clearbody s1. clear H.
  revert s1. induction (nan_variables dcn epoch batch_id) as [|v vs IH]; intros s1; simpl.
  - rewrite app_nil_r. reflexivity.
  - rewrite IH. simpl. rewrite <- app_assoc. reflexivity.
Qed.

Lemma record_values_frame (values : list (string * Np.float)) (s : state) :
  perf (flow_state (record_values values s)) = perf s /\
  learning_rate (flow_state (record_values values s)) = learning_rate s /\
  current_epoch (flow_state (record_values values s)) = current_epoch s /\
  trace (flow_state (record_values values s)) = trace s.
Proof.
  revert s. induction values as [|[key value] rest IH]; intros s; simpl; auto.
  destruct (cache_key key); simpl; auto.
  destruct (IH (set_caches (tupd (Py.append value) m Training (caches s)) s))
    as (H1 & H2 & H3 & H4).
  rewrite H1, H2, H3, H4. auto.
Qed.

Lemma record_values_not_break (values : list (string * Np.float)) (s : state) :
  match record_values values s with
  | Next _ | Raised _ _ => True
  | _ => False
  end.
Proof.
  revert s. induction values as [|[key value] rest IH]; intros s; simpl; auto.
  destruct (cache_key key); simpl; auto. apply IH.
Qed.

(** A property of the caches that every append to a training cache keeps is
    kept by recording a dictionary of values. *)
Lemma record_values_caches (J : table Py.deque -> Prop)
    (values : list (string * Np.float)) (s : state) :
  (forall v key c, J c -> J (tupd (Py.append v) key Training c)) ->
  J (caches s) -> J (caches (flow_state (record_values values s))).
Proof.
  intros HJ. revert s.
  induction values as [|[key value] rest IH]; intros s H; simpl; auto.
  destruct (cache_key key); simpl; auto.
  apply IH. simpl. apply HJ, H.
Qed.

Lemma training_batch_frame (epoch batch_id : nat) (s : state) :
  perf (flow_state (training_batch training dcn rng epoch batch_id s)) = perf s /\
  learning_rate (flow_state (training_batch training dcn rng epoch batch_id s))
  = learning_rate s /\
  current_epoch (flow_state (training_batch training dcn rng epoch batch_id s))
  = current_epoch s.
Proof.
  unfold training_batch, attempt.
  destruct (pick_patch_size training (rng epoch batch_id)) as [current_patch|e]; [|auto].
  match goal with
  | |- context [emit (TrainingStep ?a ?b ?c ?d) ?st] =>
      set (s1 := emit (TrainingStep a b c d) st)
  end.
  assert (H : perf s1 = perf s /\ learning_rate s1 = learning_rate s /\
              current_epoch s1 = current_epoch s).
  { unfold s1. repeat match goal with |- context [if ?b then _ else _] => destruct b end;
      repeat split. }
  clearbody s1. destruct H as (H1 & H2 & H3).
  destruct (training_step dcn epoch batch_id !! "loss"%string) as [loss|]; [|auto].
  destruct (Np.isnan loss).
  - simpl. destruct (nan_dump_frame epoch batch_id s1) as (G1 & _ & G3 & G4).
    rewrite G1, G3, G4. auto.
  - destruct (record_values_frame (map_to_list (training_step dcn epoch batch_id)) s1)
      as (G1 & G2 & G3 & _).
    rewrite G1, G2, G3. auto.
Qed.

Lemma training_batch_not_break (epoch batch_id : nat) (s : state) (why : stop_reason)
    (s' : state) :
  training_batch training dcn rng epoch batch_id s <> Break why s'.
Proof.
  unfold training_batch, attempt.
  destruct (pick_patch_size training (rng epoch batch_id)); [|discriminate].
  destruct (training_step dcn epoch batch_id !! "loss"%string); [|discriminate].
  destruct (Np.isnan f); [discriminate|].
  match goal with |- ?r <> _ =>
    match r with record_values ?v ?st =>
      pose proof (record_values_not_break v st) as H; destruct r; try discriminate; tauto
    end
  end.
Qed.

Lemma training_batch_caches (J : table Py.deque -> Prop) (epoch batch_id : nat) (s : state) :
  (forall v key c, J c -> J (tupd (Py.append v) key Training c)) ->
  J (caches s) ->
  J (caches (flow_state (training_batch training dcn rng epoch batch_id s))).
Proof.
  intros HJ H. unfold training_batch, attempt.
  destruct (pick_patch_size training (rng epoch batch_id)) as [current_patch|e]; [|auto].
  match goal with
  | |- context [emit (TrainingStep ?a ?b ?c ?d) ?st] =>
      set (s1 := emit (TrainingStep a b c d) st)
  end.
  assert (H1 : caches s1 = caches s).
  { unfold s1. repeat match goal with |- context [if ?b then _ else _] => destruct b end;
      reflexivity. }
  clearbody s1.
  destruct (training_step dcn epoch batch_id !! "loss"%string) as [loss|];
    [|simpl; rewrite H1; exact H].
  destruct (Np.isnan loss).
  - simpl. destruct (nan_dump_frame epoch batch_id s1) as (_ & G & _). rewrite G, H1. exact H.
  - apply record_values_caches; [exact HJ|]. rewrite H1. exact H.
Qed.

End Frames.

Ltac split_matches :=
  repeat match goal with
         | |- context [match ?x with _ => _ end] => destruct x
         end.

Section EpochFrames.

Variable training : TrainingSpec.t.
Variable dcn : model.
Variable rng : nat -> nat -> draws.
Variables n_batches v_batches : nat.

Lemma schedule_frame (epoch : nat) (s : state) :
  let s' := flow_state (schedule_learning_rate training epoch s) in
  perf s' = perf s /\ caches s' = caches s /\
  current_epoch s' = current_epoch s /\ trace s' = trace s.
Proof.
  unfold schedule_learning_rate, attempt. cbv zeta. split_matches; repeat split.
Qed.

Lemma schedule_rate (epoch : nat) (s : state) :
  learning_rate (flow_state (schedule_learning_rate training epoch s))
  = if reduction_due training epoch
    then (learning_rate s * TrainingSpec.learning_rate_reduction_factor training)%Q
    else learning_rate s.
Proof.
  unfold schedule_learning_rate, reduction_due, Py.modulo, attempt.
  destruct (0 <? Z.of_nat epoch); [|reflexivity].
  destruct (TrainingSpec.learning_rate_reduction_schedule training =? 0); [reflexivity|].
  cbn [andb negb].
  destruct (Z.of_nat epoch mod TrainingSpec.learning_rate_reduction_schedule training =? 0);
    reflexivity.
Qed.

Lemma validation_batch_frame (epoch batch_id : nat) (s : state) :
  exists c, validation_batch dcn epoch batch_id s = Next (set_caches c s) /\
    forall key,
      tget key Training c = tget key Training (caches s) /\
      tget key Validation c
      = Py.append (match key with
                   | Loss => validation_loss dcn epoch batch_id
                   | Ssim => validation_ssim dcn epoch batch_id
                   | Entropy => validation_entropy dcn epoch batch_id
                   end) (tget key Validation (caches s)).
Proof.
  eexists. split; [reflexivity|]. intros key. destruct key; split; reflexivity.
Qed.

Lemma validation_batches_frame (epoch : nat) (l : list nat) (s : state) :
  exists c, for_each (validation_batch dcn epoch) l s = Next (set_caches c s).
Proof.
  revert s. induction l as [|b l IH]; intros s.
  - exists (caches s). destruct s; reflexivity.
  - cbn [for_each]. destruct (validation_batch_frame epoch b s) as (c & -> & _).
    cbn [and_then].
    destruct (IH (set_caches c s)) as (c' & ->). exists c'. reflexivity.
Qed.

Lemma report_frame (epoch : nat) (s : state) :
  let s' := flow_state (report training dcn n_batches v_batches epoch s) in
  perf s' = perf s /\ caches s' = caches s /\ same_scalars s s'.
Proof.
  unfold report, attempt, same_scalars. cbv zeta. split_matches; repeat split.
Qed.

Lemma report_not_break (epoch : nat) (s s' : state) (why : stop_reason) :
  report training dcn n_batches v_batches epoch s <> Break why s' /\
  report training dcn n_batches v_batches epoch s <> Return s'.
Proof.
  unfold report, attempt. split_matches; split; discriminate.
Qed.

Lemma check_stop_frame (s : state) :
  let s' := flow_state (check_stop training s) in
  perf s' = perf s /\ caches s' = caches s /\ same_scalars s s'.
Proof.
  unfold check_stop, same_scalars. cbv zeta. split_matches; repeat split.
Qed.

Lemma progress_display_frame (epoch : nat) (s : state) :
  let s' := flow_state (progress_display dcn epoch s) in
  perf s' = perf s /\ caches s' = caches s /\ same_scalars s s'.
Proof.
  unfold progress_display, attempt, same_scalars. cbv zeta. split_matches; repeat split.
Qed.

Lemma training_batches_frame (epoch : nat) (l : list nat) (s : state) :
  let s' := flow_state (for_each (training_batch training dcn rng epoch) l s) in
  perf s' = perf s /\ same_scalars s s'.
Proof.
  cbv zeta.
  apply (preserves_for_each (fun s' => perf s' = perf s /\ same_scalars s s')
           (training_batch training dcn rng epoch) l).
  - intros b s1 (H1 & H2 & H3).
    destruct (training_batch_frame training dcn rng epoch b s1) as (G1 & G2 & G3).
    unfold same_scalars. rewrite G1, G2, G3. auto.
  - unfold same_scalars. auto.
Qed.

Lemma training_batches_not_break (epoch : nat) (l : list nat) (s s' : state)
    (why : stop_reason) :
  for_each (training_batch training dcn rng epoch) l s <> Break why s'.
Proof.
  revert s. induction l as [|b l IH]; intros s; simpl; [discriminate|].
  destruct (training_batch training dcn rng epoch b s) eqn:E; simpl;
    try discriminate; [apply IH|].
  exfalso. exact (training_batch_not_break training dcn rng epoch b s _ _ E).
Qed.

(** *** The shape of an epoch that falls through or breaks *)

Lemma training_epoch_next (epoch : nat) (s s' : state) :
  training_epoch training dcn rng n_batches epoch s = Next s' ->
  exists sx, for_each (training_batch training dcn rng epoch) (seq 0 n_batches) s = Next sx
             /\ s' = record_averages Training sx
             /\ perf sx = perf s /\ same_scalars s sx.
Proof.
  unfold training_epoch. intros H.
  pose proof (training_batches_frame epoch (seq 0 n_batches) s) as F. cbv zeta in F.
  destruct (for_each _ _ s) as [sx| | |]; simpl in H; try discriminate.
  inversion H; subst. exists sx. simpl in F. tauto.
Qed.

Lemma training_epoch_not_break (epoch : nat) (s s' : state) (why : stop_reason) :
  training_epoch training dcn rng n_batches epoch s <> Break why s'.
Proof.
  unfold training_epoch. intros H.
  destruct (for_each _ _ s) eqn:E; simpl in H; try discriminate.
  exact (training_batches_not_break epoch _ s _ _ E).
Qed.

Lemma training_epoch_frame (epoch : nat) (s : state) :
  same_scalars s (flow_state (training_epoch training dcn rng n_batches epoch s)).
Proof.
  unfold training_epoch.
  pose proof (training_batches_frame epoch (seq 0 n_batches) s) as F. cbv zeta in F.
  destruct (for_each _ _ s); simpl in *; tauto.
Qed.

(** The validation round always records its three averages; after that it
    reports and checks for an early stop. *)
Lemma validation_round_shape (epoch : nat) (s : state) :
  exists c,
    validation_round training dcn n_batches v_batches epoch s
    = and_then
        (report training dcn n_batches v_batches epoch
           (record_averages Validation (set_caches c s)))
        (check_stop training).
Proof.
  unfold validation_round.
  destruct (validation_batches_frame epoch (seq 0 v_batches) s) as (c & ->).
  exists c. reflexivity.
Qed.

Lemma validation_round_perf (epoch : nat) (s : state) (key : metric) (sp : split) :
  exists v,
    tget key sp (perf (flow_state (validation_round training dcn n_batches v_batches epoch s)))
    = if decide (Validation = sp) then tget key sp (perf s) ++ [v]
      else tget key sp (perf s).
Proof.
  destruct (validation_round_shape epoch s) as (c & ->).
  set (s1 := record_averages Validation (set_caches c s)).
  exists (Np.mean (Py.items (tget key Validation c))).
  assert (H1 : tget key sp (perf s1)
               = if decide (Validation = sp)
                 then tget key sp (perf s) ++ [Np.mean (Py.items (tget key Validation c))]
                 else tget key sp (perf s))
    by (unfold s1; rewrite record_averages_perf; reflexivity).
  rewrite <- H1.
  destruct (report_frame epoch s1) as (R1 & _). cbv zeta in R1.
  destruct (report training dcn n_batches v_batches epoch s1) as [s2| | |] eqn:E;
    simpl in *; try (rewrite R1; reflexivity).
  destruct (check_stop_frame s2) as (C1 & _). cbv zeta in C1.
  rewrite C1, R1. reflexivity.
Qed.

Lemma validation_round_scalars (epoch : nat) (s : state) :
  same_scalars s (flow_state (validation_round training dcn n_batches v_batches epoch s)).
Proof.
  destruct (validation_round_shape epoch s) as (c & ->).
  set (s1 := record_averages Validation (set_caches c s)).
  destruct (report_frame epoch s1) as (_ & _ & R1 & R2). cbv zeta in R1, R2.
  destruct (report training dcn n_batches v_batches epoch s1) as [s2| | |] eqn:E;
    simpl in *; try (split; [rewrite R1|rewrite R2]; reflexivity).
  destruct (check_stop_frame s2) as (_ & _ & C1 & C2). cbv zeta in C1, C2.
  split; [rewrite C1, R1|rewrite C2, R2]; reflexivity.
Qed.

End EpochFrames.

(* ===================================================================== *)
(** ** Growth of the performance log *)
(* ===================================================================== *)

Section Growth.

Variable training : TrainingSpec.t.
Variable dcn : model.
Variable rng : nat -> nat -> draws.
Variables n_batches v_batches : nat.

Lemma schedule_not_break (epoch : nat) (s s' : state) (why : stop_reason) :
  schedule_learning_rate training epoch s <> Break why s'.
Proof.
  unfold schedule_learning_rate, attempt. split_matches; discriminate.
Qed.

Lemma until_display_growth (epoch : nat) (s s' : state) :
  ran (epoch_until_display training dcn rng n_batches v_batches epoch s) s' ->
  current_epoch s' = Some epoch /\
  forall key,
    length (tget key Training (perf s')) = S (length (tget key Training (perf s))) /\
    length (tget key Validation (perf s'))
    = (length (tget key Validation (perf s))
       + if is_validation_epoch training epoch then 1 else 0)%nat.
Proof.
  unfold ran, epoch_until_display. intros H.
  destruct (schedule_frame training epoch (set_current_epoch epoch s)) as (P1 & _ & E1 & _).
  cbv zeta in P1, E1.
  destruct (schedule_learning_rate training epoch (set_current_epoch epoch s))
    as [s1| | |] eqn:Hs; cbn [and_then flow_state] in *.
  2:{ exfalso. exact (schedule_not_break _ _ _ _ Hs). }
  2,3: destruct H as [H|[why H]]; discriminate.
  destruct (training_epoch training dcn rng n_batches epoch s1) as [s2| | |] eqn:Ht;
    cbn [and_then] in *.
  2:{ exfalso. exact (training_epoch_not_break training dcn rng n_batches epoch s1 _ _ Ht). }
  2,3: destruct H as [H|[why H]]; discriminate.
  destruct (training_epoch_next training dcn rng n_batches epoch s1 s2 Ht)
    as (sx & _ & -> & Px & Lx & Ex).
  assert (T : forall key sp,
             tget key sp (perf (record_averages Training sx))
             = if decide (Training = sp)
               then tget key sp (perf s) ++ [Np.mean (Py.items (tget key Training (caches sx)))]
               else tget key sp (perf s)).
  { intros key sp. rewrite record_averages_perf, Px, P1. reflexivity. }
  assert (E2 : current_epoch (record_averages Training sx) = Some epoch).
  { cbn. rewrite Ex, E1. reflexivity. }
  set (s2 := record_averages Training sx) in *. clearbody s2.
  unfold validation, attempt, Py.modulo in H. unfold is_validation_epoch.
  destruct (TrainingSpec.validation_schedule training =? 0);
    [destruct H as [H|[why H]]; discriminate|].
  destruct (Z.of_nat epoch mod TrainingSpec.validation_schedule training =? 0) eqn:Hv.
  - destruct (validation_round_scalars training dcn n_batches v_batches epoch s2) as (_ & Ev).
    assert (Hs' : s' = flow_state (validation_round training dcn n_batches v_batches epoch s2))
      by (destruct H as [H|[why H]]; rewrite H; reflexivity).
    split; [rewrite Hs', Ev; exact E2|].
    intros key. split.
    + destruct (validation_round_perf training dcn n_batches v_batches epoch s2 key Training)
        as (v & Hp).
      rewrite Hs', Hp, T. simpl. rewrite length_app. simpl. lia.
    + destruct (validation_round_perf training dcn n_batches v_batches epoch s2 key Validation)
        as (v & Hp).
      rewrite Hs', Hp, T. simpl. rewrite length_app. simpl. lia.
  - destruct H as [H|[why H]]; [|discriminate]. inversion H; subst s'.
    split; [exact E2|]. intros key. rewrite !T. simpl.
    rewrite length_app. simpl. lia.
Qed.

Lemma epoch_body_ran (epoch : nat) (s s' : state) :
  ran (epoch_body training dcn rng n_batches v_batches epoch s) s' ->
  exists s3, ran (epoch_until_display training dcn rng n_batches v_batches epoch s) s3 /\
             perf s' = perf s3 /\ current_epoch s' = current_epoch s3.
Proof.
  unfold ran, epoch_body. intros H.
  destruct (epoch_until_display training dcn rng n_batches v_batches epoch s)
    as [s3| | |] eqn:E; cbn [and_then] in H.
  - destruct (progress_display_frame dcn epoch s3) as (P & _ & _ & Ep). cbv zeta in P, Ep.
    exists s3. split; [auto|].
    destruct H as [H|[why H]]; rewrite H in P, Ep; simpl in P, Ep; auto.
  - exists s0. destruct H as [H|[w H]]; inversion H; subst. split; eauto.
  - destruct H as [H|[w H]]; discriminate.
  - destruct H as [H|[w H]]; discriminate.
Qed.

(** One epoch whose training completes adds exactly one value to every
    training series, and exactly one value to every validation series when it
    is a validation epoch (none otherwise). *)
Lemma epoch_body_growth (epoch : nat) (s s' : state) :
  ran (epoch_body training dcn rng n_batches v_batches epoch s) s' ->
  current_epoch s' = Some epoch /\
  forall key,
    length (tget key Training (perf s')) = S (length (tget key Training (perf s))) /\
    length (tget key Validation (perf s'))
    = (length (tget key Validation (perf s))
       + if is_validation_epoch training epoch then 1 else 0)%nat.
Proof.
  intros H. destruct (epoch_body_ran epoch s s' H) as (s3 & H3 & P & E).
  rewrite P, E. apply until_display_growth. exact H3.
Qed.

Lemma validation_rounds_S (n : nat) :
  validation_rounds training (S n)
  = (validation_rounds training n + if is_validation_epoch training n then 1 else 0)%nat.
Proof.
  unfold validation_rounds. rewrite seq_S, List.filter_app, length_app. simpl.
  fold (is_validation_epoch training n). destruct (is_validation_epoch training n); reflexivity.
Qed.

Lemma run_epochs_growth (n : nat) (s0 s' : state) :
  run_epochs training dcn rng n_batches v_batches (seq 0 n) s0 = Next s' ->
  forall key,
    length (tget key Training (perf s')) = (length (tget key Training (perf s0)) + n)%nat /\
    length (tget key Validation (perf s'))
    = (length (tget key Validation (perf s0)) + validation_rounds training n)%nat.
Proof.
  revert s'. induction n as [|n IH]; intros s' H key.
  - inversion H; subst. unfold validation_rounds. simpl. lia.
  - unfold run_epochs in *. rewrite seq_S, for_each_snoc in H. simpl in H.
    destruct (for_each _ (seq 0 n) s0) as [s1| | |] eqn:E; cbn [and_then] in H;
      try discriminate.
    destruct (epoch_body_growth n s1 s' (or_introl H)) as (_ & G).
    destruct (G key) as (G1 & G2). destruct (IH s1 eq_refl key) as (I1 & I2).
    rewrite G1, G2, I1, I2, validation_rounds_S. lia.
Qed.

Lemma run_epochs_break (n : nat) (s0 s' : state) (why : stop_reason) :
  run_epochs training dcn rng n_batches v_batches (seq 0 n) s0 = Break why s' ->
  exists epoch s1,
    (epoch < n)%nat /\
    run_epochs training dcn rng n_batches v_batches (seq 0 epoch) s0 = Next s1 /\
    epoch_body training dcn rng n_batches v_batches epoch s1 = Break why s'.
Proof.
  induction n as [|n IH]; intros H.
  - discriminate.
  - unfold run_epochs in *. rewrite seq_S, for_each_snoc in H. simpl in H.
    destruct (for_each _ (seq 0 n) s0) as [s1| | |] eqn:E; cbn [and_then] in H;
      try discriminate.
    + exists n, s1. split; [lia|]. split; [exact E|exact H].
    + inversion H; subst. destruct (IH eq_refl) as (e & s1 & He & H1 & H2).
      exists e, s1. split; [lia|]. auto.
Qed.

End Growth.

(* ===================================================================== *)
(** ** The run from its start *)
(* ===================================================================== *)

Section Run.

Variable training : TrainingSpec.t.
Variable data : dataset.
Variable dcn : model.
Variable rng : nat -> nat -> draws.

Lemma prepare_ready (dir_exists overwrite : bool) (n_batches v_batches : nat) (s0 : state) :
  prepare training data dcn dir_exists overwrite = SetupReady n_batches v_batches s0 ->
  TrainingSpec.batch_size training <> 0 /\
  Z.of_nat n_batches = Z.of_nat (training_count data) / TrainingSpec.batch_size training /\
  Z.of_nat v_batches = Z.of_nat (validation_count data) / TrainingSpec.batch_size training /\
  perf s0 = performance dcn /\
  learning_rate s0 = TrainingSpec.learning_rate training /\
  trace s0 = [Init; Print OutputDirectory; GetSummaryWriter] /\
  (forall key,
     tget key Training (caches s0) = Py.Deque n_batches [] /\
     tget key Validation (caches s0) = Py.Deque v_batches []).
Proof.
  unfold prepare, Py.floordiv, Py.deque_new.
  destruct (Z.eqb_spec (TrainingSpec.batch_size training) 0) as [|Hb]; [discriminate|].
  destruct (Z.ltb_spec (Z.of_nat (training_count data) / TrainingSpec.batch_size training) 0);
    [discriminate|].
  destruct (Z.ltb_spec (Z.of_nat (validation_count data) / TrainingSpec.batch_size training) 0);
    [discriminate|].
  destruct (dir_exists && negb overwrite); [discriminate|].
  intros Hr. inversion Hr; subst. cbn.
  repeat split; try lia; destruct key; reflexivity.
Qed.

(** C6.  In a run that is not aborted, once the training of epoch [e] has
    completed (the [e] epochs before it fell through and epoch [e] itself
    falls through or breaks at the convergence check), every training series
    of the performance log has grown by exactly [e+1] values, one per epoch,
    and every validation series by exactly one value per validation round;
    starting from the empty log that is length [e+1] exactly. *)
Theorem log_grows_one_entry_per_epoch
    (dir_exists overwrite : bool) (n_batches v_batches e : nat) (s0 s s' : state)
    (key : metric) :
  prepare training data dcn dir_exists overwrite = SetupReady n_batches v_batches s0 ->
  run_epochs training dcn rng n_batches v_batches (seq 0 e) s0 = Next s ->
  (epoch_body training dcn rng n_batches v_batches e s = Next s' \/
   exists why, epoch_body training dcn rng n_batches v_batches e s = Break why s') ->
  length (tget key Training (perf s')) = S (length (tget key Training (perf s))) /\
  length (tget key Validation (perf s'))
  = (length (tget key Validation (perf s))
     + if (Z.of_nat e mod TrainingSpec.validation_schedule training =? 0)%Z
       then 1 else 0)%nat /\
  length (tget key Training (perf s'))
  = (length (tget key Training (performance dcn)) + (e + 1))%nat /\
  length (tget key Validation (perf s'))
  = (length (tget key Validation (performance dcn))
     + validation_rounds training (e + 1))%nat /\
  (performance dcn = tconst [] ->
   length (tget key Training (perf s')) = (e + 1)%nat /\
   length (tget key Validation (perf s')) = validation_rounds training (e + 1)).
Proof.
  intros Hp Hrun Hbody.
  destruct (prepare_ready _ _ _ _ _ Hp) as (_ & _ & _ & P0 & _).
  destruct (epoch_body_growth training dcn rng n_batches v_batches e s s' Hbody) as (_ & G).
  destruct (G key) as (G1 & G2).
  destruct (run_epochs_growth training dcn rng n_batches v_batches e s0 s Hrun key)
    as (R1 & R2).
  rewrite P0 in R1, R2.
  assert (T : length (tget key Training (perf s'))
              = (length (tget key Training (performance dcn)) + (e + 1))%nat) by lia.
  assert (V : length (tget key Validation (perf s'))
              = (length (tget key Validation (performance dcn))
                 + validation_rounds training (e + 1))%nat).
  { replace (e + 1)%nat with (S e) by lia.
    rewrite (validation_rounds_S training e). lia. }
  split; [exact G1|]. split; [exact G2|]. split; [exact T|]. split; [exact V|].
  intros E. rewrite T, V, E. destruct key; auto.
Qed.

End Run.

(* ===================================================================== *)
(** ** The read of the latest validation SSIM *)
(* ===================================================================== *)

Section LastValidation.

Variable training : TrainingSpec.t.
Variable dcn : model.
Variable rng : nat -> nat -> draws.
Variables n_batches v_batches : nat.

Lemma nonempty_of_length {A} (l : list A) : (0 < length l)%nat -> l <> [].
Proof. destruct l; simpl; [lia|congruence]. Qed.

Lemma schedule_raises (epoch : nat) (s s' : state) (e : exn) :
  schedule_learning_rate training epoch s = Raised e s' -> e = ZeroDivisionError.
Proof.
  unfold schedule_learning_rate, attempt, Py.modulo.
  destruct (0 <? Z.of_nat epoch); [|discriminate].
  destruct (TrainingSpec.learning_rate_reduction_schedule training =? 0).
  - intros H. inversion H. reflexivity.
  - discriminate.
Qed.

Lemma record_values_raises (values : list (string * Np.float)) (s s' : state) (e : exn) :
  record_values values s = Raised e s' -> exists k, e = KeyError k.
Proof.
  revert s. induction values as [|[key value] rest IH]; intros s; simpl; [discriminate|].
  destruct (cache_key key).
  - apply IH.
  - intros H. inversion H. eauto.
Qed.

Lemma training_batch_raises (epoch batch_id : nat) (s s' : state) (e : exn) :
  training_batch training dcn rng epoch batch_id s = Raised e s' -> e <> IndexError.
Proof.
  unfold training_batch, attempt, pick_patch_size, random_choice.
  destruct (Np.Qlt_bool _ _).
  - destruct (Np.arange _ _).
    + intros H. inversion H. discriminate.
    + destruct (training_step dcn epoch batch_id !! "loss"%string).
      * destruct (Np.isnan f); [discriminate|].
        intros H. apply record_values_raises in H. destruct H as [k ->]. discriminate.
      * intros H. inversion H. discriminate.
  - destruct (training_step dcn epoch batch_id !! "loss"%string).
    + destruct (Np.isnan f); [discriminate|].
      intros H. apply record_values_raises in H. destruct H as [k ->]. discriminate.
    + intros H. inversion H. discriminate.
Qed.

Lemma training_batches_raise (epoch : nat) (l : list nat) (s s' : state) (e : exn) :
  for_each (training_batch training dcn rng epoch) l s = Raised e s' -> e <> IndexError.
Proof.
  revert s. induction l as [|b l IH]; intros s; cbn [for_each]; [discriminate|].
  destruct (training_batch training dcn rng epoch b s) eqn:E; cbn [and_then];
    try discriminate.
  - apply IH.
  - intros H. inversion H; subst. eapply training_batch_raises; eauto.
Qed.

Lemma report_next (epoch : nat) (s : state) :
  v_batches <> 0%nat ->
  (forall key sp, tget key sp (perf s) <> []) ->
  exists s', report training dcn n_batches v_batches epoch s = Next s'.
Proof.
  intros Hv Hne. unfold report.
  destruct (Nat.eqb_spec v_batches 0); [contradiction|].
  cbv zeta. unfold attempt. cbn [perf emit].
  destruct (index_last_nonempty _ (Hne Loss Validation)) as (x1 & ->).
  destruct (index_last_nonempty _ (Hne Loss Training)) as (x2 & ->).
  destruct (index_last_nonempty _ (Hne Ssim Validation)) as (x3 & ->).
  destruct (index_last_nonempty _ (Hne Ssim Training)) as (x4 & ->).
  destruct (index_last_nonempty _ (Hne Entropy Training)) as (x5 & ->).
  eauto.
Qed.

Lemma check_stop_not_raised (s s' : state) (e : exn) :
  check_stop training s <> Raised e s'.
Proof. unfold check_stop. split_matches; discriminate. Qed.

(** With at least one validation batch, the part of the epoch before the
    progress display never raises [IndexError]. *)
Lemma until_display_no_index_error (epoch : nat) (s s' : state) :
  v_batches <> 0%nat ->
  epoch_until_display training dcn rng n_batches v_batches epoch s <> Raised IndexError s'.
Proof.
  intros Hv H. unfold epoch_until_display in H.
  destruct (schedule_learning_rate training epoch (set_current_epoch epoch s))
    as [s1| | |] eqn:Hs; cbn [and_then] in H; try discriminate.
  2:{ inversion H; subst. apply schedule_raises in Hs. discriminate. }
  destruct (training_epoch training dcn rng n_batches epoch s1) as [s2| | |] eqn:Ht;
    cbn [and_then] in H; try discriminate.
  2:{ inversion H; subst. unfold training_epoch in Ht.
      destruct (for_each _ _ s1) eqn:Hb; cbn [and_then] in Ht; try discriminate.
      inversion Ht; subst. eapply training_batches_raise; eauto. }
  destruct (training_epoch_next training dcn rng n_batches epoch s1 s2 Ht)
    as (sx & _ & -> & _).
  unfold validation, attempt, Py.modulo in H.
  destruct (TrainingSpec.validation_schedule training =? 0); [discriminate|].
  destruct (Z.of_nat epoch mod TrainingSpec.validation_schedule training =? 0);
    [|discriminate].
  destruct (validation_round_shape training dcn n_batches v_batches epoch
              (record_averages Training sx)) as (c & Hshape).
  rewrite Hshape in H.
  destruct (report_next epoch
              (record_averages Validation (set_caches c (record_averages Training sx))) Hv)
    as (s3 & Hr).
  { intros key sp.
    destruct key, sp; cbn; intros E; symmetry in E; apply app_cons_not_nil in E; exact E. }
  rewrite Hr in H. cbn [and_then] in H.
  exact (check_stop_not_raised _ _ _ H).
Qed.

Lemma progress_display_next (epoch : nat) (s : state) :
  tget Ssim Validation (perf s) <> [] ->
  exists s', progress_display dcn epoch s = Next s'.
Proof.
  intros H. unfold progress_display, attempt.
  destruct (index_last_nonempty _ H) as (x & ->). eauto.
Qed.

Lemma progress_display_raises (epoch : nat) (s s' : state) (e : exn) :
  progress_display dcn epoch s = Raised e s' ->
  tget Ssim Validation (perf s) = [].
Proof.
  intros H.
  destruct (tget Ssim Validation (perf s)) eqn:E; [reflexivity|].
  destruct (progress_display_next epoch s) as (s1 & H1); [rewrite E; discriminate|].
  congruence.
Qed.

Lemma validation_rounds_positive (n : nat) :
  TrainingSpec.validation_schedule training <> 0 ->
  (0 < n)%nat -> (0 < validation_rounds training n)%nat.
Proof.
  intros Hv Hn. destruct n as [|n]; [lia|].
  unfold validation_rounds. rewrite <- cons_seq. cbn [List.filter].
  change (Z.of_nat 0) with 0. rewrite Z.mod_0_l by exact Hv. simpl. lia.
Qed.

(** C10.  With [validation_schedule >= 1] and at least one validation batch:
    the validation condition [epoch mod validation_schedule == 0] holds at
    epoch 0, so the first epoch runs a validation round; whenever an epoch
    reaches its progress display every validation series of the performance
    log is non-empty, the read of the last validation SSIM succeeds and the
    display falls through; and no run raises [IndexError]. *)
Theorem last_validation_ssim_is_there (s0 : state) :
  1 <= TrainingSpec.validation_schedule training ->
  (1 <= v_batches)%nat ->
  Py.modulo (Z.of_nat 0) (TrainingSpec.validation_schedule training) = Ok 0 /\
  (forall s, validation training dcn n_batches v_batches 0 s
             = validation_round training dcn n_batches v_batches 0 s) /\
  (forall n s s3,
     run_epochs training dcn rng n_batches v_batches (seq 0 n) s0 = Next s ->
     epoch_until_display training dcn rng n_batches v_batches n s = Next s3 ->
     (forall key, tget key Validation (perf s3) <> []) /\
     (exists ssim, Py.index (tget Ssim Validation (perf s3)) (-1) = Ok ssim) /\
     (exists s', progress_display dcn n s3 = Next s')) /\
  (forall n s', run_epochs training dcn rng n_batches v_batches (seq 0 n) s0
                <> Raised IndexError s').
Proof.
  intros Hvs Hvb.
  assert (Hne : TrainingSpec.validation_schedule training <> 0) by lia.
  assert (Hmod : Py.modulo (Z.of_nat 0) (TrainingSpec.validation_schedule training) = Ok 0).
  { unfold Py.modulo. destruct (Z.eqb_spec (TrainingSpec.validation_schedule training) 0);
      [contradiction|]. simpl. rewrite Z.mod_0_l by exact Hne. reflexivity. }
  assert (Hread : forall n s s3,
             run_epochs training dcn rng n_batches v_batches (seq 0 n) s0 = Next s ->
             epoch_until_display training dcn rng n_batches v_batches n s = Next s3 ->
             forall key, tget key Validation (perf s3) <> []).
  { intros n s s3 Hrun Hu key. apply nonempty_of_length.
    destruct (until_display_growth training dcn rng n_batches v_batches n s s3
                (or_introl Hu)) as (_ & G).
    destruct (G key) as (_ & G2). rewrite G2. unfold is_validation_epoch.
    destruct n as [|n].
    - change (Z.of_nat 0) with 0. rewrite Z.mod_0_l by exact Hne. simpl. lia.
    - destruct (run_epochs_growth training dcn rng n_batches v_batches (S n) s0 s Hrun key)
        as (_ & R2).
      pose proof (validation_rounds_positive (S n) Hne ltac:(lia)). lia. }
  split; [exact Hmod|]. split.
  { intros s. unfold validation. rewrite Hmod. reflexivity. }
  split.
  { intros n s s3 Hrun Hu. split; [exact (Hread n s s3 Hrun Hu)|].
    split.
    - apply index_last_nonempty. exact (Hread n s s3 Hrun Hu Ssim).
    - apply progress_display_next. exact (Hread n s s3 Hrun Hu Ssim). }
  intros n. induction n as [|n IH]; intros s' H; [discriminate|].
  unfold run_epochs in *. rewrite seq_S, for_each_snoc in H. simpl in H.
  destruct (for_each _ (seq 0 n) s0) as [s| | |] eqn:E; cbn [and_then] in H;
    try discriminate.
  - unfold epoch_body in H.
    destruct (epoch_until_display training dcn rng n_batches v_batches n s)
      as [s3| | |] eqn:Hu; cbn [and_then] in H; try discriminate.
    + apply progress_display_raises in H.
      exact (Hread n s s3 E Hu Ssim H).
    + inversion H; subst.
      eapply until_display_no_index_error; [|exact Hu]. lia.
  - inversion H; subst. exact (IH _ eq_refl).
Qed.

End LastValidation.

(* ===================================================================== *)
(** ** The learning-rate schedule *)
(* ===================================================================== *)

Section LearningRate.

Variable training : TrainingSpec.t.
Variable dcn : model.
Variable rng : nat -> nat -> draws.
Variables n_batches v_batches : nat.

Lemma validation_scalars (epoch : nat) (s : state) :
  same_scalars s (flow_state (validation training dcn n_batches v_batches epoch s)).
Proof.
  unfold validation, attempt.
  destruct (Py.modulo _ _); [|split; reflexivity].
  destruct (a =? 0); [|split; reflexivity].
  apply validation_round_scalars.
Qed.

(** Only the schedule step at the start of an epoch changes the rate. *)
Lemma epoch_body_rate (epoch : nat) (s : state) :
  learning_rate (flow_state (epoch_body training dcn rng n_batches v_batches epoch s))
  = if reduction_due training epoch
    then (learning_rate s * TrainingSpec.learning_rate_reduction_factor training)%Q
    else learning_rate s.
Proof.
  pose proof (schedule_rate training epoch (set_current_epoch epoch s)) as R.
  change (learning_rate (set_current_epoch epoch s)) with (learning_rate s) in R.
  rewrite <- R. clear R.
  unfold epoch_body, epoch_until_display.
  destruct (schedule_learning_rate training epoch (set_current_epoch epoch s))
    as [s1| | |]; cbn [and_then flow_state]; try reflexivity.
  destruct (training_epoch_frame training dcn rng n_batches epoch s1) as (T & _).
  destruct (training_epoch training dcn rng n_batches epoch s1) as [s2| | |];
    cbn [and_then flow_state] in *; try exact T.
  destruct (validation_scalars epoch s2) as (V & _).
  destruct (validation training dcn n_batches v_batches epoch s2) as [s3| | |];
    cbn [and_then flow_state] in *; try (rewrite V; exact T).
  destruct (progress_display_frame dcn epoch s3) as (_ & _ & D & _). cbv zeta in D.
  rewrite D, V. exact T.
Qed.

(** C8 (as amended).  With [learning_rate_reduction_factor] in (0, 1] and a
    learning rate that is not negative, the learning rate never increases and
    stays non-negative over the run: an epoch multiplies it by the reduction
    factor exactly when the epoch number is positive and a multiple of
    [learning_rate_reduction_schedule], and leaves it unchanged otherwise. *)
Theorem learning_rate_never_increases (s : state) :
  (0 < TrainingSpec.learning_rate_reduction_factor training)%Q ->
  (TrainingSpec.learning_rate_reduction_factor training <= 1)%Q ->
  (0 <= learning_rate s)%Q ->
  (forall epoch,
     learning_rate (flow_state (epoch_body training dcn rng n_batches v_batches epoch s))
     = if reduction_due training epoch
       then (learning_rate s * TrainingSpec.learning_rate_reduction_factor training)%Q
       else learning_rate s) /\
  (forall epoch,
     reduction_due training epoch = true <->
     (0 < epoch)%nat /\
     TrainingSpec.learning_rate_reduction_schedule training <> 0 /\
     Z.of_nat epoch mod TrainingSpec.learning_rate_reduction_schedule training = 0) /\
  (forall epochs,
     let s' := flow_state (run_epochs training dcn rng n_batches v_batches epochs s) in
     (0 <= learning_rate s')%Q /\ (learning_rate s' <= learning_rate s)%Q).
Proof.
  intros Hpos Hle Hs. split; [intros epoch; apply epoch_body_rate|]. split.
  - intros epoch. unfold reduction_due.
    rewrite !andb_true_iff, negb_true_iff, Z.ltb_lt, Z.eqb_neq, Z.eqb_eq. lia.
  - intros epochs. cbv zeta. revert s Hs.
    induction epochs as [|e epochs IH]; intros s Hs.
    + simpl. split; [exact Hs|apply Qle_refl].
    + unfold run_epochs in *. cbn [for_each].
      pose proof (epoch_body_rate e s) as R.
      set (f := TrainingSpec.learning_rate_reduction_factor training) in *.
      assert (B : (0 <= learning_rate
                         (flow_state (epoch_body training dcn rng n_batches v_batches e s)))%Q
                  /\ (learning_rate
                        (flow_state (epoch_body training dcn rng n_batches v_batches e s))
                      <= learning_rate s)%Q).
      { rewrite R. destruct (reduction_due training e).
        - split; nra.
        - split; [exact Hs|apply Qle_refl]. }
      destruct (epoch_body training dcn rng n_batches v_batches e s) as [s1| | |];
        cbn [and_then flow_state] in *; try exact B.
      destruct (IH s1 (proj1 B)) as (I1 & I2).
      split; [exact I1|]. eapply Qle_trans; [exact I2|apply B].
Qed.

End LearningRate.

(* ===================================================================== *)
(** ** Bounded caches *)
(* ===================================================================== *)

Section Caches.

Variable training : TrainingSpec.t.
Variable data : dataset.
Variable dcn : model.
Variable rng : nat -> nat -> draws.

(** A property of the caches that every append keeps. *)
Variable J : table Py.deque -> Prop.
Hypothesis J_append : forall v key sp c, J c -> J (tupd (Py.append v) key sp c).

Local Abbreviation I := (on_caches J).

Lemma validation_batch_caches (epoch batch_id : nat) :
  preserves I (validation_batch dcn epoch batch_id).
Proof.
  intros s H. unfold validation_batch, on_caches in *. cbn [flow_state caches set_caches].
  repeat apply J_append. exact H.
Qed.

Lemma training_epoch_caches (n_batches epoch : nat) :
  preserves I (training_epoch training dcn rng n_batches epoch).
Proof.
  unfold training_epoch.
  apply (preserves_and_then I
           (for_each (training_batch training dcn rng epoch) (seq 0 n_batches))
           (fun s => Next (record_averages Training s))).
  - apply preserves_for_each. intros b s H. unfold on_caches in *.
    apply training_batch_caches; [|exact H]. intros v key c. apply J_append.
  - intros s H. exact H.
Qed.

Lemma validation_caches (n_batches v_batches epoch : nat) :
  preserves I (validation training dcn n_batches v_batches epoch).
Proof.
  intros s H. unfold validation, attempt.
  destruct (Py.modulo _ _); [|exact H]. destruct (a =? 0); [|exact H].
  unfold validation_round. revert s H.
  apply (preserves_and_then I (for_each (validation_batch dcn epoch) (seq 0 v_batches))).
  - apply preserves_for_each. intros b. apply validation_batch_caches.
  - intros s H. unfold on_caches in *.
    destruct (report_frame training dcn n_batches v_batches epoch
                (record_averages Validation s)) as (_ & R & _). cbv zeta in R.
    destruct (report training dcn n_batches v_batches epoch (record_averages Validation s))
      as [s2| | |]; cbn [and_then flow_state] in *; try (rewrite R; exact H).
    destruct (check_stop_frame training s2) as (_ & C & _). cbv zeta in C.
    rewrite C, R. exact H.
Qed.

Lemma epoch_body_caches (n_batches v_batches epoch : nat) :
  preserves I (epoch_body training dcn rng n_batches v_batches epoch).
Proof.
  unfold epoch_body, epoch_until_display.
  apply (preserves_and_then I
           (fun s => and_then (schedule_learning_rate training epoch (set_current_epoch epoch s))
                       (fun s => and_then (training_epoch training dcn rng n_batches epoch s)
                                   (validation training dcn n_batches v_batches epoch)))
           (progress_display dcn epoch)).
  - apply (preserves_and_then I
             (fun s => schedule_learning_rate training epoch (set_current_epoch epoch s))).
    + intros s H. unfold on_caches in *.
      destruct (schedule_frame training epoch (set_current_epoch epoch s)) as (_ & C & _).
      cbv zeta in C. rewrite C. exact H.
    + apply (preserves_and_then I (training_epoch training dcn rng n_batches epoch)).
      * apply training_epoch_caches.
      * apply validation_caches.
  - intros s H. unfold on_caches in *.
    destruct (progress_display_frame dcn epoch s) as (_ & C & _). cbv zeta in C.
    rewrite C. exact H.
Qed.

Lemma run_epochs_caches (n_batches v_batches : nat) (epochs : list nat) :
  preserves I (run_epochs training dcn rng n_batches v_batches epochs).
Proof.
  unfold run_epochs. apply preserves_for_each. intros e. apply epoch_body_caches.
Qed.

End Caches.

(* ===================================================================== *)
(** ** Capacity, eviction and averages of the caches *)
(* ===================================================================== *)

Lemma cache_inv_append (n_batches v_batches : nat) (v : Np.float) (key : metric)
    (sp : split) (c : table Py.deque) :
  cache_inv n_batches v_batches c ->
  cache_inv n_batches v_batches (tupd (Py.append v) key sp c).
Proof.
  intros H k. destruct (H k) as (M1 & M2 & L1 & L2).
  assert (B : forall d n, Py.maxlen d = n -> (length (Py.items d) <= n)%nat ->
                Py.maxlen (Py.append v d) = n /\
                (length (Py.items (Py.append v d)) <= n)%nat).
  { intros d n Hm Hl. split; [exact Hm|].
    rewrite <- Hm. rewrite <- (append_maxlen v d). apply append_bounded. lia. }
  destruct (B _ _ M1 L1) as (A1 & A2). destruct (B _ _ M2 L2) as (A3 & A4).
  destruct key, sp, k; cbn [tupd tset tget loss_training loss_validation ssim_training
                             ssim_validation entropy_training entropy_validation] in *;
    repeat split; assumption.
Qed.

(** *** What the batches put into the caches *)

Lemma cache_key_name (k : string) (m : metric) :
  cache_key k = Some m <-> k = metric_name m.
Proof.
  unfold cache_key. split.
  - destruct (String.eqb_spec k "loss"); [intros [= <-]; assumption|].
    destruct (String.eqb_spec k "ssim"); [intros [= <-]; assumption|].
    destruct (String.eqb_spec k "entropy"); [intros [= <-]; assumption|discriminate].
  - intros ->. destruct m; reflexivity.
Qed.

Lemma append_all_app (vs ws : list Np.float) (d : Py.deque) :
  append_all (vs ++ ws) d = append_all ws (append_all vs d).
Proof. unfold append_all. apply fold_left_app. Qed.

Lemma values_for_unique (l : list (string * Np.float)) (m : metric) (v : Np.float) :
  NoDup (l.*1) -> (metric_name m, v) ∈ l -> values_for m l = [v].
Proof.
  induction l as [|[k x] rest IH]; intros Hnd Hin.
  - apply elem_of_nil in Hin. contradiction.
  - cbn [fmap list_fmap fst] in Hnd. apply NoDup_cons in Hnd. destruct Hnd as (Hk & Hnd).
    unfold values_for in *. cbn [List.filter fst].
    apply elem_of_cons in Hin. destruct Hin as [Heq|Hin].
    + inversion Heq; subst k x.
      rewrite bool_decide_true by (apply cache_key_name; reflexivity).
      cbn [map snd]. f_equal.
      assert (E : forall rest' : list (string * Np.float),
                 (forall y : Np.float, (metric_name m, y) ∉ rest') ->
                 map snd (List.filter
                            (fun kv => bool_decide (cache_key (fst kv) = Some m)) rest') = []).
      { induction rest' as [|[k' y'] rest' IH']; intros Hno; [reflexivity|].
        cbn [List.filter fst]. rewrite bool_decide_false.
        - apply IH'. intros y Hy. apply (Hno y). apply elem_of_cons. right. exact Hy.
        - intros Hc. apply cache_key_name in Hc. subst k'.
          apply (Hno y'). apply elem_of_cons. left. reflexivity. }
      apply E. intros y Hy. apply Hk. apply list_elem_of_fmap.
      exists (metric_name m, y). split; [reflexivity|exact Hy].
    + rewrite bool_decide_false.
      * apply IH; assumption.
      * intros Hc. apply cache_key_name in Hc. subst k.
        apply Hk. apply list_elem_of_fmap.
        exists (metric_name m, v). split; [reflexivity|exact Hin].
Qed.

Lemma values_for_dict (values : gmap string Np.float) (m : metric) (v : Np.float) :
  values !! metric_name m = Some v -> values_for m (map_to_list values) = [v].
Proof.
  intros H. apply values_for_unique.
  - apply NoDup_fst_map_to_list.
  - apply elem_of_map_to_list. exact H.
Qed.

Lemma record_values_cells (l : list (string * Np.float)) (s s' : state) :
  record_values l s = Next s' ->
  forall m,
    tget m Training (caches s') = append_all (values_for m l) (tget m Training (caches s)) /\
    tget m Validation (caches s') = tget m Validation (caches s).
Proof.
  revert s. induction l as [|[k v] rest IH]; intros s H m.
  - inversion H; subst. split; reflexivity.
  - cbn [record_values] in H. destruct (cache_key k) as [m0|] eqn:Hk; [|discriminate].
    destruct (IH _ H m) as (I1 & I2). cbn [caches set_caches] in I1, I2.
    split.
    + rewrite I1. unfold values_for. cbn [List.filter fst]. rewrite Hk.
      destruct (decide (m0 = m)) as [->|Hne].
      * rewrite bool_decide_true by reflexivity. cbn [map snd].
        rewrite tget_tupd_same. reflexivity.
      * rewrite bool_decide_false by congruence.
        unfold tupd. rewrite tget_tset_other by congruence. reflexivity.
    + rewrite I2. apply tget_tupd_other_split. discriminate.
Qed.

Section Cells.

Variable training : TrainingSpec.t.
Variable dcn : model.
Variable rng : nat -> nat -> draws.
Variables n_batches v_batches : nat.

Lemma training_batch_cells (epoch batch_id : nat) (s s' : state) :
  training_batch training dcn rng epoch batch_id s = Next s' ->
  forall m,
    tget m Training (caches s')
    = append_all (values_for m (map_to_list (training_step dcn epoch batch_id)))
        (tget m Training (caches s)) /\
    tget m Validation (caches s') = tget m Validation (caches s).
Proof.
  unfold training_batch, attempt.
  destruct (pick_patch_size training (rng epoch batch_id)); [|discriminate].
  destruct (training_step dcn epoch batch_id !! "loss"%string) as [loss|]; [|discriminate].
  destruct (Np.isnan loss); [discriminate|].
  intros H m. destruct (record_values_cells _ _ _ H m) as (H1 & H2).
  split; [rewrite H1|rewrite H2]; f_equal;
    repeat match goal with |- context [if ?b then _ else _] => destruct b end; reflexivity.
Qed.

Lemma training_batches_cells (epoch : nat) (l : list nat) (s s' : state) :
  (forall b m, In b l -> is_Some (training_step dcn epoch b !! metric_name m)) ->
  for_each (training_batch training dcn rng epoch) l s = Next s' ->
  forall m,
    tget m Training (caches s')
    = append_all (map (fun b => metric_value m (training_step dcn epoch b)) l)
        (tget m Training (caches s)) /\
    tget m Validation (caches s') = tget m Validation (caches s).
Proof.
  revert s. induction l as [|b l IH]; intros s Hk H m.
  - inversion H; subst. split; reflexivity.
  - cbn [for_each] in H.
    destruct (training_batch training dcn rng epoch b s) as [s1| | |] eqn:E;
      cbn [and_then] in H; try discriminate.
    destruct (training_batch_cells epoch b s s1 E m) as (B1 & B2).
    destruct (IH s1 (fun b' m' Hb => Hk b' m' (or_intror Hb)) H m) as (I1 & I2).
    split; [|rewrite I2; exact B2].
    rewrite I1, B1. cbn [map].
    destruct (Hk b m (or_introl eq_refl)) as (v & Hv).
    rewrite (values_for_dict _ m v Hv). unfold metric_value. rewrite Hv. reflexivity.
Qed.

Lemma validation_batches_cells (epoch : nat) (l : list nat) (s : state) :
  exists c,
    for_each (validation_batch dcn epoch) l s = Next (set_caches c s) /\
    forall m,
      tget m Validation c
      = append_all (map (validation_value dcn m epoch) l) (tget m Validation (caches s)) /\
      tget m Training c = tget m Training (caches s).
Proof.
  revert s. induction l as [|b l IH]; intros s.
  - exists (caches s). split; [destruct s; reflexivity|]. intros m. split; reflexivity.
  - cbn [for_each]. unfold validation_batch at 1. cbn [and_then].
    match goal with |- context [set_caches ?c0 s] => set (c1 := c0) end.
    destruct (IH (set_caches c1 s)) as (c & Hc & Hm). exists c.
    split; [exact Hc|]. intros m. destruct (Hm m) as (M1 & M2).
    rewrite M1, M2. cbn [caches set_caches map].
    split; destruct m; reflexivity.
Qed.

Lemma full_turn (vs : list Np.float) (d : Py.deque) :
  (length (Py.items d) <= Py.maxlen d)%nat -> length vs = Py.maxlen d ->
  Py.items (append_all vs d) = vs.
Proof.
  intros H Hlen. rewrite append_all_items by exact H. rewrite length_app.
  replace (length (Py.items d) + length vs - Py.maxlen d)%nat
    with (length (Py.items d)) by lia.
  rewrite skipn_app, Nat.sub_diag, skipn_all. reflexivity.
Qed.

(** What an epoch whose training completes adds to the log, in terms of the
    caches right after its training batches. *)
Lemma epoch_anatomy (epoch : nat) (s s' : state) :
  ran (epoch_body training dcn rng n_batches v_batches epoch s) s' ->
  exists s1 sx,
    schedule_learning_rate training epoch (set_current_epoch epoch s) = Next s1 /\
    perf s1 = perf s /\ caches s1 = caches s /\
    for_each (training_batch training dcn rng epoch) (seq 0 n_batches) s1 = Next sx /\
    (forall m,
       tget m Training (perf s')
       = tget m Training (perf s) ++ [Np.mean (Py.items (tget m Training (caches sx)))]) /\
    (forall m,
       tget m Validation (perf s')
       = if is_validation_epoch training epoch
         then tget m Validation (perf s)
              ++ [Np.mean (Py.items (append_all (validation_values dcn m epoch v_batches)
                                       (tget m Validation (caches sx))))]
         else tget m Validation (perf s)).
Proof.
  intros H.
  destruct (epoch_body_ran training dcn rng n_batches v_batches epoch s s' H)
    as (s3 & H3 & -> & _).
  clear H. unfold ran, epoch_until_display in H3.
  destruct (schedule_frame training epoch (set_current_epoch epoch s)) as (P1 & C1 & _).
  cbv zeta in P1, C1.
  destruct (schedule_learning_rate training epoch (set_current_epoch epoch s))
    as [s1| | |] eqn:Hs; cbn [and_then flow_state] in *.
  2:{ exfalso. exact (schedule_not_break training _ _ _ _ Hs). }
  2,3: destruct H3 as [H3|[why H3]]; discriminate.
  destruct (training_epoch training dcn rng n_batches epoch s1) as [s2| | |] eqn:Ht;
    cbn [and_then] in *.
  2:{ exfalso. exact (training_epoch_not_break training dcn rng n_batches epoch s1 _ _ Ht). }
  2,3: destruct H3 as [H3|[why H3]]; discriminate.
  destruct (training_epoch_next training dcn rng n_batches epoch s1 s2 Ht)
    as (sx & Hx & -> & Px & _).
  exists s1, sx. split; [reflexivity|]. split; [exact P1|]. split; [exact C1|].
  split; [exact Hx|].
  set (s2 := record_averages Training sx) in *.
  assert (T : forall m sp,
             tget m sp (perf s2)
             = if decide (Training = sp)
               then tget m sp (perf s) ++ [Np.mean (Py.items (tget m Training (caches sx)))]
               else tget m sp (perf s)).
  { intros m sp. unfold s2. rewrite record_averages_perf, Px, P1. reflexivity. }
  assert (C2 : caches s2 = caches sx) by reflexivity.
  clearbody s2.
  unfold validation, attempt, Py.modulo in H3. unfold is_validation_epoch.
  destruct (TrainingSpec.validation_schedule training =? 0);
    [destruct H3 as [H3|[why H3]]; discriminate|].
  destruct (Z.of_nat epoch mod TrainingSpec.validation_schedule training =? 0) eqn:Hv.
  - assert (Hs3 : s3 = flow_state (validation_round training dcn n_batches v_batches epoch s2))
      by (destruct H3 as [H3|[why H3]]; rewrite H3; reflexivity).
    clear H3. unfold validation_round in Hs3.
    destruct (validation_batches_cells epoch (seq 0 v_batches) s2) as (c & Hc & Hm).
    rewrite Hc in Hs3. cbn [and_then] in Hs3.
    set (s4 := record_averages Validation (set_caches c s2)) in *.
    assert (P3 : perf s3 = perf s4).
    { rewrite Hs3.
      destruct (report_frame training dcn n_batches v_batches epoch s4) as (R1 & _).
      cbv zeta in R1.
      destruct (report training dcn n_batches v_batches epoch s4) as [s5| | |];
        cbn [and_then flow_state] in *; try exact R1.
      destruct (check_stop_frame training s5) as (K1 & _). cbv zeta in K1.
      rewrite K1. exact R1. }
    rewrite P3. unfold s4.
    split; intros m; rewrite record_averages_perf.
    + destruct (decide (Validation = Training)); [discriminate|].
      cbn [perf set_caches]. rewrite T. destruct (decide (Training = Training)); congruence.
    + destruct (decide (Validation = Validation)); [|congruence].
      cbn [perf caches set_caches]. rewrite T.
      destruct (decide (Training = Validation)); [discriminate|].
      rewrite (proj1 (Hm m)), C2. reflexivity.
  - destruct H3 as [H3|[why H3]]; [|discriminate]. inversion H3; subst s3.
    split; intros m; rewrite T.
    + destruct (decide (Training = Training)); congruence.
    + destruct (decide (Training = Validation)); [discriminate|reflexivity].
Qed.

(** The caches keep their capacities and bounds through the training
    batches of an epoch. *)
Lemma training_batches_cache_inv (epoch : nat) (l : list nat) (s : state) :
  cache_inv n_batches v_batches (caches s) ->
  cache_inv n_batches v_batches
    (caches (flow_state (for_each (training_batch training dcn rng epoch) l s))).
Proof.
  apply (preserves_for_each (fun s => cache_inv n_batches v_batches (caches s))
           (training_batch training dcn rng epoch) l).
  intros b s1 H1.
  apply (training_batch_caches training dcn rng (cache_inv n_batches v_batches) epoch b s1);
    [|exact H1].
  intros v key c. apply cache_inv_append.
Qed.

(** The training batches leave the validation caches alone, whatever the
    steps report. *)
Lemma training_batches_validation_side (epoch : nat) (l : list nat) (s : state) (m : metric) :
  tget m Validation
    (caches (flow_state (for_each (training_batch training dcn rng epoch) l s)))
  = tget m Validation (caches s).
Proof.
  apply (preserves_for_each
           (fun s' => tget m Validation (caches s') = tget m Validation (caches s))
           (training_batch training dcn rng epoch) l); [|reflexivity].
  intros b s1 H1.
  apply (training_batch_caches training dcn rng
           (fun c => tget m Validation c = tget m Validation (caches s)) epoch b s1);
    [|exact H1].
  intros v k c Hc. rewrite tget_tupd_other_split; [exact Hc|discriminate].
Qed.

(** The caches at the end of an epoch whose training completes, in terms of
    the caches right after its training batches: the training caches are
    these, and the validation caches got the values of the validation
    batches when the epoch is a validation epoch. *)
Lemma epoch_caches (epoch : nat) (s s' : state) :
  ran (epoch_body training dcn rng n_batches v_batches epoch s) s' ->
  exists s1 sx,
    schedule_learning_rate training epoch (set_current_epoch epoch s) = Next s1 /\
    for_each (training_batch training dcn rng epoch) (seq 0 n_batches) s1 = Next sx /\
    forall m,
      tget m Training (caches s') = tget m Training (caches sx) /\
      tget m Validation (caches s')
      = if is_validation_epoch training epoch
        then append_all (validation_values dcn m epoch v_batches)
               (tget m Validation (caches sx))
        else tget m Validation (caches sx).
Proof.
  intros H.
  assert (U : exists s3,
             ran (epoch_until_display training dcn rng n_batches v_batches epoch s) s3 /\
             caches s' = caches s3).
  { unfold ran, epoch_body in *.
    destruct (epoch_until_display training dcn rng n_batches v_batches epoch s)
      as [s3|why s3|s3|e s3]; cbn [and_then] in H.
    - destruct (progress_display_frame dcn epoch s3) as (_ & C & _). cbv zeta in C.
      exists s3. split; [left; reflexivity|].
      destruct H as [H|[w H]]; rewrite H in C; exact C.
    - exists s3. destruct H as [H|[w H]]; inversion H; subst.
      split; [right; eexists; reflexivity|reflexivity].
    - destruct H as [H|[w H]]; discriminate.
    - destruct H as [H|[w H]]; discriminate. }
  destruct U as (s3 & H3 & ->). clear H.
  unfold ran, epoch_until_display in H3.
  destruct (schedule_learning_rate training epoch (set_current_epoch epoch s))
    as [s1| | |] eqn:Hs; cbn [and_then] in H3.
  2:{ exfalso. exact (schedule_not_break training _ _ _ _ Hs). }
  2,3: destruct H3 as [H3|[why H3]]; discriminate.
  destruct (training_epoch training dcn rng n_batches epoch s1) as [s2| | |] eqn:Ht;
    cbn [and_then] in H3.
  2:{ exfalso. exact (training_epoch_not_break training dcn rng n_batches epoch s1 _ _ Ht). }
  2,3: destruct H3 as [H3|[why H3]]; discriminate.
  destruct (training_epoch_next training dcn rng n_batches epoch s1 s2 Ht)
    as (sx & Hx & -> & _).
  exists s1, sx. split; [reflexivity|]. split; [exact Hx|].
  set (s2 := record_averages Training sx) in *.
  assert (C2 : caches s2 = caches sx) by reflexivity.
  clearbody s2.
  unfold validation, attempt, Py.modulo in H3. unfold is_validation_epoch.
  destruct (TrainingSpec.validation_schedule training =? 0);
    [destruct H3 as [H3|[why H3]]; discriminate|].
  destruct (Z.of_nat epoch mod TrainingSpec.validation_schedule training =? 0) eqn:Hv.
  - assert (Hs3 : s3 = flow_state (validation_round training dcn n_batches v_batches epoch s2))
      by (destruct H3 as [H3|[why H3]]; rewrite H3; reflexivity).
    clear H3. unfold validation_round in Hs3.
    destruct (validation_batches_cells epoch (seq 0 v_batches) s2) as (c & Hc & Hm).
    rewrite Hc in Hs3. cbn [and_then] in Hs3.
    set (s4 := record_averages Validation (set_caches c s2)) in *.
    assert (C3 : caches s3 = c).
    { rewrite Hs3.
      destruct (report_frame training dcn n_batches v_batches epoch s4) as (_ & R1 & _).
      cbv zeta in R1.
      destruct (report training dcn n_batches v_batches epoch s4) as [s5| | |];
        cbn [and_then flow_state] in *; try exact R1.
      destruct (check_stop_frame training s5) as (_ & K1 & _). cbv zeta in K1.
      rewrite K1. exact R1. }
    intros m. rewrite C3. destruct (Hm m) as (M1 & M2).
    rewrite M1, M2, C2. split; reflexivity.
  - destruct H3 as [H3|[why H3]]; [|discriminate]. inversion H3; subst s3.
    intros m. rewrite C2. split; reflexivity.
Qed.

End Cells.

Section CacheProperties.

Variable training : TrainingSpec.t.
Variable data : dataset.
Variable dcn : model.
Variable rng : nat -> nat -> draws.

(** C7.  Every metric cache is a ring buffer whose capacity is the number of
    batches per epoch of its split ([count // batch_size]); throughout the run
    no cache holds more values than its capacity; appending to a full cache
    evicts the oldest value; and the mean of a cache into which [k <= capacity]
    values were pushed is the arithmetic mean of those values (the same holds
    after exactly [capacity] pushes whatever the cache held before).

    In the run the caches are fed and read as follows.  A training step that
    goes through appends the value it reports for a metric to the training
    cache of that metric and leaves the validation caches alone; a validation
    batch appends its three values to the validation caches and leaves the
    training caches alone.  At the end of every epoch whose training
    completes, the value appended to a training series is the mean of what
    the training cache of that metric holds, and the cache holds exactly the
    values of the steps of this epoch (those of earlier epochs were evicted)
    when every step reports all three metrics; at a validation epoch the
    validation cache holds exactly the values of the batches of this round
    and their mean is the value appended to the validation series, and at any
    other epoch the validation caches and series stay as they are. *)
Theorem metric_cache_is_bounded_ring
    (dir_exists overwrite : bool) (n_batches v_batches : nat) (s0 : state) :
  prepare training data dcn dir_exists overwrite = SetupReady n_batches v_batches s0 ->
  (Z.of_nat n_batches = Z.of_nat (training_count data) / TrainingSpec.batch_size training /\
   Z.of_nat v_batches = Z.of_nat (validation_count data) / TrainingSpec.batch_size training) /\
  (forall key,
     tget key Training (caches s0) = Py.Deque n_batches [] /\
     tget key Validation (caches s0) = Py.Deque v_batches []) /\
  (forall epochs,
     cache_inv n_batches v_batches
       (caches (flow_state (run_epochs training dcn rng n_batches v_batches epochs s0)))) /\
  (forall v d,
     (length (Py.items d) <= Py.maxlen d)%nat ->
     (length (Py.items (Py.append v d)) <= Py.maxlen d)%nat /\
     Py.maxlen (Py.append v d) = Py.maxlen d) /\
  (forall v d,
     length (Py.items d) = Py.maxlen d -> (0 < Py.maxlen d)%nat ->
     Py.items (Py.append v d) = tail (Py.items d) ++ [v]) /\
  (forall vs capacity,
     (length vs <= capacity)%nat ->
     Py.items (append_all vs (Py.Deque capacity [])) = vs /\
     Np.mean (Py.items (append_all vs (Py.Deque capacity [])))
     = Np.div (Np.sum vs) (Np.Fin (inject_Z (Z.of_nat (length vs))))) /\
  (forall qs capacity,
     qs <> [] -> (length qs <= capacity)%nat ->
     Np.mean (Py.items (append_all (map Np.Fin qs) (Py.Deque capacity [])))
     = Np.Fin (fold_left Qplus qs 0 / inject_Z (Z.of_nat (length qs)))%Q) /\
  (forall vs d,
     (length (Py.items d) <= Py.maxlen d)%nat -> length vs = Py.maxlen d ->
     Py.items (append_all vs d) = vs) /\
  (forall epoch batch_id s s' m v,
     training_batch training dcn rng epoch batch_id s = Next s' ->
     training_step dcn epoch batch_id !! metric_name m = Some v ->
     tget m Training (caches s') = Py.append v (tget m Training (caches s)) /\
     tget m Validation (caches s') = tget m Validation (caches s)) /\
  (forall epoch batch_id s m,
     exists s',
       validation_batch dcn epoch batch_id s = Next s' /\
       tget m Validation (caches s')
       = Py.append (validation_value dcn m epoch batch_id) (tget m Validation (caches s)) /\
       tget m Training (caches s') = tget m Training (caches s)) /\
  (forall epoch s s' m,
     run_epochs training dcn rng n_batches v_batches (seq 0 epoch) s0 = Next s ->
     ran (epoch_body training dcn rng n_batches v_batches epoch s) s' ->
     tget m Training (perf s')
     = tget m Training (perf s) ++ [Np.mean (Py.items (tget m Training (caches s')))] /\
     ((forall b m', (b < n_batches)%nat ->
                    is_Some (training_step dcn epoch b !! metric_name m')) ->
      Py.items (tget m Training (caches s')) = training_values dcn m epoch n_batches) /\
     if is_validation_epoch training epoch
     then Py.items (tget m Validation (caches s')) = validation_values dcn m epoch v_batches /\
          tget m Validation (perf s')
          = tget m Validation (perf s) ++ [Np.mean (validation_values dcn m epoch v_batches)]
     else tget m Validation (caches s') = tget m Validation (caches s) /\
          tget m Validation (perf s') = tget m Validation (perf s)).
Proof.
  intros Hp.
  destruct (prepare_ready training data dcn _ _ _ _ _ Hp) as (_ & N & V & _ & _ & _ & C0).
  assert (Hfresh : forall vs capacity, (length vs <= capacity)%nat ->
                     Py.items (append_all vs (Py.Deque capacity [])) = vs).
  { intros vs capacity H. rewrite append_all_items by (simpl; lia).
    cbn [Py.items Py.maxlen app].
    replace (length vs - capacity)%nat with 0%nat by lia. reflexivity. }
  assert (Hinv : forall epochs,
             cache_inv n_batches v_batches
               (caches (flow_state
                          (run_epochs training dcn rng n_batches v_batches epochs s0)))).
  { intros epochs.
    apply (run_epochs_caches training dcn rng (cache_inv n_batches v_batches)).
    - intros v key sp c. apply cache_inv_append.
    - intros key. destruct (C0 key) as (-> & ->). cbn. repeat split; lia. }
  split; [auto|]. split; [exact C0|]. split; [exact Hinv|].
  split.
  { intros v d H. split; [|reflexivity].
    rewrite <- (append_maxlen v d). apply append_bounded. exact H. }
  split; [intros v d; apply append_evicts|].
  split.
  { intros vs capacity H. rewrite (Hfresh vs capacity H). split; reflexivity. }
  split.
  { intros qs capacity Hne H. rewrite Hfresh by (rewrite length_map; exact H).
    apply mean_fin. exact Hne. }
  split; [intros vs d; apply full_turn|].
  split.
  { intros epoch batch_id s s' m v Hb Hv.
    destruct (training_batch_cells training dcn rng epoch batch_id s s' Hb m) as (B1 & B2).
    split; [|exact B2]. rewrite B1, (values_for_dict _ m v Hv). reflexivity. }
  split.
  { intros epoch batch_id s m. eexists. split; [reflexivity|].
    cbn [caches set_caches]. split; destruct m; reflexivity. }
  intros epoch s s' m Hrun Hran.
  assert (I : cache_inv n_batches v_batches (caches s)).
  { pose proof (Hinv (seq 0 epoch)) as R. rewrite Hrun in R. exact R. }
  destruct (epoch_anatomy training dcn rng n_batches v_batches epoch s s' Hran)
    as (s1 & sx & Hs & _ & C1 & Hx & HT & HV).
  destruct (epoch_caches training dcn rng n_batches v_batches epoch s s' Hran)
    as (s1' & sx' & Hs' & Hx' & HC).
  rewrite Hs in Hs'. inversion Hs'; subst s1'. clear Hs'.
  rewrite Hx in Hx'. inversion Hx'; subst sx'. clear Hx'.
  destruct (HC m) as (CT & CV).
  pose proof (training_batches_cache_inv training dcn rng n_batches v_batches epoch
                (seq 0 n_batches) s1) as Ix.
  rewrite Hx in Ix. cbn [flow_state] in Ix. rewrite C1 in Ix. specialize (Ix I).
  pose proof (training_batches_validation_side training dcn rng epoch
                (seq 0 n_batches) s1 m) as Vx.
  rewrite Hx in Vx. cbn [flow_state] in Vx. rewrite C1 in Vx.
  split; [rewrite CT; apply HT|]. split.
  { intros Hkeys. rewrite CT.
    assert (Hk : forall b m', In b (seq 0 n_batches) ->
                              is_Some (training_step dcn epoch b !! metric_name m')).
    { intros b m' Hb. apply Hkeys. apply in_seq in Hb. lia. }
    destruct (training_batches_cells training dcn rng epoch (seq 0 n_batches) s1 sx Hk Hx m)
      as (-> & _).
    rewrite C1. destruct (I m) as (M1 & _ & L1 & _).
    apply full_turn; [lia|]. unfold training_values. rewrite length_map, length_seq. lia. }
  rewrite (HV m), CV. destruct (is_validation_epoch training epoch).
  - destruct (Ix m) as (_ & M2 & _ & L2).
    assert (F : Py.items (append_all (validation_values dcn m epoch v_batches)
                            (tget m Validation (caches sx)))
                = validation_values dcn m epoch v_batches).
    { apply full_turn; [lia|]. unfold validation_values. rewrite length_map, length_seq. lia. }
    rewrite F. split; reflexivity.
  - split; [exact Vx|reflexivity].
Qed.

End CacheProperties.

(* ===================================================================== *)
(** ** The batch step: sampling, effects and the NaN hook *)
(* ===================================================================== *)

Section Batch.

Variable training : TrainingSpec.t.
Variable data : dataset.
Variable dcn : model.
Variable rng : nat -> nat -> draws.

Local Abbreviation P := (TrainingSpec.patch_size training).

Lemma trace_shape (pre : list event) (x : event) (aug : list event) (t : event)
    (rest : list event) :
  (pre ++ x :: aug ++ [t]) ++ rest = pre ++ x :: aug ++ t :: rest.
Proof. rewrite <- app_assoc. simpl. rewrite <- app_assoc. reflexivity. Qed.

Lemma record_values_trace (values : list (string * Np.float)) (s : state) :
  trace (flow_state (record_values values s)) = trace s.
Proof. apply record_values_frame. Qed.

(** The events of one batch, in order. *)
Lemma training_batch_trace (epoch batch_id : nat) (s : state) (current_patch : Z) :
  pick_patch_size training (rng epoch batch_id) = Ok current_patch ->
  trace (flow_state (training_batch training dcn rng epoch batch_id s))
  = trace s
    ++ NextTrainingBatch batch_id (TrainingSpec.batch_size training) current_patch
       :: augmentation_events training (rng epoch batch_id) current_patch
    ++ TrainingStep epoch batch_id (learning_rate s)
         (if TrainingSpec.sample_dropout training
          then u_keep (rng epoch batch_id) else 1%Q)
       :: match training_step dcn epoch batch_id !! "loss"%string with
          | Some loss =>
              if Np.isnan loss then nan_dump_events dcn epoch batch_id else []
          | None => []
          end.
Proof.
  intros Hpick. unfold training_batch, attempt. rewrite Hpick.
  set (d := rng epoch batch_id).
  match goal with
  | |- context [emit (TrainingStep ?a ?b ?c ?k) ?st] =>
      set (s1 := emit (TrainingStep a b c k) st)
  end.
  assert (H1 : trace s1
               = trace s
                 ++ NextTrainingBatch batch_id (TrainingSpec.batch_size training) current_patch
                    :: augmentation_events training d current_patch
                 ++ [TrainingStep epoch batch_id (learning_rate s)
                       (if TrainingSpec.sample_dropout training then u_keep d else 1%Q)]).
  { unfold s1, augmentation_events.
    destruct (negb (TrainingSpec.patch_size training =? current_patch));
      destruct (Np.Qlt_bool (u_flip_h d) _);
      destruct (Np.Qlt_bool (u_flip_v d) _);
      destruct (Np.Qlt_bool (u_gamma d) _);
      cbn; rewrite <- ?app_assoc; reflexivity. }
  clearbody s1.
  destruct (training_step dcn epoch batch_id !! "loss"%string) as [loss|].
  - destruct (Np.isnan loss).
    + cbn [flow_state]. rewrite nan_dump_trace, H1. apply trace_shape.
    + rewrite record_values_trace, H1. reflexivity.
  - cbn [flow_state]. rewrite H1. reflexivity.
Qed.

(** A NaN loss: the function returns after the dump, and neither the caches
    nor the performance log have changed. *)
Lemma training_batch_nan (epoch batch_id : nat) (s : state) (current_patch : Z)
    (loss : Np.float) :
  pick_patch_size training (rng epoch batch_id) = Ok current_patch ->
  training_step dcn epoch batch_id !! "loss"%string = Some loss ->
  Np.isnan loss = true ->
  exists sf, training_batch training dcn rng epoch batch_id s = Return sf /\
             caches sf = caches s /\ perf sf = perf s.
Proof.
  intros Hpick Hloss Hnan.
  pose proof (training_batch_frame training dcn rng epoch batch_id s) as (Hperf & _).
  pose proof (training_batch_caches training dcn rng (fun _ => True) epoch batch_id s) as _.
  revert Hperf. unfold training_batch, attempt. rewrite Hpick, Hloss, Hnan.
  cbn [flow_state]. intros Hperf. eexists. split; [reflexivity|]. split; [|exact Hperf].
  rewrite (proj1 (proj2 (nan_dump_frame dcn epoch batch_id _))).
  split_matches; reflexivity.
Qed.

Lemma arange_nth (a b : Z) (k : nat) (d : Z) :
  (k < Z.to_nat (b - a))%nat -> nth k (Np.arange a b) d = a + Z.of_nat k.
Proof.
  intros H. unfold Np.arange.
  rewrite (nth_indep _ d (a + Z.of_nat 0)) by (rewrite length_map, length_seq; exact H).
  rewrite (map_nth (fun k => a + Z.of_nat k)). rewrite seq_nth by exact H. reflexivity.
Qed.

Lemma arange_length (a b : Z) : length (Np.arange a b) = Z.to_nat (b - a).
Proof. unfold Np.arange. rewrite length_map, length_seq. reflexivity. Qed.

Lemma random_choice_arange (r : nat) :
  0 < P ->
  random_choice (Np.arange P (2 * P)) r = Ok (P + Z.of_nat (r mod Z.to_nat P)).
Proof.
  intros HP. unfold random_choice.
  destruct (Np.arange P (2 * P)) as [|x l] eqn:E.
  - pose proof (arange_length P (2 * P)) as L. rewrite E in L. simpl in L. lia.
  - rewrite <- E. rewrite arange_length.
    replace (2 * P - P) with P by lia.
    rewrite arange_nth; [reflexivity|].
    replace (2 * P - P) with P by lia.
    apply Nat.mod_upper_bound. lia.
Qed.

(** C4 (as amended).  When the resize augmentation fires (the uniform draw is
    below [probs.resize]) the sampled patch size is the element of
    [arange(P, 2P)] at the drawn position: an integer [v] with [P <= v < 2P]
    (so [P] itself can be drawn), every integer of that range being drawn by
    exactly one position; when it does not fire the patch size is [P].  The
    batch is resized exactly when the sampled size differs from [P], so
    neither a draw that does not fire nor a draw of [P] resizes. *)
Theorem patch_size_is_drawn_from_P_to_2P (d : draws) :
  0 < P ->
  let fires d := Np.Qlt_bool (u_resize d) (TrainingSpec.resize (TrainingSpec.augmentation_probs training)) in
  (fires d = true ->
     exists v, pick_patch_size training d = Ok v /\ P <= v < 2 * P /\
               v = P + Z.of_nat (choice d mod Z.to_nat P)) /\
  (forall v, P <= v < 2 * P ->
     forall d', fires d' = true -> (choice d' < Z.to_nat P)%nat ->
       (pick_patch_size training d' = Ok v <-> choice d' = Z.to_nat (v - P))) /\
  (fires d = false -> pick_patch_size training d = Ok P) /\
  (forall epoch batch_id s current_patch,
     pick_patch_size training (rng epoch batch_id) = Ok current_patch ->
     In (Resize P)
       (skipn (length (trace s))
          (trace (flow_state (training_batch training dcn rng epoch batch_id s))))
     <-> current_patch <> P).
Proof.
  intros HP fires. unfold fires, pick_patch_size.
  split; [|split; [|split]].
  - intros ->. rewrite random_choice_arange by exact HP.
    eexists. split; [reflexivity|]. split; [|reflexivity].
    pose proof (Nat.mod_upper_bound (choice d) (Z.to_nat P) ltac:(lia)). lia.
  - intros v Hv d' -> Hc. rewrite random_choice_arange by exact HP.
    rewrite Nat.mod_small by exact Hc.
    split.
    + intros H. inversion H. lia.
    + intros ->. f_equal. lia.
  - intros ->. reflexivity.
  - intros epoch batch_id s current_patch Hpick.
    rewrite (training_batch_trace epoch batch_id s current_patch Hpick).
    rewrite skipn_app, skipn_all, Nat.sub_diag. cbn [app skipn].
    unfold augmentation_events.
    destruct (Z.eqb_spec P current_patch) as [->|Hne]; cbn [negb].
    + split; [|congruence]. intros H. exfalso.
      destruct H as [H|H]; [discriminate|].
      unfold nan_dump_events in H.
      repeat match goal with
             | H : context [if ?b then _ else _] |- _ => destruct b
             | H : context [match ?o with Some _ => _ | None => _ end] |- _ => destruct o
             end;
        cbn in H; rewrite ?in_app_iff, ?in_map_iff in H;
        repeat match goal with
               | H : _ \/ _ |- _ => destruct H
               | H : exists _, _ |- _ => destruct H
               | H : _ /\ _ |- _ => destruct H
               | H : False |- _ => contradiction
               | H : _ = Resize _ |- _ => discriminate
               end.
    + split; [congruence|]. intros _. right. left. reflexivity.
Qed.

End Batch.

(* ===================================================================== *)
(** ** Leaving the function early: the skip and the NaN hook *)
(* ===================================================================== *)

Section EarlyExit.

Variable training : TrainingSpec.t.
Variable data : dataset.
Variable dcn : model.
Variable rng : nat -> nat -> draws.

Lemma prepare_positive_batch_size (dir_exists overwrite : bool) :
  0 < TrainingSpec.batch_size training ->
  prepare training data dcn dir_exists overwrite
  = if dir_exists && negb overwrite then SetupSkip
    else SetupReady
           (Z.to_nat (Z.of_nat (training_count data) / TrainingSpec.batch_size training))
           (Z.to_nat (Z.of_nat (validation_count data) / TrainingSpec.batch_size training))
           (State (performance dcn)
              (let dt := Py.Deque (Z.to_nat (Z.of_nat (training_count data)
                                             / TrainingSpec.batch_size training)) [] in
               let dv := Py.Deque (Z.to_nat (Z.of_nat (validation_count data)
                                             / TrainingSpec.batch_size training)) [] in
               Table dt dv dt dv dt dv)
              (TrainingSpec.learning_rate training) None
              [Init; Print OutputDirectory; GetSummaryWriter]).
Proof.
  intros Hb. unfold prepare, Py.floordiv, Py.deque_new.
  destruct (Z.eqb_spec (TrainingSpec.batch_size training) 0); [lia|].
  pose proof (Z.div_pos (Z.of_nat (training_count data)) _ ltac:(lia) Hb).
  pose proof (Z.div_pos (Z.of_nat (validation_count data)) _ ltac:(lia) Hb).
  destruct (Z.ltb_spec (Z.of_nat (training_count data) / TrainingSpec.batch_size training) 0);
    [lia|].
  destruct (Z.ltb_spec (Z.of_nat (validation_count data) / TrainingSpec.batch_size training) 0);
    [lia|].
  reflexivity.
Qed.

(** Whatever the configuration, a call that finds the output directory and
    may not overwrite it runs no epoch and writes nothing. *)
Lemma skip_never_writes :
  let r := train_dcn training data dcn rng true false in
  effects r = [Init] /\ final_state r = None /\ performance_log r = performance dcn /\
  (result_of r = Skipped \/
   result_of r = Crashed ZeroDivisionError \/ result_of r = Crashed ValueError).
Proof.
  cbv zeta. unfold train_dcn, prepare, Py.floordiv, Py.deque_new.
  destruct (TrainingSpec.batch_size training =? 0); [cbn; repeat split; auto|].
  destruct (Z.of_nat (training_count data) / TrainingSpec.batch_size training <? 0);
    [cbn; repeat split; auto|].
  destruct (Z.of_nat (validation_count data) / TrainingSpec.batch_size training <? 0);
    cbn; repeat split; auto.
Qed.

(** C5 (as amended).  With a positive batch size, [overwrite=False] and an
    existing output directory, the call returns [None] as a silent no-op:
    after [dcn.init()] nothing more happens -- no epoch runs, nothing is
    printed, no summary writer is created and no checkpoint, [progress.json]
    or thumbnail file is written -- and the performance log is as
    [dcn.init()] left it. *)
Theorem existing_directory_skips_training :
  0 < TrainingSpec.batch_size training ->
  let r := train_dcn training data dcn rng true false in
  result_of r = Skipped /\
  returned (result_of r) = Some PyNone /\
  effects r = [Init] /\
  List.filter is_write (effects r) = [] /\
  final_state r = None /\
  performance_log r = performance dcn.
Proof.
  intros Hb. cbv zeta. unfold train_dcn.
  rewrite (prepare_positive_batch_size true false Hb). cbn. repeat split.
Qed.

(** C2.  Suppose the run has reached batch [batch_id] of epoch [epoch] (the
    earlier epochs and the earlier batches of this epoch fell through) and
    [training_step] returns there a dictionary whose loss is NaN.  Then
    [train_dcn] returns [None] right after the diagnostics dump, which is the
    last thing in the trace and directly follows the training step; the
    metrics of that batch are not recorded in the caches, which are as the
    previous batch left them; and no epoch average of the current epoch is
    appended: the performance log is as the previous epoch left it. *)
Theorem nan_loss_aborts_run
    (dir_exists overwrite : bool) (n_batches v_batches epoch batch_id : nat)
    (s0 s1 s2 s3 : state) (current_patch : Z) (loss : Np.float) :
  prepare training data dcn dir_exists overwrite = SetupReady n_batches v_batches s0 ->
  (epoch < Z.to_nat (TrainingSpec.n_epochs training))%nat ->
  (batch_id < n_batches)%nat ->
  run_epochs training dcn rng n_batches v_batches (seq 0 epoch) s0 = Next s1 ->
  schedule_learning_rate training epoch (set_current_epoch epoch s1) = Next s2 ->
  for_each (training_batch training dcn rng epoch) (seq 0 batch_id) s2 = Next s3 ->
  pick_patch_size training (rng epoch batch_id) = Ok current_patch ->
  training_step dcn epoch batch_id !! "loss"%string = Some loss ->
  Np.isnan loss = true ->
  let r := train_dcn training data dcn rng dir_exists overwrite in
  result_of r = AbortedNaN /\
  returned (result_of r) = Some PyNone /\
  performance_log r = perf s1 /\
  (exists sf, final_state r = Some sf /\ caches sf = caches s3 /\ perf sf = perf s1) /\
  (exists keep_prob,
     effects r
     = trace s3
       ++ NextTrainingBatch batch_id (TrainingSpec.batch_size training) current_patch
          :: augmentation_events training (rng epoch batch_id) current_patch
       ++ TrainingStep epoch batch_id (learning_rate s3) keep_prob
          :: nan_dump_events dcn epoch batch_id).
Proof.
  intros Hp He Hb Hrun Hsched Hbatches Hpick Hloss Hnan. cbv zeta.
  (* the batch itself *)
  assert (Hstep : exists sf,
             training_batch training dcn rng epoch batch_id s3 = Return sf /\
             caches sf = caches s3 /\ perf sf = perf s3 /\
             exists keep_prob,
               trace sf
               = trace s3
                 ++ NextTrainingBatch batch_id (TrainingSpec.batch_size training) current_patch
                    :: augmentation_events training (rng epoch batch_id) current_patch
                 ++ TrainingStep epoch batch_id (learning_rate s3) keep_prob
                    :: nan_dump_events dcn epoch batch_id).
  { destruct (training_batch_nan training dcn rng epoch batch_id s3 current_patch loss
                Hpick Hloss Hnan) as (sf & Hret & Hc & Hperf).
    exists sf. split; [exact Hret|]. split; [exact Hc|]. split; [exact Hperf|].
    eexists.
    pose proof (training_batch_trace training dcn rng epoch batch_id s3 current_patch Hpick)
      as Htr.
    rewrite Hret, Hloss, Hnan in Htr. cbn [flow_state] in Htr. exact Htr. }
  destruct Hstep as (sf & Hstep & Hcaches & Hperf & keep & Htrace).
  (* the epoch *)
  assert (Hepoch : epoch_body training dcn rng n_batches v_batches epoch s1 = Return sf).
  { unfold epoch_body, epoch_until_display. rewrite Hsched. cbn [and_then].
    unfold training_epoch.
    rewrite (seq_split n_batches batch_id Hb).
    rewrite for_each_app, Hbatches. cbn [and_then for_each]. rewrite Hstep. reflexivity. }
  (* the run *)
  assert (Hall : run_epochs training dcn rng n_batches v_batches
                   (seq 0 (Z.to_nat (TrainingSpec.n_epochs training))) s0 = Return sf).
  { set (n := Z.to_nat (TrainingSpec.n_epochs training)) in *.
    rewrite (seq_split n epoch He).
    unfold run_epochs in *. rewrite for_each_app, Hrun. cbn [and_then for_each].
    rewrite Hepoch. reflexivity. }
  assert (Hp3 : perf s3 = perf s1).
  { destruct (training_batches_frame training dcn rng epoch (seq 0 batch_id) s2) as (B & _).
    rewrite Hbatches in B. cbn [flow_state] in B. rewrite B.
    destruct (schedule_frame training epoch (set_current_epoch epoch s1)) as (S1 & _).
    rewrite Hsched in S1. exact S1. }
  unfold train_dcn. rewrite Hp, Hall. cbn [finish result_of returned performance_log
                                           final_state effects].
  split; [reflexivity|]. split; [reflexivity|].
  split; [rewrite Hperf; exact Hp3|]. split.
  - exists sf. split; [reflexivity|]. split; [exact Hcaches|]. rewrite Hperf. exact Hp3.
  - exists keep. exact Htrace.
Qed.

End EarlyExit.

(* ===================================================================== *)
(** ** The snapshot of a validation round *)
(* ===================================================================== *)

Section Snapshot.

Variable value : nat -> Q.



Lemma ascending_app_inv (l1 l2 : list nat) :
  ascending value (l1 ++ l2) ->
  ascending value l1 /\ ascending value l2 /\
  forall i j, In i l1 -> In j l2 -> (value i <= value j)%Q.
Proof.
  induction l1 as [|a l1 IH]; simpl; intros H.
  - repeat split; [exact H|]. intros i j [].
  - destruct H as (Ha & H). destruct (IH H) as (H1 & H2 & H3).
    repeat split; auto.
    + intros j Hj. apply Ha. apply in_or_app. auto.
    + intros i j [<-|Hi] Hj; [apply Ha, in_or_app; auto|apply H3; auto].
Qed.







End Snapshot.






Section Report.

Variable training : TrainingSpec.t.
Variable dcn : model.
Variable rng : nat -> nat -> draws.
Variables n_batches v_batches : nat.





End Report.

(* ===================================================================== *)
(** ** The statements on the small runs *)
(* ===================================================================== *)

Lemma example_at_check (curve : list Q) (n : nat) :
  schedule_learning_rate Example.training n
    (set_current_epoch n (Example.after (Example.dcn curve) n))
  = Next (Example.scheduled (Example.dcn curve) n) ->
  training_epoch Example.training (Example.dcn curve) Example.rng 2 n
    (Example.scheduled (Example.dcn curve) n)
  = Next (Example.trained (Example.dcn curve) n) ->
  and_then (for_each (validation_batch (Example.dcn curve) n) (seq 0 1)
              (Example.trained (Example.dcn curve) n))
    (fun s => report Example.training (Example.dcn curve) 2 1 n
                (record_averages Validation s))
  = Next (Example.checking (Example.dcn curve) n) ->
  at_check Example.training (Example.dcn curve) Example.rng 2 1 n
    (Example.after (Example.dcn curve) n) (Example.checking (Example.dcn curve) n).
Proof.
  intros H1 H2 H3. exists (Example.scheduled (Example.dcn curve) n),
                          (Example.trained (Example.dcn curve) n).
  split; [exact H1|]. split; [exact H2|]. split; [|exact H3].
  unfold Py.modulo. simpl. rewrite Z.mod_1_r. reflexivity.
Defined.

(** On the plateau the sixth validation round converges. *)
Lemma convergence_check_on_plateau :
  at_check Example.training (Example.dcn Example.plateau) Example.rng 2 1 5
    (Example.after (Example.dcn Example.plateau) 5)
    (Example.checking (Example.dcn Example.plateau) 5) /\
  exists s',
    run_epochs Example.training (Example.dcn Example.plateau) Example.rng 2 1 [5; 6; 7]%nat
      (Example.after (Example.dcn Example.plateau) 5)
    = Break Converged s'.
Proof.
  assert (H : at_check Example.training (Example.dcn Example.plateau) Example.rng 2 1 5
                (Example.after (Example.dcn Example.plateau) 5)
                (Example.checking (Example.dcn Example.plateau) 5))
    by (apply example_at_check; vm_compute; reflexivity).
  split; [exact H|].
  destruct (convergence_check_trailing_windows Example.training Example.data
              (Example.dcn Example.plateau) Example.rng 2 1 5 [6; 7]%nat _ _ H)
    as (_ & Hge).
  destruct Hge as (_ & _ & _ & _ & _ & Hrun); [vm_compute; lia|].
  eexists. apply Hrun. vm_compute. reflexivity.
Defined.

(** A curve on which the code and the check as worded part ways: the last
    five values have mean 0.7 and the five before them mean 0.3, a change of
    4/3 when the windows are disjoint; the code compares the last value with
    the value five places earlier (both 0.5), finds no change and stops the
    run as converged after the tenth validation round. *)
Lemma disjoint_windows_disagree :
  let m := Example.dcn Example.rise_and_fall in
  let s := Example.checking m 9 in
  let log := tget Ssim Validation (perf s) in
  run_epochs Example.training m Example.rng 2 1 (seq 0 9) (Example.start (1 # 10))
  = Next (Example.after m 9) /\
  at_check Example.training m Example.rng 2 1 9 (Example.after m 9) s /\
  log = map Np.Fin Example.rise_and_fall /\
  (6 <= length log)%nat /\
  Np.ltb (disjoint_perf_change log)
    (Np.Fin (TrainingSpec.convergence_threshold Example.training)) = false /\
  (exists s', epoch_body Example.training m Example.rng 2 1 9 (Example.after m 9)
              = Break Converged s') /\
  result_of (train_dcn Example.training Example.data m Example.rng false false)
  = EarlyStop Converged.
Proof.
  cbv zeta.
  split; [vm_compute; reflexivity|].
  split; [apply example_at_check; vm_compute; reflexivity|].
  split; [vm_compute; reflexivity|].
  split; [vm_compute; lia|].
  split; [vm_compute; reflexivity|].
  split; [eexists; vm_compute; reflexivity|].
  vm_compute. reflexivity.
Qed.

(** After a drop of the validation SSIM from 0.8 to 0.1 the sixth validation
    round stops the run as deteriorated. *)
Lemma deterioration_on_drop :
  let m := Example.dcn Example.drop in
  at_check Example.training m Example.rng 2 1 5 (Example.after m 5) (Example.checking m 5) /\
  exists s',
    run_epochs Example.training m Example.rng 2 1 [5; 6; 7]%nat (Example.after m 5)
    = Break Deteriorated s'.
Proof.
  cbv zeta.
  assert (H : at_check Example.training (Example.dcn Example.drop) Example.rng 2 1 5
                (Example.after (Example.dcn Example.drop) 5)
                (Example.checking (Example.dcn Example.drop) 5))
    by (apply example_at_check; vm_compute; reflexivity).
  split; [exact H|].
  eexists.
  refine (proj1 (proj2 (proj2
    (deterioration_stops_loop Example.training Example.data (Example.dcn Example.drop)
       Example.rng 2 1 5 [6; 7]%nat _ _ H _ _ _)))).
  - vm_compute. lia.
  - vm_compute. reflexivity.
  - vm_compute. reflexivity.
Defined.

(** A curve on which the deterioration test on disjoint windows and the test
    of the code part ways: after five values of 0.8 and five of 0.7 the last
    five values have mean 0.7 and the five before them mean 0.8, a change of
    1/8 and a drop below [0.9 * 0.8]; the code takes [previous] over the five
    values that end one position before the last, mean 0.72, so that
    [0.7 < 0.9 * 0.72] fails and the tenth validation round stops nothing.
    The eleventh round then finds no change and the run ends as converged,
    never as deteriorated. *)
Lemma disjoint_deterioration_is_missed :
  let m := Example.dcn Example.step_down in
  let s := Example.checking m 9 in
  let log := tget Ssim Validation (perf s) in
  let thr := Np.Fin (TrainingSpec.convergence_threshold Example.training) in
  run_epochs Example.training m Example.rng 2 1 (seq 0 9) (Example.start (1 # 10))
  = Next (Example.after m 9) /\
  at_check Example.training m Example.rng 2 1 9 (Example.after m 9) s /\
  log = map Np.Fin (firstn 10 Example.step_down) /\
  (6 <= length log)%nat /\
  (exists c d p,
     current log = Np.Fin c /\ disjoint_previous log = Np.Fin d /\
     previous log = Np.Fin p /\
     (c == 7 # 10)%Q /\ (d == 8 # 10)%Q /\ (p == 72 # 100)%Q) /\
  Np.ltb (disjoint_perf_change log) thr = false /\
  Np.ltb (current log) (Np.mul (Np.Fin (9 # 10)) (disjoint_previous log)) = true /\
  Np.ltb (perf_change log) thr = false /\
  Np.ltb (current log) (Np.mul (Np.Fin (9 # 10)) (previous log)) = false /\
  check_stop Example.training s = Next s /\
  (exists s', epoch_body Example.training m Example.rng 2 1 9 (Example.after m 9)
              = Next s') /\
  result_of (train_dcn Example.training Example.data m Example.rng false false)
  = EarlyStop Converged.
Proof.
  cbv zeta.
  split; [vm_compute; reflexivity|].
  split; [apply example_at_check; vm_compute; reflexivity|].
  split; [vm_compute; reflexivity|].
  split; [vm_compute; lia|].
  split.
  { do 3 eexists. split; [vm_compute; reflexivity|]. split; [vm_compute; reflexivity|].
    split; [vm_compute; reflexivity|]. repeat split; reflexivity. }
  split; [vm_compute; reflexivity|].
  split; [vm_compute; reflexivity|].
  split; [vm_compute; reflexivity|].
  split; [vm_compute; reflexivity|].
  split; [vm_compute; reflexivity|].
  split; [eexists; vm_compute; reflexivity|].
  vm_compute. reflexivity.
Qed.

(** A NaN loss at the second batch of the second epoch. *)
Lemma nan_loss_in_second_epoch :
  let r := train_dcn Example.training Example.data Example.dcn_nan Example.rng false false in
  result_of r = AbortedNaN /\
  returned (result_of r) = Some PyNone /\
  performance_log r = perf (Example.after Example.dcn_nan 1) /\
  length (tget Loss Training (performance_log r)) = 1%nat.
Proof.
  cbv zeta.
  destruct (nan_loss_aborts_run Example.training Example.data Example.dcn_nan Example.rng
              false false 2 1 1 1
              (Example.start (1 # 10))
              (Example.after Example.dcn_nan 1)
              (Example.scheduled Example.dcn_nan 1)
              (flow_state
                 (for_each (training_batch Example.training Example.dcn_nan Example.rng 1)
                    (seq 0 1) (Example.scheduled Example.dcn_nan 1)))
              6 Np.NaN)
    as (H1 & H2 & H3 & _);
    try (vm_compute; reflexivity); try (vm_compute; lia).
  split; [exact H1|]. split; [exact H2|]. split; [exact H3|].
  rewrite H3. vm_compute. reflexivity.
Defined.

(** The resize fires and position 6 of [arange(4, 8)], taken modulo its
    length, is drawn: the patch size is 6. *)
Lemma patch_size_draw_of_six :
  0 < TrainingSpec.patch_size Example.training /\
  pick_patch_size Example.training Example.draw_seventh = Ok 6.
Proof.
  assert (H : 0 < TrainingSpec.patch_size Example.training) by (vm_compute; reflexivity).
  split; [exact H|].
  destruct (patch_size_is_drawn_from_P_to_2P Example.training
              (Example.dcn Example.plateau) Example.rng Example.draw_seventh H)
    as (Hf & _).
  destruct Hf as (v & Hv & _ & E); [vm_compute; reflexivity|].
  rewrite Hv, E. vm_compute. reflexivity.
Defined.

(** The resize fires and the first position of [arange(4, 8)] is drawn: the
    sampled patch size is the base patch size 4, which is not strictly
    greater than 4, and the batch is not resized. *)
Lemma patch_size_draw_of_P :
  Np.Qlt_bool (u_resize Example.draw_first)
    (TrainingSpec.resize (TrainingSpec.augmentation_probs Example.training)) = true /\
  pick_patch_size Example.training Example.draw_first
  = Ok (TrainingSpec.patch_size Example.training) /\
  ~ (exists v, pick_patch_size Example.training Example.draw_first = Ok v /\
               TrainingSpec.patch_size Example.training < v
               < 2 * TrainingSpec.patch_size Example.training).
Proof.
  split; [vm_compute; reflexivity|]. split; [vm_compute; reflexivity|].
  intros (v & Hv & Hlt). vm_compute in Hv. inversion Hv; subst.
  vm_compute in Hlt. destruct Hlt as (Hlt & _). discriminate.
Qed.

(** The output directory exists and may not be overwritten. *)
Lemma skip_on_existing_directory :
  0 < TrainingSpec.batch_size Example.training /\
  train_dcn Example.training Example.data (Example.dcn Example.plateau) Example.rng true false
  = Run Skipped [Init] (tconst []) None.
Proof.
  assert (H : 0 < TrainingSpec.batch_size Example.training) by (vm_compute; reflexivity).
  split; [exact H|].
  destruct (existing_directory_skips_training Example.training Example.data
              (Example.dcn Example.plateau) Example.rng H)
    as (H1 & _ & H3 & _ & H5 & H6).
  destruct (train_dcn Example.training Example.data (Example.dcn Example.plateau)
              Example.rng true false) as [o ev pl fs].
  cbn in H1, H3, H5, H6. subst. reflexivity.
Defined.

(** The same call with a batch size of 0 does not return: the batch counts
    are computed before the directory is looked at, and the division
    raises. *)
Lemma skip_with_batch_size_zero :
  let r := train_dcn Example.training_no_batch Example.data (Example.dcn Example.plateau)
             Example.rng true false in
  result_of r = Crashed ZeroDivisionError /\ returned (result_of r) = None.
Proof. cbv zeta. split; vm_compute; reflexivity. Qed.

(** Three epochs of the plateau: three values in every series. *)
Lemma three_epochs_three_values :
  let m := Example.dcn Example.plateau in
  prepare Example.training Example.data m false false
  = SetupReady 2 1 (Example.start (1 # 10)) /\
  length (tget Loss Training (perf (Example.after m 3))) = 3%nat /\
  length (tget Ssim Validation (perf (Example.after m 3))) = 3%nat.
Proof.
  cbv zeta.
  assert (Hp : prepare Example.training Example.data (Example.dcn Example.plateau) false false
               = SetupReady 2 1 (Example.start (1 # 10))) by (vm_compute; reflexivity).
  split; [exact Hp|].
  assert (Hrun : run_epochs Example.training (Example.dcn Example.plateau) Example.rng 2 1
                   (seq 0 2) (Example.start (1 # 10))
                 = Next (Example.after (Example.dcn Example.plateau) 2))
    by (vm_compute; reflexivity).
  assert (Hbody : epoch_body Example.training (Example.dcn Example.plateau) Example.rng 2 1 2
                    (Example.after (Example.dcn Example.plateau) 2)
                  = Next (Example.after (Example.dcn Example.plateau) 3))
    by (vm_compute; reflexivity).
  destruct (log_grows_one_entry_per_epoch Example.training Example.data
              (Example.dcn Example.plateau) Example.rng false false 2 1 2 _ _ _ Loss
              Hp Hrun (or_introl Hbody)) as (_ & _ & _ & _ & HL).
  destruct (log_grows_one_entry_per_epoch Example.training Example.data
              (Example.dcn Example.plateau) Example.rng false false 2 1 2 _ _ _ Ssim
              Hp Hrun (or_introl Hbody)) as (_ & _ & _ & _ & HS).
  split.
  - exact (proj1 (HL eq_refl)).
  - rewrite (proj2 (HS eq_refl)). vm_compute. reflexivity.
Defined.

(** The caches of the example: capacities 2 and 1, never exceeded.  With a
    training loss of [10 e + b], the loss cache holds 10 and 11 at the end of
    the second epoch (0 and 1 were evicted), the value appended to the log is
    their mean, and the validation loss cache holds the one value of the
    second round. *)
Lemma caches_of_the_example :
  let m := Example.dcn_ramp in
  prepare Example.training Example.data m false false
  = SetupReady 2 1 (Example.start (1 # 10)) /\
  cache_inv 2 1 (caches (Example.after m 4)) /\
  Py.items (tget Loss Training (caches (Example.after m 1))) = [Np.Fin 0; Np.Fin 1] /\
  Py.items (tget Loss Training (caches (Example.after m 2))) = [Np.Fin 10; Np.Fin 11] /\
  tget Loss Training (perf (Example.after m 2))
  = [Np.mean [Np.Fin 0; Np.Fin 1]; Np.mean [Np.Fin 10; Np.Fin 11]] /\
  Py.items (tget Loss Validation (caches (Example.after m 2))) = [Np.Fin 2] /\
  tget Loss Validation (perf (Example.after m 2)) = [Np.mean [Np.Fin 1]; Np.mean [Np.Fin 2]].
Proof.
  cbv zeta.
  assert (Hp : prepare Example.training Example.data Example.dcn_ramp false false
               = SetupReady 2 1 (Example.start (1 # 10))) by (vm_compute; reflexivity).
  destruct (metric_cache_is_bounded_ring Example.training Example.data
              Example.dcn_ramp Example.rng false false 2 1 _ Hp)
    as (_ & _ & Hinv & _ & _ & _ & _ & _ & _ & _ & Hrun).
  assert (Hkeys : forall e b m', (b < 2)%nat ->
                    is_Some (training_step Example.dcn_ramp e b !! metric_name m')).
  { intros e b m' _. destruct m'; vm_compute; eauto. }
  destruct (Hrun 0%nat (Example.start (1 # 10)) (Example.after Example.dcn_ramp 1) Loss)
    as (_ & K0 & _); [reflexivity|left; vm_compute; reflexivity|].
  destruct (Hrun 1%nat (Example.after Example.dcn_ramp 1)
              (Example.after Example.dcn_ramp 2) Loss)
    as (T1 & K1 & V1); [vm_compute; reflexivity|left; vm_compute; reflexivity|].
  change (is_validation_epoch Example.training 1) with true in V1.
  destruct V1 as (V1 & V2).
  split; [exact Hp|]. split; [exact (Hinv (seq 0 4))|].
  split; [rewrite (K0 (Hkeys 0%nat)); vm_compute; reflexivity|].
  split; [rewrite (K1 (Hkeys 1%nat)); vm_compute; reflexivity|].
  split; [rewrite T1, (K1 (Hkeys 1%nat)); vm_compute; reflexivity|].
  split; [rewrite V1; vm_compute; reflexivity|].
  rewrite V2. vm_compute. reflexivity.
Defined.

(** The rate of the example, 0.1 halved every third epoch, never goes up. *)
Lemma rate_of_the_example :
  (0 < TrainingSpec.learning_rate_reduction_factor Example.training)%Q /\
  (TrainingSpec.learning_rate_reduction_factor Example.training <= 1)%Q /\
  (0 <= learning_rate (Example.start (1 # 10)))%Q /\
  (learning_rate (Example.after (Example.dcn Example.plateau) 4) <= 1 # 10)%Q.
Proof.
  assert (H1 : (0 < TrainingSpec.learning_rate_reduction_factor Example.training)%Q)
    by reflexivity.
  assert (H2 : (TrainingSpec.learning_rate_reduction_factor Example.training <= 1)%Q)
    by (vm_compute; discriminate).
  assert (H3 : (0 <= learning_rate (Example.start (1 # 10)))%Q)
    by (vm_compute; discriminate).
  split; [exact H1|]. split; [exact H2|]. split; [exact H3|].
  exact (proj2 (proj2 (proj2
    (learning_rate_never_increases Example.training (Example.dcn Example.plateau)
       Example.rng 2 1 _ H1 H2 H3)) (seq 0 4))).
Defined.

(** With a reduction factor of 1/2 and a learning rate of -1, the rate of the
    second epoch is -1/2: it went up. *)
Lemma negative_rate_increases :
  let r := train_dcn Example.training_negative_rate Example.data
             (Example.dcn Example.plateau) Example.rng false false in
  (0 < TrainingSpec.learning_rate_reduction_factor Example.training_negative_rate)%Q /\
  (TrainingSpec.learning_rate_reduction_factor Example.training_negative_rate <= 1)%Q /\
  result_of r = Completed /\
  List.filter (fun ev => match ev with TrainingStep _ 0 _ _ => true | _ => false end)
    (effects r)
  = [TrainingStep 0 0 (-1 # 1) 1; TrainingStep 1 0 (-1 # 2) 1] /\
  (-1 # 1 < -1 # 2)%Q.
Proof.
  cbv zeta. split; [reflexivity|]. split; [vm_compute; discriminate|].
  split; [vm_compute; reflexivity|]. split; [vm_compute; reflexivity|].
  reflexivity.
Qed.


(** In the example the read of the last validation SSIM succeeds at the
    fourth epoch. *)
Lemma last_validation_ssim_of_the_example :
  1 <= TrainingSpec.validation_schedule Example.training /\
  exists s', progress_display (Example.dcn Example.plateau) 3
               (Example.checking (Example.dcn Example.plateau) 3) = Next s'.
Proof.
  assert (H1 : 1 <= TrainingSpec.validation_schedule Example.training)
    by (vm_compute; discriminate).
  split; [exact H1|].
  refine (proj2 (proj2 (proj1 (proj2 (proj2
    (last_validation_ssim_is_there Example.training (Example.dcn Example.plateau)
       Example.rng 2 1 (Example.start (1 # 10)) H1 _)))
    3%nat (Example.after (Example.dcn Example.plateau) 3)
    (Example.checking (Example.dcn Example.plateau) 3) _ _))).
  - lia.
  - vm_compute. reflexivity.
  - vm_compute. reflexivity.
Defined.

(* ===================================================================== *)
(** ** More on the convergence and deterioration check *)
(* ===================================================================== *)

Lemma sum_nan_acc (l : list Np.float) : fold_left Np.add l Np.NaN = Np.NaN.
Proof. induction l as [|x l IH]; simpl; [reflexivity|exact IH]. Qed.

Lemma sum_nan_in (l : list Np.float) (a : Np.float) :
  In Np.NaN l -> fold_left Np.add l a = Np.NaN.
Proof.
  revert a. induction l as [|x l IH]; intros a H; [destruct H|].
  simpl. destruct H as [->|H].
  - replace (Np.add a Np.NaN) with Np.NaN by (destruct a; reflexivity).
    apply sum_nan_acc.
  - apply IH, H.
Qed.

Lemma mean_nan_in (l : list Np.float) : In Np.NaN l -> Np.mean l = Np.NaN.
Proof. intros H. unfold Np.mean, Np.sum. rewrite (sum_nan_in l _ H). reflexivity. Qed.

Lemma ltb_nan_l (x : Np.float) : Np.ltb Np.NaN x = false.
Proof. reflexivity. Qed.

Lemma ltb_nan_r (x : Np.float) : Np.ltb x Np.NaN = false.
Proof. destruct x as [q|[]|]; reflexivity. Qed.

Lemma mul_nan_r (x : Np.float) : Np.mul x Np.NaN = Np.NaN.
Proof. destruct x; reflexivity. Qed.

Lemma change_nan_l (p : Np.float) : Np.abs (Np.div (Np.sub Np.NaN p) p) = Np.NaN.
Proof. reflexivity. Qed.

Lemma change_nan_r (c : Np.float) : Np.abs (Np.div (Np.sub c Np.NaN) Np.NaN) = Np.NaN.
Proof. destruct c; reflexivity. Qed.

Section CheckEdges.

Variable training : TrainingSpec.t.

(** X1.  A NaN among the last six validation-SSIM values switches both stops
    off: the means of the windows it falls into are NaN, every comparison
    with NaN is false, and the check falls through. *)
Theorem nan_in_window_disables_early_stop (s : state) :
  let log := tget Ssim Validation (perf s) in
  (6 <= length log)%nat ->
  In Np.NaN (skipn (length log - 6) log) ->
  check_stop training s = Next s.
Proof.
  intros log Hlen Hin. unfold check_stop. fold log.
  destruct (Nat.ltb_spec 5 (length log)); [|reflexivity].
  assert (Hcases : In Np.NaN (firstn 5 (skipn (length log - 6) log)) \/
                   In Np.NaN (skipn (length log - 5) log)).
  { rewrite <- (firstn_skipn 5 (skipn (length log - 6) log)) in Hin.
    apply in_app_or in Hin. destruct Hin as [Hin|Hin]; [left; exact Hin|right].
    rewrite skipn_skipn in Hin.
    replace (5 + (length log - 6))%nat with (length log - 1)%nat in Hin by lia.
    rewrite <- (firstn_skipn 4 (skipn (length log - 5) log)).
    apply in_or_app. right. rewrite skipn_skipn.
    replace (4 + (length log - 5))%nat with (length log - 1)%nat by lia.
    exact Hin. }
  unfold perf_change.
  destruct Hcases as [Hp|Hc].
  - rewrite (previous_window log Hlen), (mean_nan_in _ Hp).
    rewrite change_nan_r, mul_nan_r, ltb_nan_r. reflexivity.
  - rewrite (current_window log ltac:(lia)), (mean_nan_in _ Hc).
    rewrite change_nan_l. reflexivity.
Qed.

(** X3.  A [previous] mean of zero never gives convergence: the division by
    zero yields an infinity or NaN, which is not below any threshold; the run
    then stops as deteriorated exactly when [current] is negative. *)
Theorem zero_previous_never_converges (s : state) (p : Q) :
  let log := tget Ssim Validation (perf s) in
  (6 <= length log)%nat ->
  previous log = Np.Fin p -> (p == 0)%Q ->
  (forall s', check_stop training s <> Break Converged s') /\
  ((exists s', check_stop training s = Break Deteriorated s')
   <-> Np.ltb (current log) (Np.Fin 0) = true).
Proof.
  intros log Hlen Hp Hz.
  assert (Hc : Np.ltb (perf_change log)
                 (Np.Fin (TrainingSpec.convergence_threshold training)) = false).
  { unfold perf_change. rewrite Hp.
    destruct (current log) as [c|sc|]; cbn [Np.sub Np.neg Np.add Np.div]; try reflexivity.
    - apply Qeq_bool_iff in Hz. rewrite Hz.
      destruct (c + - p ?= 0)%Q; reflexivity.
    - destruct (Np.Qlt_bool p 0); reflexivity. }
  assert (Hm : Np.ltb (current log) (Np.mul (Np.Fin (9 # 10)) (previous log))
               = Np.ltb (current log) (Np.Fin 0)).
  { rewrite Hp. cbn [Np.mul].
    destruct (current log) as [c|[]|]; cbn [Np.ltb]; try reflexivity.
    unfold Np.Qlt_bool. f_equal.
    assert (E : ((9 # 10) * p == 0)%Q) by (rewrite Hz; reflexivity).
    destruct (Qle_bool ((9 # 10) * p) c) eqn:E1, (Qle_bool 0 c) eqn:E2; try reflexivity.
    - apply Qle_bool_iff in E1. rewrite E in E1. apply Qle_bool_iff in E1. congruence.
    - apply Qle_bool_iff in E2. rewrite <- E in E2. apply Qle_bool_iff in E2. congruence. }
  split.
  - intros s' H. apply check_stop_break_inv in H. destruct H as (_ & H).
    fold log in H. congruence.
  - split.
    + intros (s' & H). apply check_stop_break_inv in H. destruct H as (_ & _ & H).
      fold log in H. rewrite <- Hm. exact H.
    + intros H. eexists. apply check_stop_deteriorated; fold log;
        [exact Hlen|exact Hc|rewrite Hm; exact H].
Qed.

End CheckEdges.

(* ===================================================================== *)
(** ** More on how a run ends *)
(* ===================================================================== *)

Section RunEnds.

Variable training : TrainingSpec.t.
Variable data : dataset.
Variable dcn : model.
Variable rng : nat -> nat -> draws.

(** Only the convergence check breaks out of the epoch loop. *)
Lemma until_display_break_inv (n_batches v_batches epoch : nat) (s s' : state)
    (why : stop_reason) :
  epoch_until_display training dcn rng n_batches v_batches epoch s = Break why s' ->
  exists s3, check_stop training s3 = Break why s'.
Proof.
  unfold epoch_until_display. intros H.
  destruct (schedule_learning_rate training epoch (set_current_epoch epoch s))
    as [s1| | |] eqn:Hs; cbn [and_then] in H; try discriminate.
  2:{ exfalso. exact (schedule_not_break training _ _ _ _ Hs). }
  destruct (training_epoch training dcn rng n_batches epoch s1) as [s2| | |] eqn:Ht;
    cbn [and_then] in H; try discriminate.
  2:{ exfalso. exact (training_epoch_not_break training dcn rng n_batches epoch s1 _ _ Ht). }
  unfold validation, attempt in H.
  destruct (Py.modulo _ _) as [r|]; [|discriminate].
  destruct (r =? 0); [|discriminate].
  destruct (validation_round_shape training dcn n_batches v_batches epoch s2) as (c & Hv).
  rewrite Hv in H.
  destruct (report training dcn n_batches v_batches epoch
              (record_averages Validation (set_caches c s2))) as [s3| | |] eqn:Hr;
    cbn [and_then] in H; try discriminate.
  - exists s3. exact H.
  - exfalso. exact (proj1 (report_not_break training dcn n_batches v_batches epoch _ _ _) Hr).
Qed.

Lemma epoch_body_break_inv (n_batches v_batches epoch : nat) (s s' : state)
    (why : stop_reason) :
  epoch_body training dcn rng n_batches v_batches epoch s = Break why s' ->
  epoch_until_display training dcn rng n_batches v_batches epoch s = Break why s'.
Proof.
  unfold epoch_body. intros H.
  destruct (epoch_until_display training dcn rng n_batches v_batches epoch s) as [s3| | |];
    cbn [and_then] in H; try discriminate; [|exact H].
  unfold progress_display, attempt in H. destruct (Py.index _ _); discriminate.
Qed.

Lemma validation_rounds_le (n : nat) : (validation_rounds training n <= n)%nat.
Proof.
  induction n as [|n IH]; [reflexivity|].
  rewrite validation_rounds_S. destruct (is_validation_epoch training n); lia.
Qed.

(** X4.  A run that ends with an early stop hands back a performance log
    that justifies the stop: its validation-SSIM series has at least 6 values
    and the test of the reported reason holds on it (for "deteriorated", the
    convergence test fails on it).  A run that starts from the empty log thus
    needs at least 6 epochs to stop early. *)
Theorem early_stop_is_justified_by_the_log (dir_exists overwrite : bool) (why : stop_reason) :
  let r := train_dcn training data dcn rng dir_exists overwrite in
  let log := tget Ssim Validation (performance_log r) in
  let thr := Np.Fin (TrainingSpec.convergence_threshold training) in
  result_of r = EarlyStop why ->
  (6 <= length log)%nat /\
  match why with
  | Converged => Np.ltb (perf_change log) thr = true
  | Deteriorated =>
      Np.ltb (perf_change log) thr = false /\
      Np.ltb (current log) (Np.mul (Np.Fin (9 # 10)) (previous log)) = true
  end /\
  (performance dcn = tconst [] ->
   (6 <= Z.to_nat (TrainingSpec.n_epochs training))%nat).
Proof.
  cbv zeta. unfold train_dcn.
  destruct (prepare training data dcn dir_exists overwrite) as [e| |nb vb s0] eqn:Hp;
    try discriminate.
  destruct (run_epochs training dcn rng nb vb
              (seq 0 (Z.to_nat (TrainingSpec.n_epochs training))) s0)
    as [s|w s|s|e s] eqn:Hrun; try discriminate.
  cbn [finish result_of performance_log]. intros Hw. inversion Hw; subst w.
  destruct (run_epochs_break training dcn rng nb vb _ s0 s why Hrun)
    as (epoch & s1 & He & Hpre & Hbody).
  pose proof (epoch_body_break_inv nb vb epoch s1 s why Hbody) as Hu.
  destruct (until_display_break_inv nb vb epoch s1 s why Hu) as (s3 & Hc).
  destruct (check_stop_frame training s3) as (Hperf & _). cbv zeta in Hperf.
  rewrite Hc in Hperf. cbn [flow_state] in Hperf.
  destruct (check_stop_break_inv training s3 s why Hc) as (Hlen & Hwhy).
  rewrite <- Hperf in Hlen, Hwhy.
  split; [exact Hlen|]. split; [exact Hwhy|].
  intros Hempty.
  destruct (prepare_ready training data dcn _ _ _ _ _ Hp) as (_ & _ & _ & P0 & _).
  destruct (epoch_body_growth training dcn rng nb vb epoch s1 s
              (or_intror (ex_intro _ why Hbody))) as (_ & G).
  destruct (G Ssim) as (_ & G2).
  destruct (run_epochs_growth training dcn rng nb vb epoch s0 s1 Hpre Ssim) as (_ & R2).
  rewrite P0, Hempty in R2.
  change (tget Ssim Validation (tconst [])) with (@nil Np.float) in R2.
  cbn [length] in R2.
  pose proof (validation_rounds_le epoch).
  destruct (is_validation_epoch training epoch); lia.
Qed.

End RunEnds.

(* ===================================================================== *)
(** ** What the pieces of the loop add to the trace *)
(* ===================================================================== *)

Lemma emits_weaken (k k' : list phase) (f : state -> flow) :
  incl k k' -> emits k f -> emits k' f.
Proof.
  intros Hi Hf s. destruct (Hf s) as (evs & Ht & Hp).
  exists evs. split; [exact Ht|].
  eapply Forall_impl; [exact Hp|]. intros ev H. apply Hi, H.
Qed.

Lemma emits_and_then (k : list phase) (f g : state -> flow) :
  emits k f -> emits k g -> emits k (fun s => and_then (f s) g).
Proof.
  intros Hf Hg s. destruct (Hf s) as (evs & Ht & Hp).
  destruct (f s) as [s1| | |] eqn:E; cbn [and_then flow_state] in *;
    try (exists evs; split; assumption).
  destruct (Hg s1) as (evs' & Ht' & Hp').
  exists (evs ++ evs'). split.
  - rewrite Ht', Ht, app_assoc. reflexivity.
  - apply Forall_app. split; assumption.
Qed.

Lemma emits_for_each {A} (k : list phase) (body : A -> state -> flow) (l : list A) :
  (forall x, emits k (body x)) -> emits k (for_each body l).
Proof.
  intros Hb. induction l as [|x l IH].
  - intros s. exists []. split; [cbn; rewrite app_nil_r; reflexivity|constructor].
  - exact (emits_and_then k (body x) (for_each body l) (Hb x) IH).
Qed.

Lemma emits_nothing (k : list phase) (f : state -> flow) :
  (forall s, trace (flow_state (f s)) = trace s) -> emits k f.
Proof.
  intros H s. exists []. split; [rewrite H, app_nil_r; reflexivity|constructor].
Qed.

Section Emits.

Variable training : TrainingSpec.t.
Variable dcn : model.
Variable rng : nat -> nat -> draws.
Variables n_batches v_batches : nat.

Lemma emits_schedule (epoch : nat) :
  emits [] (fun s => schedule_learning_rate training epoch (set_current_epoch epoch s)).
Proof.
  apply emits_nothing. intros s.
  destruct (schedule_frame training epoch (set_current_epoch epoch s)) as (_ & _ & _ & H).
  exact H.
Qed.

Lemma augmentation_events_phase (d : draws) (current_patch : Z) :
  Forall (fun ev => In (phase_of ev) [BatchLoop])
    (augmentation_events training d current_patch).
Proof.
  unfold augmentation_events.
  repeat (apply Forall_app; split);
    match goal with |- Forall _ (if ?b then _ else _) => destruct b end;
    repeat constructor.
Qed.

Lemma nan_dump_events_phase (epoch batch_id : nat) :
  Forall (fun ev => In (phase_of ev) [BatchLoop]) (nan_dump_events dcn epoch batch_id).
Proof.
  unfold nan_dump_events. apply Forall_app. split; [repeat constructor|].
  induction (nan_variables dcn epoch batch_id) as [|v l IH]; cbn [map];
    constructor; [left; reflexivity|exact IH].
Qed.

Lemma emits_training_batch (epoch batch_id : nat) :
  emits [BatchLoop] (training_batch training dcn rng epoch batch_id).
Proof.
  intros s.
  destruct (pick_patch_size training (rng epoch batch_id)) as [cp|e] eqn:Hpick.
  - rewrite (training_batch_trace training dcn rng epoch batch_id s cp Hpick).
    eexists. split; [reflexivity|].
    constructor; [left; reflexivity|].
    apply Forall_app. split; [apply augmentation_events_phase|].
    constructor; [left; reflexivity|].
    destruct (training_step dcn epoch batch_id !! "loss"%string) as [loss|];
      [|constructor].
    destruct (Np.isnan loss); [apply nan_dump_events_phase|constructor].
  - exists []. split; [|constructor].
    unfold training_batch, attempt. rewrite Hpick. cbn. rewrite app_nil_r. reflexivity.
Qed.

Lemma emits_training_epoch (epoch : nat) :
  emits [BatchLoop] (training_epoch training dcn rng n_batches epoch).
Proof.
  unfold training_epoch.
  apply (emits_and_then [BatchLoop]
           (for_each (training_batch training dcn rng epoch) (seq 0 n_batches))
           (fun s => Next (record_averages Training s))).
  - apply emits_for_each. intros b. apply emits_training_batch.
  - apply emits_nothing. intros s. reflexivity.
Qed.

Lemma emits_report (epoch : nat) :
  emits [Reporting] (report training dcn n_batches v_batches epoch).
Proof.
  intros s. unfold report, attempt.
  destruct (v_batches =? 0)%nat;
    [exists []; split; [cbn; rewrite app_nil_r; reflexivity|constructor]|].
  cbv zeta. cbn [perf emit].
  repeat match goal with
         | |- context [match Py.index ?l ?i with _ => _ end] => destruct (Py.index l i)
         end;
    cbn [flow_state trace emit]; rewrite <- ?app_assoc;
    (eexists; split; [reflexivity|repeat constructor]).
Qed.

Lemma emits_check_stop : emits [Checking] (check_stop training).
Proof.
  intros s. unfold check_stop. cbv zeta. split_matches; cbn [flow_state trace emit];
    try (exists []; split; [rewrite app_nil_r; reflexivity|constructor]);
    (eexists; split; [reflexivity|repeat constructor]).
Qed.

Lemma emits_progress_display (epoch : nat) : emits [Display] (progress_display dcn epoch).
Proof.
  intros s. unfold progress_display, attempt.
  destruct (Py.index _ _); cbn [flow_state trace emit].
  - rewrite <- app_assoc. eexists. split; [reflexivity|repeat constructor].
  - exists []. split; [rewrite app_nil_r; reflexivity|constructor].
Qed.

Lemma emits_validation_round (epoch : nat) :
  emits [Reporting; Checking] (validation_round training dcn n_batches v_batches epoch).
Proof.
  intros s. destruct (validation_round_shape training dcn n_batches v_batches epoch s)
    as (c & ->).
  assert (R : emits [Reporting; Checking] (report training dcn n_batches v_batches epoch)).
  { apply (emits_weaken [Reporting]); [intros x H; simpl in *; tauto|apply emits_report]. }
  assert (C : emits [Reporting; Checking] (check_stop training)).
  { apply (emits_weaken [Checking]); [intros x H; simpl in *; tauto|apply emits_check_stop]. }
  exact (emits_and_then _ _ _ R C (record_averages Validation (set_caches c s))).
Qed.

Lemma emits_validation (epoch : nat) :
  emits [Reporting; Checking] (validation training dcn n_batches v_batches epoch).
Proof.
  intros s. unfold validation, attempt.
  destruct (Py.modulo _ _) as [r|];
    [|exists []; split; [cbn; rewrite app_nil_r; reflexivity|constructor]].
  destruct (r =? 0);
    [apply emits_validation_round
    |exists []; split; [cbn; rewrite app_nil_r; reflexivity|constructor]].
Qed.

(** An epoch that is not a validation epoch adds nothing from the report or
    the check. *)
Lemma emits_validation_skipped (epoch : nat) :
  Py.modulo (Z.of_nat epoch) (TrainingSpec.validation_schedule training) <> Ok 0 ->
  emits [] (validation training dcn n_batches v_batches epoch).
Proof.
  intros Hne s. unfold validation, attempt.
  destruct (Py.modulo _ _) as [r|];
    [|exists []; split; [cbn; rewrite app_nil_r; reflexivity|constructor]].
  destruct (Z.eqb_spec r 0) as [->|_]; [congruence|].
  exists []. split; [cbn; rewrite app_nil_r; reflexivity|constructor].
Qed.

Lemma emits_until_display (epoch : nat) :
  emits [BatchLoop; Reporting; Checking]
    (epoch_until_display training dcn rng n_batches v_batches epoch).
Proof.
  unfold epoch_until_display.
  apply (emits_and_then _
           (fun s => schedule_learning_rate training epoch (set_current_epoch epoch s))).
  - apply (emits_weaken []); [intros x []|apply emits_schedule].
  - apply (emits_and_then _ (training_epoch training dcn rng n_batches epoch)).
    + apply (emits_weaken [BatchLoop]); [intros x H; simpl in *; tauto|].
      apply emits_training_epoch.
    + apply (emits_weaken [Reporting; Checking]);
        [intros x H; simpl in *; tauto|].
      apply emits_validation.
Qed.

Lemma emits_until_display_skipped (epoch : nat) :
  Py.modulo (Z.of_nat epoch) (TrainingSpec.validation_schedule training) <> Ok 0 ->
  emits [BatchLoop] (epoch_until_display training dcn rng n_batches v_batches epoch).
Proof.
  intros Hne. unfold epoch_until_display.
  apply (emits_and_then _
           (fun s => schedule_learning_rate training epoch (set_current_epoch epoch s))).
  - apply (emits_weaken []); [intros x []|apply emits_schedule].
  - apply (emits_and_then _ (training_epoch training dcn rng n_batches epoch)).
    + apply emits_training_epoch.
    + apply (emits_weaken []); [intros x []|]. apply emits_validation_skipped, Hne.
Qed.

Lemma emits_epoch_body (epoch : nat) :
  emits [BatchLoop; Reporting; Checking; Display]
    (epoch_body training dcn rng n_batches v_batches epoch).
Proof.
  unfold epoch_body.
  apply (emits_and_then _ (epoch_until_display training dcn rng n_batches v_batches epoch)).
  - apply (emits_weaken [BatchLoop; Reporting; Checking]);
      [intros x H; simpl in *; tauto|apply emits_until_display].
  - apply (emits_weaken [Display]);
      [intros x H; simpl in *; tauto|apply emits_progress_display].
Qed.

Lemma emits_run_epochs (epochs : list nat) :
  emits [BatchLoop; Reporting; Checking; Display]
    (run_epochs training dcn rng n_batches v_batches epochs).
Proof. unfold run_epochs. apply emits_for_each. intros e. apply emits_epoch_body. Qed.

End Emits.

(* ===================================================================== *)
(** ** Settings the loop does not survive *)
(* ===================================================================== *)

Lemma write_phase (ev : event) :
  is_write ev = true -> phase_of ev = Preamble \/ phase_of ev = Reporting.
Proof. destruct ev; cbn; auto; discriminate. Qed.

Lemma no_write_outside_report (evs : list event) :
  Forall (fun ev => In (phase_of ev) [BatchLoop; Checking; Display]) evs ->
  List.filter is_write evs = [].
Proof.
  induction 1 as [|ev evs H _ IH]; [reflexivity|].
  cbn [List.filter]. rewrite IH.
  destruct (is_write ev) eqn:W; [|reflexivity].
  destruct (write_phase ev W) as [E|E]; rewrite E in H; simpl in H;
    intuition discriminate.
Qed.

Lemma first_epoch_first (n : Z) : 0 < n -> seq 0 (Z.to_nat n) = 0%nat :: seq 1 (Z.to_nat n - 1).
Proof.
  intros H. destruct (Z.to_nat n) as [|k] eqn:E; [lia|].
  cbn [seq]. rewrite Nat.sub_succ, Nat.sub_0_r. reflexivity.
Qed.

Section Crashes.

Variable training : TrainingSpec.t.
Variable data : dataset.
Variable dcn : model.
Variable rng : nat -> nat -> draws.

Lemma training_epoch_validation_side (n_batches epoch : nat) (s : state) (key : metric) :
  let s' := flow_state (training_epoch training dcn rng n_batches epoch s) in
  tget key Validation (perf s') = tget key Validation (perf s) /\
  tget key Validation (caches s') = tget key Validation (caches s).
Proof.
  cbv zeta. unfold training_epoch.
  pose proof (training_batches_frame training dcn rng epoch (seq 0 n_batches) s) as F.
  cbv zeta in F. destruct F as (F & _).
  assert (C : tget key Validation
                (caches (flow_state (for_each (training_batch training dcn rng epoch)
                                       (seq 0 n_batches) s)))
              = tget key Validation (caches s)).
  { apply (preserves_for_each
             (fun s' => tget key Validation (caches s') = tget key Validation (caches s))
             (training_batch training dcn rng epoch) (seq 0 n_batches)); [|reflexivity].
    intros b s1 H1.
    apply (training_batch_caches training dcn rng
             (fun c => tget key Validation c = tget key Validation (caches s)) epoch b s1);
      [|exact H1].
    intros v k c Hc. rewrite tget_tupd_other_split; [exact Hc|discriminate]. }
  destruct (for_each (training_batch training dcn rng epoch) (seq 0 n_batches) s)
    as [sx| | |]; cbn [and_then flow_state] in *;
    try (split; [rewrite F; reflexivity|exact C]).
  split; [|exact C].
  rewrite record_averages_perf. destruct (decide (Training = Validation)); [discriminate|].
  rewrite F. reflexivity.
Qed.

Lemma first_schedule (s : state) :
  schedule_learning_rate training 0 (set_current_epoch 0 s) = Next (set_current_epoch 0 s).
Proof. reflexivity. Qed.

(** X5.  With [validation_schedule = 0] the test [epoch % validation_schedule]
    of the first epoch raises ZeroDivisionError: the run never completes or
    stops early, it writes nothing to the output directory, and no validation
    value is ever logged.  When the training batches of the first epoch go
    through, the exception comes right after their averages were appended. *)
Theorem zero_validation_schedule_crashes_first_epoch
    (dir_exists overwrite : bool) (n_batches v_batches : nat) (s0 : state) :
  TrainingSpec.validation_schedule training = 0 ->
  0 < TrainingSpec.n_epochs training ->
  prepare training data dcn dir_exists overwrite = SetupReady n_batches v_batches s0 ->
  let r := train_dcn training data dcn rng dir_exists overwrite in
  (result_of r = AbortedNaN \/ exists e, result_of r = Crashed e) /\
  List.filter is_write (effects r) = [GetSummaryWriter] /\
  (forall key, tget key Validation (performance_log r)
               = tget key Validation (performance dcn)) /\
  (forall s2,
     training_epoch training dcn rng n_batches 0 (set_current_epoch 0 s0) = Next s2 ->
     result_of r = Crashed ZeroDivisionError /\ performance_log r = perf s2 /\
     forall key, length (tget key Training (perf s2))
                 = S (length (tget key Training (performance dcn)))).
Proof.
  intros Hvs Hn Hp. cbv zeta.
  destruct (prepare_ready training data dcn _ _ _ _ _ Hp) as (_ & _ & _ & P0 & _ & T0 & _).
  unfold train_dcn. rewrite Hp. rewrite (first_epoch_first _ Hn).
  unfold run_epochs. cbn [for_each]. unfold epoch_body, epoch_until_display.
  rewrite first_schedule. cbn [and_then].
  pose proof (fun key => training_epoch_validation_side n_batches 0
                           (set_current_epoch 0 s0) key) as V. cbv zeta in V.
  destruct (emits_training_epoch training dcn rng n_batches 0 (set_current_epoch 0 s0))
    as (evs & Ht & Hph).
  assert (W : List.filter is_write
                (trace (flow_state (training_epoch training dcn rng n_batches 0
                                      (set_current_epoch 0 s0))))
              = [GetSummaryWriter]).
  { rewrite Ht. change (trace (set_current_epoch 0 s0)) with (trace s0). rewrite T0.
    rewrite List.filter_app, (no_write_outside_report evs); [reflexivity|].
    eapply Forall_impl; [exact Hph|]. intros ev H. simpl in *. tauto. }
  destruct (training_epoch training dcn rng n_batches 0 (set_current_epoch 0 s0))
    as [s2|why s2|s2|e s2] eqn:E; cbn [and_then flow_state] in *.
  - unfold validation, attempt, Py.modulo. rewrite Hvs. cbn [Z.eqb and_then].
    unfold finish. cbn [result_of effects performance_log].
    split; [right; eexists; reflexivity|]. split; [exact W|].
    split; [intros key; rewrite (proj1 (V key)), <- P0; reflexivity|].
    intros s2' H2. inversion H2; subst s2'. split; [reflexivity|]. split; [reflexivity|].
    intros key.
    destruct (training_epoch_next training dcn rng n_batches 0 _ _ E)
      as (sx & _ & -> & Px & _).
    rewrite record_averages_perf. destruct (decide (Training = Training)); [|congruence].
    rewrite length_app, Px, <- P0. cbn [perf set_current_epoch length]. lia.
  - exfalso. exact (training_epoch_not_break training dcn rng n_batches 0 _ _ _ E).
  - unfold finish. cbn [result_of effects performance_log].
    split; [left; reflexivity|]. split; [exact W|].
    split; [intros key; rewrite (proj1 (V key)), <- P0; reflexivity|discriminate].
  - unfold finish. cbn [result_of effects performance_log].
    split; [right; eexists; reflexivity|]. split; [exact W|].
    split; [intros key; rewrite (proj1 (V key)), <- P0; reflexivity|discriminate].
Qed.

(** X6.  With [learning_rate_reduction_schedule = 0] the first epoch is not
    affected (the test [epoch > 0] short-circuits the modulo), and every later
    epoch raises ZeroDivisionError before it fetches a batch.  A run of one
    epoch completes; a longer run whose first epoch goes through crashes at
    the start of the second, leaving the log and the trace of the first. *)
Theorem zero_reduction_schedule_crashes_second_epoch
    (dir_exists overwrite : bool) (n_batches v_batches : nat) (s0 s1 : state) :
  TrainingSpec.learning_rate_reduction_schedule training = 0 ->
  prepare training data dcn dir_exists overwrite = SetupReady n_batches v_batches s0 ->
  epoch_body training dcn rng n_batches v_batches 0 s0 = Next s1 ->
  let r := train_dcn training data dcn rng dir_exists overwrite in
  (forall epoch s,
     (0 < epoch)%nat ->
     epoch_body training dcn rng n_batches v_batches epoch s
     = Raised ZeroDivisionError (set_current_epoch epoch s)) /\
  (TrainingSpec.n_epochs training = 1 -> result_of r = Completed) /\
  (2 <= TrainingSpec.n_epochs training -> result_of r = Crashed ZeroDivisionError) /\
  (1 <= TrainingSpec.n_epochs training ->
   effects r = trace s1 /\ performance_log r = perf s1 /\
   learning_rate s1 = TrainingSpec.learning_rate training).
Proof.
  intros Hs Hp H0. cbv zeta.
  assert (Hlater : forall epoch s,
             (0 < epoch)%nat ->
             epoch_body training dcn rng n_batches v_batches epoch s
             = Raised ZeroDivisionError (set_current_epoch epoch s)).
  { intros epoch s He. unfold epoch_body, epoch_until_display, schedule_learning_rate,
      Py.modulo, attempt.
    destruct (Z.ltb_spec 0 (Z.of_nat epoch)); [|lia].
    rewrite Hs. reflexivity. }
  split; [exact Hlater|].
  destruct (prepare_ready training data dcn _ _ _ _ _ Hp) as (_ & _ & _ & _ & L0 & _ & _).
  assert (L1 : learning_rate s1 = TrainingSpec.learning_rate training).
  { pose proof (epoch_body_rate training dcn rng n_batches v_batches 0 s0) as R.
    rewrite H0 in R. cbn [flow_state] in R. rewrite R, <- L0.
    unfold reduction_due. reflexivity. }
  unfold train_dcn. rewrite Hp. unfold run_epochs.
  split; [intros H1; rewrite H1; change (Z.to_nat 1) with 1%nat; cbn [seq for_each];
          rewrite H0; reflexivity|].
  assert (Hrun : 2 <= TrainingSpec.n_epochs training ->
                 for_each (epoch_body training dcn rng n_batches v_batches)
                   (seq 0 (Z.to_nat (TrainingSpec.n_epochs training))) s0
                 = Raised ZeroDivisionError (set_current_epoch 1 s1)).
  { intros H2. rewrite (first_epoch_first (TrainingSpec.n_epochs training)) by lia.
    destruct (Z.to_nat (TrainingSpec.n_epochs training) - 1)%nat as [|k] eqn:E; [lia|].
    cbn [seq for_each]. rewrite H0. cbn [and_then]. rewrite Hlater by lia. reflexivity. }
  split; [intros H2; rewrite (Hrun H2); reflexivity|].
  intros H1. destruct (Z.eq_dec (TrainingSpec.n_epochs training) 1) as [E1|E1].
  - rewrite E1. change (Z.to_nat 1) with 1%nat. cbn [seq for_each].
    rewrite H0. cbn. auto.
  - rewrite Hrun by lia. cbn. auto.
Qed.

(** X7.  When the validation set holds less than one batch
    ([v_batches = 0]) the first validation round appends NaN (the mean of an
    empty cache) to every validation series and then raises NameError at the
    snapshot: [batch_y] was never bound ([batch_x] neither when there is no
    training batch).  The only write of the run is the creation of the
    summary writer before the loop: no image, summary, [progress.json] or
    checkpoint has been written. *)
Theorem no_validation_batch_raises_name_error
    (dir_exists overwrite : bool) (n_batches : nat) (s0 s2 : state) :
  TrainingSpec.validation_schedule training <> 0 ->
  0 < TrainingSpec.n_epochs training ->
  prepare training data dcn dir_exists overwrite = SetupReady n_batches 0 s0 ->
  training_epoch training dcn rng n_batches 0 (set_current_epoch 0 s0) = Next s2 ->
  let r := train_dcn training data dcn rng dir_exists overwrite in
  result_of r
  = Crashed (NameError (if (n_batches =? 0)%nat then "batch_x" else "batch_y")) /\
  (forall key, tget key Validation (performance_log r)
               = tget key Validation (performance dcn) ++ [Np.NaN]) /\
  List.filter is_write (effects r) = [GetSummaryWriter].
Proof.
  intros Hvs Hn Hp Ht. cbv zeta.
  destruct (prepare_ready training data dcn _ _ _ _ _ Hp) as (_ & _ & _ & P0 & _ & T0 & C0).
  unfold train_dcn. rewrite Hp. rewrite (first_epoch_first _ Hn).
  unfold run_epochs. cbn [for_each]. unfold epoch_body, epoch_until_display.
  rewrite first_schedule. cbn [and_then].
  pose proof (fun key => training_epoch_validation_side n_batches 0
                           (set_current_epoch 0 s0) key) as V. cbv zeta in V.
  destruct (emits_training_epoch training dcn rng n_batches 0 (set_current_epoch 0 s0))
    as (evs & Htr & Hph).
  rewrite Ht in *. cbn [and_then flow_state] in *.
  unfold validation, attempt, Py.modulo.
  destruct (Z.eqb_spec (TrainingSpec.validation_schedule training) 0) as [|_]; [contradiction|].
  change (Z.of_nat 0) with 0. rewrite Z.mod_0_l by exact Hvs. cbn [Z.eqb].
  unfold validation_round. cbn [seq for_each and_then]. unfold report.
  cbn [Nat.eqb and_then]. unfold finish. cbn [result_of effects performance_log].
  split; [reflexivity|]. split.
  - intros key. rewrite record_averages_perf.
    destruct (decide (Validation = Validation)); [|congruence].
    destruct (V key) as (V1 & V2). rewrite V1, V2.
    change (caches (set_current_epoch 0 s0)) with (caches s0).
    change (perf (set_current_epoch 0 s0)) with (perf s0).
    rewrite (proj2 (C0 key)), P0. reflexivity.
  - change (trace (record_averages Validation s2)) with (trace s2).
    rewrite Htr. change (trace (set_current_epoch 0 s0)) with (trace s0). rewrite T0.
    rewrite List.filter_app, (no_write_outside_report evs); [reflexivity|].
    eapply Forall_impl; [exact Hph|]. intros ev H. simpl in *. tauto.
Qed.

End Crashes.

(* ===================================================================== *)
(** ** What the epoch averages are averages of *)
(* ===================================================================== *)

Section Averages.

Variable training : TrainingSpec.t.
Variable data : dataset.
Variable dcn : model.
Variable rng : nat -> nat -> draws.
Variables n_batches v_batches : nat.

(** X8.  The value an epoch appends to a training series is the mean over
    exactly the training steps of that epoch, although the caches are never
    cleared: each step adds one value per metric and the cache holds as many
    values as there are batches.  This needs every step to report all three
    metrics; a metric that a step leaves out keeps a stale value in the
    cache.  (With no training batch the mean is that of the empty list.) *)
Theorem training_average_is_mean_of_the_epoch
    (dir_exists overwrite : bool) (epoch : nat) (s0 s s' : state) :
  prepare training data dcn dir_exists overwrite = SetupReady n_batches v_batches s0 ->
  run_epochs training dcn rng n_batches v_batches (seq 0 epoch) s0 = Next s ->
  ran (epoch_body training dcn rng n_batches v_batches epoch s) s' ->
  (forall b m, (b < n_batches)%nat ->
               is_Some (training_step dcn epoch b !! metric_name m)) ->
  forall m,
    tget m Training (perf s')
    = tget m Training (perf s) ++ [Np.mean (training_values dcn m epoch n_batches)].
Proof.
  intros Hp Hrun Hran Hkeys m.
  destruct (prepare_ready training data dcn _ _ _ _ _ Hp) as (_ & _ & _ & _ & _ & _ & C0).
  assert (I : cache_inv n_batches v_batches (caches s)).
  { pose proof (run_epochs_caches training dcn rng (cache_inv n_batches v_batches)
                  (fun v key sp c => cache_inv_append n_batches v_batches v key sp c)
                  n_batches v_batches (seq 0 epoch) s0) as R.
    unfold on_caches in R. rewrite Hrun in R. apply R.
    intros key. destruct (C0 key) as (-> & ->). cbn. repeat split; lia. }
  destruct (epoch_anatomy training dcn rng n_batches v_batches epoch s s' Hran) as (s1 & sx & _ & _ & C1 & Hx & HT & _).
  rewrite HT. do 3 f_equal.
  assert (Hk : forall b m, In b (seq 0 n_batches) ->
                           is_Some (training_step dcn epoch b !! metric_name m)).
  { intros b m' Hb. apply Hkeys. apply in_seq in Hb. lia. }
  destruct (training_batches_cells training dcn rng epoch (seq 0 n_batches) s1 sx Hk Hx m) as (-> & _).
  rewrite C1. destruct (I m) as (M1 & _ & L1 & _).
  apply full_turn; [lia|]. unfold training_values. rewrite length_map, length_seq. lia.
Qed.

(** X9.  The value a validation epoch appends to a validation series is the
    mean over exactly the validation batches of that round; an epoch that is
    not a validation epoch leaves the validation series as they are. *)
Theorem validation_average_is_mean_of_the_round
    (dir_exists overwrite : bool) (epoch : nat) (s0 s s' : state) :
  prepare training data dcn dir_exists overwrite = SetupReady n_batches v_batches s0 ->
  run_epochs training dcn rng n_batches v_batches (seq 0 epoch) s0 = Next s ->
  ran (epoch_body training dcn rng n_batches v_batches epoch s) s' ->
  forall m,
    tget m Validation (perf s')
    = if is_validation_epoch training epoch
      then tget m Validation (perf s) ++ [Np.mean (validation_values dcn m epoch v_batches)]
      else tget m Validation (perf s).
Proof.
  intros Hp Hrun Hran m.
  destruct (prepare_ready training data dcn _ _ _ _ _ Hp) as (_ & _ & _ & _ & _ & _ & C0).
  assert (I : cache_inv n_batches v_batches (caches s)).
  { pose proof (run_epochs_caches training dcn rng (cache_inv n_batches v_batches)
                  (fun v key sp c => cache_inv_append n_batches v_batches v key sp c)
                  n_batches v_batches (seq 0 epoch) s0) as R.
    unfold on_caches in R. rewrite Hrun in R. apply R.
    intros key. destruct (C0 key) as (-> & ->). cbn. repeat split; lia. }
  destruct (epoch_anatomy training dcn rng n_batches v_batches epoch s s' Hran) as (s1 & sx & _ & _ & C1 & Hx & _ & HV).
  rewrite HV. destruct (is_validation_epoch training epoch); [|reflexivity].
  do 3 f_equal.
  pose proof (training_batches_cache_inv training dcn rng n_batches v_batches epoch
                (seq 0 n_batches) s1) as Ix.
  rewrite Hx in Ix. cbn [flow_state] in Ix. rewrite C1 in Ix.
  destruct (Ix I m) as (_ & M2 & _ & L2).
  apply full_turn; [lia|]. unfold validation_values. rewrite length_map, length_seq. lia.
Qed.

End Averages.

(* ===================================================================== *)
(** ** The further statements on small inputs *)
(* ===================================================================== *)

Lemma nan_in_window_on_with_nan :
  check_stop Example.training (Edge.at_log Edge.with_nan)
  = Next (Edge.at_log Edge.with_nan).
Proof.
  apply (nan_in_window_disables_early_stop Example.training (Edge.at_log Edge.with_nan)).
  - vm_compute. lia.
  - vm_compute. right. right. right. right. left. reflexivity.
Defined.

Lemma zero_previous_on_centred :
  (forall s',
     check_stop Example.training (Edge.at_log (map Np.Fin Edge.centred))
     <> Break Converged s') /\
  ((exists s',
      check_stop Example.training (Edge.at_log (map Np.Fin Edge.centred))
      = Break Deteriorated s')
   <-> Np.ltb (current (map Np.Fin Edge.centred)) (Np.Fin 0) = true).
Proof.
  apply (zero_previous_never_converges Example.training
           (Edge.at_log (map Np.Fin Edge.centred)) (0 # 50000)).
  - vm_compute. lia.
  - vm_compute. reflexivity.
  - vm_compute. reflexivity.
Defined.

Lemma early_stop_on_plateau :
  let r := train_dcn Example.training Example.data (Example.dcn Example.plateau)
             Example.rng false false in
  result_of r = EarlyStop Converged /\
  (6 <= length (tget Ssim Validation (performance_log r)))%nat /\
  Np.ltb (perf_change (tget Ssim Validation (performance_log r))) (Np.Fin (1 # 100)) = true.
Proof.
  cbv zeta.
  assert (H : result_of (train_dcn Example.training Example.data
                           (Example.dcn Example.plateau) Example.rng false false)
              = EarlyStop Converged) by (vm_compute; reflexivity).
  split; [exact H|].
  destruct (early_stop_is_justified_by_the_log Example.training Example.data
              (Example.dcn Example.plateau) Example.rng false false Converged H)
    as (H1 & H2 & _).
  split; [exact H1|exact H2].
Defined.

Lemma zero_validation_schedule_on_the_example :
  let r := train_dcn Edge.training_no_validation_schedule Example.data
             (Example.dcn Example.plateau) Example.rng false false in
  result_of r = Crashed ZeroDivisionError /\
  List.filter is_write (effects r) = [GetSummaryWriter] /\
  tget Loss Training (performance_log r) = [Np.Fin (2 # 2)] /\
  tget Loss Validation (performance_log r) = [].
Proof.
  cbv zeta.
  destruct (zero_validation_schedule_crashes_first_epoch
              Edge.training_no_validation_schedule Example.data
              (Example.dcn Example.plateau) Example.rng false false 2 1
              (Example.start (1 # 10)))
    as (_ & W & V & C).
  - reflexivity.
  - reflexivity.
  - vm_compute. reflexivity.
  - destruct (C (flow_state
                   (training_epoch Edge.training_no_validation_schedule
                      (Example.dcn Example.plateau) Example.rng 2 0
                      (set_current_epoch 0 (Example.start (1 # 10))))))
      as (R & P & _); [vm_compute; reflexivity|].
    split; [exact R|]. split; [exact W|]. split; [|rewrite (V Loss); reflexivity].
    rewrite P. vm_compute. reflexivity.
Defined.

Lemma zero_reduction_schedule_on_the_example :
  let r := train_dcn Edge.training_no_reduction_schedule Example.data
             (Example.dcn Example.plateau) Example.rng false false in
  result_of r = Crashed ZeroDivisionError /\
  length (List.filter (fun ev => match ev with TrainingStep _ _ _ _ => true | _ => false end)
            (effects r)) = 2%nat.
Proof.
  cbv zeta.
  destruct (zero_reduction_schedule_crashes_second_epoch
              Edge.training_no_reduction_schedule Example.data
              (Example.dcn Example.plateau) Example.rng false false 2 1
              (Example.start (1 # 10))
              (flow_state (epoch_body Edge.training_no_reduction_schedule
                             (Example.dcn Example.plateau) Example.rng 2 1 0
                             (Example.start (1 # 10)))))
    as (_ & _ & C & E).
  - reflexivity.
  - vm_compute. reflexivity.
  - vm_compute. reflexivity.
  - split; [apply C; vm_compute; discriminate|].
    destruct E as (E & _); [vm_compute; discriminate|].
    rewrite E. vm_compute. reflexivity.
Defined.

Lemma no_validation_batch_on_small_validation :
  let r := train_dcn Example.training Edge.data_small_validation
             (Example.dcn Example.plateau) Example.rng false false in
  result_of r = Crashed (NameError "batch_y") /\
  tget Ssim Validation (performance_log r) = [Np.NaN] /\
  List.filter is_write (effects r) = [GetSummaryWriter].
Proof.
  cbv zeta.
  destruct (no_validation_batch_raises_name_error Example.training
              Edge.data_small_validation (Example.dcn Example.plateau) Example.rng
              false false 2 Edge.start_small_validation
              (flow_state
                 (training_epoch Example.training (Example.dcn Example.plateau)
                    Example.rng 2 0 (set_current_epoch 0 Edge.start_small_validation))))
    as (R & V & W).
  - vm_compute. discriminate.
  - reflexivity.
  - vm_compute. reflexivity.
  - vm_compute. reflexivity.
  - split; [exact R|]. split; [exact (V Ssim)|exact W].
Defined.

Lemma training_average_on_the_example :
  tget Ssim Training (perf (Example.after (Example.dcn Example.plateau) 2))
  = tget Ssim Training (perf (Example.after (Example.dcn Example.plateau) 1))
    ++ [Np.mean (training_values (Example.dcn Example.plateau) Ssim 1 2)].
Proof.
  apply (training_average_is_mean_of_the_epoch Example.training Example.data
           (Example.dcn Example.plateau) Example.rng 2 1 false false 1
           (Example.start (1 # 10)) (Example.after (Example.dcn Example.plateau) 1)
           (Example.after (Example.dcn Example.plateau) 2)).
  - vm_compute. reflexivity.
  - vm_compute. reflexivity.
  - left. vm_compute. reflexivity.
  - intros b m _. destruct m; vm_compute; eauto.
Defined.

Lemma validation_average_on_the_example :
  tget Ssim Validation (perf (Example.after (Example.dcn Example.plateau) 2))
  = tget Ssim Validation (perf (Example.after (Example.dcn Example.plateau) 1))
    ++ [Np.mean (validation_values (Example.dcn Example.plateau) Ssim 1 1)].
Proof.
  apply (validation_average_is_mean_of_the_round Example.training Example.data
           (Example.dcn Example.plateau) Example.rng 2 1 false false 1
           (Example.start (1 # 10)) (Example.after (Example.dcn Example.plateau) 1)
           (Example.after (Example.dcn Example.plateau) 2)).
  - vm_compute. reflexivity.
  - vm_compute. reflexivity.
  - left. vm_compute. reflexivity.
Defined.
